(** * Adaptive PDF structure extraction: a shallow embedding

    This development embeds the heuristic extraction engine of
    [app/phase1_pdf_processing] (the book-type analyzer, the adaptive index
    extractor, the adaptive table extractor and the first-content-page scan
    of the processor) and proves properties of it.

    Modelling conventions.
    - Python [str] values are [string]s; characters are 8-bit [ascii] and
      the character classes ([\s], [\d], [\w], case) are those of the ASCII
      range, so the model covers text whose code points are below 128.
    - Python [int]s are [Z]; [len] results are [nat] and are injected into
      [Z] where the source compares them with configuration integers.
    - Python [float]s are IEEE binary64 primitive floats.
    - A pattern of the configuration is held as a parsed [regex]; the
      matcher below is a backtracking matcher with the priorities of
      Python's [re] (ordered alternation, greedy and lazy repetition).
    - Dictionaries with a fixed set of keys are records; the [set]s of
      titles are [gset string]; entry dictionaries that the source mutates
      after storing them in a list live in an explicit object store. *)

From Stdlib Require Import ZArith Ascii String List Lia Sorted.
From Stdlib Require Import Floats.PrimFloat Numbers.Cyclic.Int63.Uint63.
From stdpp Require Import base decidable option list gmap strings.

Set Warnings "-inexact-float".

Local Open Scope string_scope.
Local Open Scope Z_scope.

(** ** Characters and Python string methods *)

Module PyStr.

Definition code (c : ascii) : N := N_of_ascii c.

Definition in_range (lo hi c : ascii) : bool :=
  ((code lo <=? code c) && (code c <=? code hi))%N.

Definition is_upper (c : ascii) : bool := in_range "A" "Z" c.
Definition is_lower (c : ascii) : bool := in_range "a" "z" c.
Definition is_digit (c : ascii) : bool := in_range "0" "9" c.

(** [str.isspace] on one character: TAB, LF, VT, FF, CR, the four
    separators 0x1c..0x1f and the blank. *)
Definition is_space (c : ascii) : bool :=
  ((9 <=? code c) && (code c <=? 13) || (28 <=? code c) && (code c <=? 32))%N.

(** The class [\w]. *)
Definition is_word (c : ascii) : bool :=
  is_upper c || is_lower c || is_digit c || Ascii.eqb c "_".

Definition lower_char (c : ascii) : ascii :=
  if is_upper c then ascii_of_N (code c + 32) else c.

Definition upper_char (c : ascii) : ascii :=
  if is_lower c then ascii_of_N (code c - 32) else c.

Definition nl_char : ascii := "010".
Definition nl : string := String nl_char EmptyString.
Definition quote_char : ascii := "034".

(** [s.lower()] *)
Fixpoint lower (s : string) : string :=
  match s with
  | EmptyString => EmptyString
  | String c s' => String (lower_char c) (lower s')
  end.

(** [s.lstrip()], [s.rstrip()], [s.strip()] *)
Fixpoint lstrip (s : string) : string :=
  match s with
  | EmptyString => EmptyString
  | String c s' => if is_space c then lstrip s' else s
  end.

Fixpoint rstrip (s : string) : string :=
  match s with
  | EmptyString => EmptyString
  | String c s' =>
      match rstrip s' with
      | EmptyString => if is_space c then EmptyString else String c EmptyString
      | t => String c t
      end
  end.

Definition strip (s : string) : string := rstrip (lstrip s).

(** [s.split(sep)] for a one-character separator: empty fields are kept. *)
Fixpoint split_on (sep : ascii) (s : string) : list string :=
  match s with
  | EmptyString => [EmptyString]
  | String c s' =>
      if Ascii.eqb c sep then EmptyString :: split_on sep s'
      else match split_on sep s' with
           | w :: ws => String c w :: ws
           | [] => [String c EmptyString]
           end
  end.

Definition split_lines (s : string) : list string := split_on nl_char s.

(** [s.split()]: fields separated by runs of white space, none empty. *)
Fixpoint split_ws_aux (cur : string) (s : string) : list string :=
  match s with
  | EmptyString => match cur with EmptyString => [] | _ => [cur] end
  | String c s' =>
      if is_space c
      then match cur with
           | EmptyString => split_ws_aux EmptyString s'
           | _ => cur :: split_ws_aux EmptyString s'
           end
      else split_ws_aux (cur ++ String c EmptyString) s'
  end.

Definition split_ws (s : string) : list string := split_ws_aux EmptyString s.

(** [sep.join(parts)] *)
Fixpoint join (sep : string) (parts : list string) : string :=
  match parts with
  | [] => EmptyString
  | [p] => p
  | p :: ps => p ++ sep ++ join sep ps
  end.

(** [s.startswith(p)] *)
Fixpoint startswith (p s : string) : bool :=
  match p, s with
  | EmptyString, _ => true
  | String a p', String b s' => Ascii.eqb a b && startswith p' s'
  | String _ _, EmptyString => false
  end.

(** [p in s] *)
Fixpoint contains (p s : string) : bool :=
  startswith p s ||
  match s with
  | EmptyString => false
  | String _ s' => contains p s'
  end.

(** [s.isupper()]: some cased character, and no lower-case one. *)
Fixpoint has_upper (s : string) : bool :=
  match s with
  | EmptyString => false
  | String c s' => is_upper c || has_upper s'
  end.

Fixpoint has_lower (s : string) : bool :=
  match s with
  | EmptyString => false
  | String c s' => is_lower c || has_lower s'
  end.

Definition isupper (s : string) : bool := has_upper s && negb (has_lower s).

(** [s[0].isupper()] on a string known to be non-empty; the empty string
    has no first character and answers [false] here. *)
Definition first_isupper (s : string) : bool :=
  match s with
  | EmptyString => false
  | String c _ => is_upper c
  end.

(** [s.isdigit()] *)
Fixpoint all_digits (s : string) : bool :=
  match s with
  | EmptyString => true
  | String c s' => is_digit c && all_digits s'
  end.

Definition isdigit (s : string) : bool :=
  match s with
  | EmptyString => false
  | _ => all_digits s
  end.

(** [int(s)] on a string of decimal digits. *)
Fixpoint int_of_digits (acc : Z) (s : string) : Z :=
  match s with
  | EmptyString => acc
  | String c s' => int_of_digits (10 * acc + (Z.of_N (code c) - 48)) s'
  end.

Definition int_of (s : string) : Z := int_of_digits 0 s.

(** [s[:n]] for a natural [n] *)
Fixpoint take_str (n : nat) (s : string) : string :=
  match n, s with
  | O, _ => EmptyString
  | S n', String c s' => String c (take_str n' s')
  | S _, EmptyString => EmptyString
  end.

(** Truthiness of a string. *)
Definition nonempty (s : string) : bool :=
  match s with
  | EmptyString => false
  | _ => true
  end.

(** [len(s)] as a Python integer. *)
Definition len (s : string) : Z := Z.of_nat (String.length s).

(** A string of [n] blanks. *)
Fixpoint blanks (n : nat) : string :=
  match n with
  | O => EmptyString
  | S n' => String " " (blanks n')
  end.

End PyStr.

(** ** Regular expressions

    The fragment of Python's [re] syntax that the patterns of the source
    use, as an abstract syntax, and a backtracking matcher for it. *)

Module Re.
Import PyStr.

(** Members of a bracketed set. *)
Inductive citem : Type :=
| CChar (c : ascii)            (* a literal member *)
| CRange (lo hi : ascii)       (* [lo-hi] *)
| CSpace                       (* [\s] *)
| CDigit                       (* [\d] *)
| CWord.                       (* [\w] *)

Inductive regex : Type :=
| REmpty
| RChar (c : ascii)                       (* a literal character *)
| RAny                                    (* [.], anything but a newline *)
| RSet (negated : bool) (items : list citem)
| RBol                                    (* [^] without MULTILINE *)
| REol                                    (* [$] without MULTILINE *)
| RWordB                                  (* [\b] *)
| RSeq (r1 r2 : regex)
| RAlt (r1 r2 : regex)                    (* [r1|r2], [r1] tried first *)
| RGroup (i : nat) (r : regex)            (* capturing group number [i+1] *)
| RRepeat (lo : nat) (hi : option nat) (greedy : bool) (r : regex).

(** *** Characters *)

Definition char_matches (ic : bool) (c x : ascii) : bool :=
  if ic then Ascii.eqb (lower_char c) (lower_char x) else Ascii.eqb c x.

(** With IGNORECASE a literal or a range of a set stands for the lower-case
    images of its members, and the subject character is lower-cased before
    the test. *)
Definition item_matches (ic : bool) (x : ascii) (it : citem) : bool :=
  match it with
  | CChar c => char_matches ic c x
  | CRange lo hi =>
      if ic then in_range lo hi (lower_char x) || in_range lo hi (upper_char x)
      else in_range lo hi x
  | CSpace => is_space x
  | CDigit => is_digit x
  | CWord => is_word x
  end.

Definition set_matches (ic negated : bool) (items : list citem) (x : ascii) : bool :=
  xorb negated (existsb (item_matches ic x) items).

Definition word_at (o : option ascii) : bool :=
  match o with
  | Some c => is_word c
  | None => false
  end.

Definition head_char (s : string) : option ascii :=
  match s with
  | EmptyString => None
  | String c _ => Some c
  end.

(** *** Captures *)

Definition caps : Type := list (option string).

(** The text consumed between the subject suffix [s] and its later suffix
    [s']. *)
Definition consumed (s s' : string) : string :=
  take_str (String.length s - String.length s') s.

(** Number of capturing groups of a pattern: the length of [groups()]. *)
Fixpoint ngroups (r : regex) : nat :=
  match r with
  | RSeq r1 r2 | RAlt r1 r2 => Nat.max (ngroups r1) (ngroups r2)
  | RGroup i r1 => Nat.max (S i) (ngroups r1)
  | RRepeat _ _ _ r1 => ngroups r1
  | _ => 0%nat
  end.

(** *** The matcher

    [m ic r prev s c k] matches [r] at the position whose previous
    character is [prev] and whose remaining text is [s], with captures [c],
    and hands the position reached to the continuation [k]; alternatives
    are explored in the order of Python's engine, so the first success is
    the match that [re] reports.  A repetition runs its body at most [lo]
    times without progress and then only while the body consumes text, so
    the bound [lo + length s + 1] on its iterations is never the reason
    for a failure. *)

Definition cont : Type := option ascii -> string -> caps -> option caps.

Definition or_else (a : option caps) (b : unit -> option caps) : option caps :=
  match a with
  | Some x => Some x
  | None => b tt
  end.

Definition reached (hi : option nat) (cnt : nat) : bool :=
  match hi with
  | Some h => (h <=? cnt)%nat
  | None => false
  end.

Fixpoint m (ic : bool) (r : regex) (prev : option ascii) (s : string)
    (c : caps) (k : cont) {struct r} : option caps :=
  match r with
  | REmpty => k prev s c
  | RChar a =>
      match s with
      | String x s' => if char_matches ic a x then k (Some x) s' c else None
      | EmptyString => None
      end
  | RAny =>
      match s with
      | String x s' => if Ascii.eqb x nl_char then None else k (Some x) s' c
      | EmptyString => None
      end
  | RSet negated items =>
      match s with
      | String x s' => if set_matches ic negated items x then k (Some x) s' c else None
      | EmptyString => None
      end
  | RBol => match prev with None => k prev s c | Some _ => None end
  | REol => if String.eqb s EmptyString || String.eqb s nl then k prev s c else None
  | RWordB => if xorb (word_at prev) (word_at (head_char s)) then k prev s c else None
  | RSeq r1 r2 => m ic r1 prev s c (fun p' s' c' => m ic r2 p' s' c' k)
  | RAlt r1 r2 => or_else (m ic r1 prev s c k) (fun _ => m ic r2 prev s c k)
  | RGroup i r1 =>
      m ic r1 prev s c (fun p' s' c' => k p' s' (<[i := Some (consumed s s')]> c'))
  | RRepeat lo hi greedy r1 =>
      (fix loop (fuel cnt : nat) (prev : option ascii) (s : string) (c : caps)
           {struct fuel} : option caps :=
         match fuel with
         | O => None
         | S fuel' =>
             let again (_ : unit) :=
               m ic r1 prev s c (fun p' s' c' =>
                 if (cnt <? lo)%nat || (String.length s' <? String.length s)%nat
                 then loop fuel' (S cnt) p' s' c'
                 else None) in
             if (cnt <? lo)%nat then again tt
             else if reached hi cnt then k prev s c
             else if greedy then or_else (again tt) (fun _ => k prev s c)
             else or_else (k prev s c) again
         end) (lo + String.length s + 1)%nat O prev s c
  end.

Definition accept : cont := fun _ _ c => Some c.

Definition no_caps (r : regex) : caps := replicate (ngroups r) None.

(** [re.match(r, s)]: a match at the start of [s]; the result is
    [groups()]. *)
Definition match_ (ic : bool) (r : regex) (s : string) : option caps :=
  m ic r None s (no_caps r) accept.

(** [re.search(r, s)]: the leftmost match. *)
Fixpoint search_from (ic : bool) (r : regex) (prev : option ascii) (s : string)
    : option caps :=
  match m ic r prev s (no_caps r) accept with
  | Some c => Some c
  | None =>
      match s with
      | EmptyString => None
      | String x s' => search_from ic r (Some x) s'
      end
  end.

Definition search (ic : bool) (r : regex) (s : string) : bool :=
  match search_from ic r None s with
  | Some _ => true
  | None => false
  end.

(** The positions of a text of blanks: its start, or after a blank. *)
Definition blank_or_start (prev : option ascii) : Prop :=
  prev = None \/ prev = Some " "%char.

(** *** Notation for writing patterns *)

Fixpoint lit (s : string) : regex :=
  match s with
  | EmptyString => REmpty
  | String c EmptyString => RChar c
  | String c s' => RSeq (RChar c) (lit s')
  end.

Fixpoint seqs (rs : list regex) : regex :=
  match rs with
  | [] => REmpty
  | [r] => r
  | r :: rs' => RSeq r (seqs rs')
  end.

Fixpoint alts (rs : list regex) : regex :=
  match rs with
  | [] => RSet false []
  | [r] => r
  | r :: rs' => RAlt r (alts rs')
  end.

Definition star (r : regex) : regex := RRepeat 0 None true r.
Definition plus (r : regex) : regex := RRepeat 1 None true r.
Definition opt (r : regex) : regex := RRepeat 0 (Some 1%nat) true r.
Definition lazy_plus (r : regex) : regex := RRepeat 1 None false r.
Definition at_least (n : nat) (r : regex) : regex := RRepeat n None true r.
Definition between (lo hi : nat) (r : regex) : regex := RRepeat lo (Some hi) true r.

Definition space : regex := RSet false [CSpace].      (* [\s] *)
Definition digit : regex := RSet false [CDigit].      (* [\d] *)
Definition spaces1 : regex := plus space.             (* [\s+] *)
Definition digits1 : regex := plus digit.             (* [\d+] *)
Definition word (w : string) : regex := seqs [RWordB; lit w; RWordB].

(** The enumerator tail [[\.\)]] and the numerals [[IVX]]. *)
Definition dot_or_paren : regex := RSet false [CChar "."; CChar ")"].
Definition roman : regex := RSet false [CChar "I"; CChar "V"; CChar "X"].

End Re.

Import PyStr Re.

(** ** Numbers *)

(** A Python integer as a float (exact below 2^53). *)
Definition Z_to_float (z : Z) : float :=
  if z <? 0 then PrimFloat.opp (PrimFloat.of_uint63 (Uint63.of_Z (- z)))
  else PrimFloat.of_uint63 (Uint63.of_Z z).

(** [a / b] on Python integers *)
Definition true_div (a b : Z) : float :=
  PrimFloat.div (Z_to_float a) (Z_to_float b).

(** [sum(1 for x in xs if f x)] *)
Definition sum_ones {A : Type} (f : A -> bool) (xs : list A) : Z :=
  fold_left (fun acc x => if f x then acc + 1 else acc) xs 0.

(** [len(xs)] as a Python integer *)
Definition zlen {A : Type} (xs : list A) : Z := Z.of_nat (length xs).

(** [xs[:n]] and [xs[n:]] for a Python integer [n], negative bounds
    counting from the end. *)
Definition slice_to {A : Type} (n : Z) (xs : list A) : list A :=
  if n <? 0 then take (Z.to_nat (zlen xs + n)) xs else take (Z.to_nat n) xs.

Definition slice_from {A : Type} (n : Z) (xs : list A) : list A :=
  if n <? 0 then drop (Z.to_nat (zlen xs + n)) xs else drop (Z.to_nat n) xs.

(** ** Results and exceptions *)

(** What a call produces: a value, or an exception that leaves the
    function. *)
Inductive outcome (A : Type) : Type :=
| Returns (a : A)
| Raises.
Arguments Returns {A} a.
Arguments Raises {A}.

(** [a > n * 0.5] on Python integers.  The product by 0.5 is exact in
    binary64 and Python compares an integer with a float exactly. *)
Definition exceeds_half (a n : Z) : bool := n <? 2 * a.

(** [a > n * 1.5], exact for the same reason. *)
Definition exceeds_one_and_half (a n : Z) : bool := 3 * n <? 2 * a.

(** ** Book types and the extraction configuration *)

Inductive BookType : Type := ACADEMIC | NOVEL | TEXTBOOK | MANUAL | UNKNOWN.

Record ExtractionConfig : Type := {
  index_keywords : list regex;
  index_patterns : list regex;
  max_index_pages : Z;
  min_index_entries : Z;
  content_indicators : list regex;
  min_content_length : Z;
  skip_initial_pages : Z;
  min_table_rows : Z;
  min_table_cols : Z;
  min_table_cell_fill : float;
  max_cell_length : Z
}.

(** The defaults of [__post_init__]. *)

(** [\btable\s+of\s+contents\b], [\bcontents\b], [\bindex\b], [\btoc\b],
    [\boverview\b], [\bchapters?\b] *)
Definition default_index_keywords : list regex :=
  [ seqs [RWordB; lit "table"; spaces1; lit "of"; spaces1; lit "contents"; RWordB];
    word "contents";
    word "index";
    word "toc";
    word "overview";
    seqs [RWordB; lit "chapter"; opt (RChar "s"); RWordB] ].

(** The optional page reference [(?:[\s]*\.{2,}[\s]*(\d+))?], its digits
    being group [g+1]. *)
Definition page_ref_tail (g : nat) : regex :=
  opt (seqs [star space; at_least 2 (RChar "."); star space; RGroup g digits1]).

(** [[IVX]+[\.\)]?|\d+[\.\)]?] *)
Definition enumerator : list regex :=
  [ seqs [plus roman; opt dot_or_paren];
    seqs [digits1; opt dot_or_paren] ].

(** The three entry-line patterns:
    [^[\s]*([IVX]+[\.\)]?|\d+[\.\)]?|chapter\s+\d+|part\s+\d+)[\s]+(.+?)(?:[\s]*\.{2,}[\s]*(\d+))?[\s]*$],
    [^[\s]*([IVX]+[\.\)]?|\d+[\.\)]?)[\s]+(.+?)[\s]*$] and
    [^[\s]*([A-Z][^\.]{3,50})(?:[\s]*\.{2,}[\s]*(\d+))?[\s]*$]. *)
Definition default_index_patterns : list regex :=
  [ seqs [RBol; star space;
          RGroup 0 (alts (enumerator ++
                          [ seqs [lit "chapter"; spaces1; digits1];
                            seqs [lit "part"; spaces1; digits1] ]));
          plus space;
          RGroup 1 (lazy_plus RAny);
          page_ref_tail 2;
          star space; REol];
    seqs [RBol; star space;
          RGroup 0 (alts enumerator);
          plus space;
          RGroup 1 (lazy_plus RAny);
          star space; REol];
    seqs [RBol; star space;
          RGroup 0 (seqs [RSet false [CRange "A" "Z"];
                          between 3 50 (RSet true [CChar "."])]);
          page_ref_tail 1;
          star space; REol] ].

(** [\bintroduction\b], [\bchapter\s+[1i]], [\bpreface\b], [\bforeword\b],
    [\bprologue\b], [\bpart\s+[1i]] *)
Definition fallback_content_indicators : list regex :=
  [ word "introduction";
    seqs [RWordB; lit "chapter"; spaces1; RSet false [CChar "1"; CChar "i"]];
    word "preface";
    word "foreword";
    word "prologue";
    seqs [RWordB; lit "part"; spaces1; RSet false [CChar "1"; CChar "i"]] ].

(** The same six, then [\bchapter\s+one\b] and [\bchapter\s+first\b]. *)
Definition default_content_indicators : list regex :=
  fallback_content_indicators ++
  [ seqs [RWordB; lit "chapter"; spaces1; lit "one"; RWordB];
    seqs [RWordB; lit "chapter"; spaces1; lit "first"; RWordB] ].

(** [ExtractionConfig()] *)
Definition default_config : ExtractionConfig := {|
  index_keywords := default_index_keywords;
  index_patterns := default_index_patterns;
  max_index_pages := 15;
  min_index_entries := 3;
  content_indicators := default_content_indicators;
  min_content_length := 200;
  skip_initial_pages := 0;
  min_table_rows := 2;
  min_table_cols := 2;
  min_table_cell_fill := 0.3;
  max_cell_length := 500
|}.

(** ** BookStructureAnalyzer *)

Module BookStructureAnalyzer.

(** [\breferences\b], [\bbibliography\b], [\bcitation\b], [\babstract\b],
    [\bintroduction\b], [\bconclusion\b], [\bfigure\s+\d+], [\btable\s+\d+],
    [\bequation\b] *)
Definition academic_indicators : list regex :=
  [ word "references"; word "bibliography"; word "citation";
    word "abstract"; word "introduction"; word "conclusion";
    seqs [RWordB; lit "figure"; spaces1; digits1];
    seqs [RWordB; lit "table"; spaces1; digits1];
    word "equation" ].

(** [\bchapter\s+\d+], [\bpart\s+\d+], [\bepilogue\b], a quoted run of at
    least twenty characters, [\bhe\s+said\b], [\bshe\s+said\b] *)
Definition novel_indicators : list regex :=
  [ seqs [RWordB; lit "chapter"; spaces1; digits1];
    seqs [RWordB; lit "part"; spaces1; digits1];
    word "epilogue";
    seqs [RChar quote_char; at_least 20 (RSet true [CChar quote_char]); RChar quote_char];
    seqs [RWordB; lit "he"; spaces1; lit "said"; RWordB];
    seqs [RWordB; lit "she"; spaces1; lit "said"; RWordB] ].

(** [\bstep\s+\d+], [\bprocedure\b], [\binstruction\b], [\bhow\s+to\b],
    [\btutorial\b], [\bguide\b] *)
Definition manual_indicators : list regex :=
  [ seqs [RWordB; lit "step"; spaces1; digits1];
    word "procedure"; word "instruction";
    seqs [RWordB; lit "how"; spaces1; lit "to"; RWordB];
    word "tutorial"; word "guide" ].

Definition score (indicators : list regex) (combined_text : string) : Z :=
  sum_ones (fun pattern => search true pattern combined_text) indicators.

Definition analyze_book_type (text_samples : list string) (total_pages : Z) : BookType :=
  let combined_text := lower (join " " text_samples) in
  let academic_score := score academic_indicators combined_text in
  let novel_score := score novel_indicators combined_text in
  let manual_score := score manual_indicators combined_text in
  if 3 <=? academic_score then ACADEMIC
  else if (2 <=? novel_score) && (100 <? total_pages) then NOVEL
  else if 2 <=? manual_score then MANUAL
  else if 2 <=? academic_score then TEXTBOOK
  else UNKNOWN.

Definition get_config_for_type (book_type : BookType) : ExtractionConfig :=
  match book_type with
  | ACADEMIC =>
      {| index_keywords := default_index_keywords;
         index_patterns := default_index_patterns;
         max_index_pages := 20;
         min_index_entries := 5;
         content_indicators := default_content_indicators;
         min_content_length := 300;
         skip_initial_pages := 0;
         min_table_rows := 2;
         min_table_cols := 2;
         min_table_cell_fill := 0.4;
         max_cell_length := 500 |}
  | TEXTBOOK =>
      {| index_keywords := default_index_keywords;
         index_patterns := default_index_patterns;
         max_index_pages := 25;
         min_index_entries := 10;
         content_indicators := default_content_indicators;
         min_content_length := 250;
         skip_initial_pages := 0;
         min_table_rows := 2;
         min_table_cols := 2;
         min_table_cell_fill := 0.35;
         max_cell_length := 500 |}
  | NOVEL =>
      {| index_keywords := default_index_keywords;
         index_patterns := default_index_patterns;
         max_index_pages := 5;
         min_index_entries := 1;
         content_indicators := default_content_indicators;
         min_content_length := 100;
         skip_initial_pages := 3;
         min_table_rows := 2;
         min_table_cols := 2;
         min_table_cell_fill := 0.3;
         max_cell_length := 500 |}
  | MANUAL =>
      {| index_keywords := default_index_keywords;
         index_patterns := default_index_patterns;
         max_index_pages := 15;
         min_index_entries := 3;
         content_indicators := default_content_indicators;
         min_content_length := 150;
         skip_initial_pages := 0;
         min_table_rows := 2;
         min_table_cols := 2;
         min_table_cell_fill := 0.3;
         max_cell_length := 500 |}
  | UNKNOWN => default_config
  end.

End BookStructureAnalyzer.

(** ** AdaptiveIndexExtractor *)

Module AdaptiveIndexExtractor.

(** A page dictionary, with its keys ['page_number'] and ['text']. *)
Record page : Type := { page_number : Z; text : string }.

#[global] Instance page_eq_dec : EqDecision page.
Proof. solve_decision. Defined.

(** An entry dictionary. *)
Record entry : Type := {
  entry_number : option string;
  title : string;
  page_reference : option Z
}.

(** The dictionary that [extract] returns. *)
Record index_result : Type := {
  result_page_number : Z;
  result_pages : list Z;
  has_index_keyword : bool;
  result_entries : list entry;
  raw_text : string
}.

(** [[IVX]+[\.\)]|\d+[\.\)]] *)
Definition numbered_re : regex :=
  alts [ seqs [plus roman; dot_or_paren]; seqs [digits1; dot_or_paren] ].

(** [^[IVX]+[\.\)]|\d+[\.\)]]: the anchor belongs to the first branch. *)
Definition numbered_start_re : regex :=
  alts [ seqs [RBol; plus roman; dot_or_paren]; seqs [digits1; dot_or_paren] ].

(** [(this|the|we|it|in|on|at|as|to|for|of|a|an)] *)
Definition starter_words : regex :=
  RGroup 0 (alts (map lit
    ["this"; "the"; "we"; "it"; "in"; "on"; "at"; "as"; "to"; "for"; "of"; "a"; "an"])).

Definition lower_letter : regex := RSet false [CRange "a" "z"].

(** [^(this|...|an)\s+[a-z]] *)
Definition content_starters : regex :=
  seqs [RBol; starter_words; spaces1; lower_letter].

(** [^(this|...|an)\s+[a-z]{10,}] *)
Definition long_starter_re : regex :=
  seqs [RBol; starter_words; spaces1; at_least 10 lower_letter].

(** [^PROLOGUE$] *)
Definition prologue_re : regex := seqs [RBol; lit "PROLOGUE"; REol].

(** [[l.strip() for l in text.split('\n') if l.strip()]] *)
Definition stripped_lines (text : string) : list string :=
  List.filter nonempty (map strip (split_lines text)).

(** [pages.index(page)]; the page is always drawn from [pages]. *)
Definition index_of (p : page) (pages : list page) : nat :=
  match list_find (fun q => q = p) pages with
  | Some (i, _) => i
  | None => length pages
  end.

Definition _looks_like_index_continuation (text : string) : bool :=
  let lines := stripped_lines text in
  if zlen lines <? 3 then false
  else
    let numbered := sum_ones (fun l => search false numbered_re l) lines in
    let short_lines := sum_ones (fun l => (5 <? len l) && (len l <? 100)) lines in
    let content_indicators := ["this"; "the"; "we"; "it"; "in"; "on"; "at"] in
    let content_lines :=
      sum_ones (fun l => existsb (fun ind => startswith (ind ++ " ") (lower l))
                                 content_indicators) lines in
    ((2 <=? numbered) ||
     PrimFloat.ltb (PrimFloat.mul (Z_to_float (zlen lines)) 0.6) (Z_to_float short_lines))
    && (content_lines <? 2).

(** The continuation loop of the keyword strategy: absorb while the next
    page qualifies, stop at the first one that does not. *)
Fixpoint absorb_until_break (index_pages next_pages : list page) : list page :=
  match next_pages with
  | [] => index_pages
  | next_page :: rest =>
      if _looks_like_index_continuation (text next_page)
      then absorb_until_break
             (if bool_decide (next_page ∈ index_pages) then index_pages
              else index_pages ++ [next_page]) rest
      else index_pages
  end.

(** The continuation loop of the pattern strategy, which has no [break]. *)
Fixpoint absorb_all (index_pages next_pages : list page) : list page :=
  match next_pages with
  | [] => index_pages
  | next_page :: rest =>
      absorb_all
        (if _looks_like_index_continuation (text next_page)
            && negb (bool_decide (next_page ∈ index_pages))
         then index_pages ++ [next_page] else index_pages) rest
  end.

Section WithConfig.
Variable config : ExtractionConfig.

Definition has_keyword (s : string) : bool :=
  existsb (fun pattern => search true pattern s) (index_keywords config).

Definition _find_index_pages_by_keywords (pages : list page) : list page :=
  match List.find (fun p => has_keyword (lower (text p))) pages with
  | None => []
  | Some p =>
      let page_idx := index_of p pages in
      absorb_until_break [p] (take 2 (drop (page_idx + 1) pages))
  end.

Definition _find_index_pages_by_patterns (pages : list page) : list page :=
  let numbered_lines (p : page) :=
    sum_ones (fun line => search true numbered_re line) (split_lines (text p)) in
  match List.find (fun p => 3 <=? numbered_lines p) pages with
  | None => []
  | Some p =>
      let page_idx := index_of p pages in
      absorb_all [p] (take 1 (drop (page_idx + 1) pages))
  end.

Definition looks_statistical (p : page) : bool :=
  let lines := stripped_lines (text p) in
  if zlen lines <? 5 then false
  else
    let n := Z_to_float (zlen lines) in
    let avg_line_length := true_div (fold_left Z.add (map len lines) 0) (zlen lines) in
    let short_lines := sum_ones (fun l => (10 <? len l) && (len l <? 80)) lines in
    let long_lines := sum_ones (fun l => 150 <? len l) lines in
    exceeds_half short_lines (zlen lines)
    && PrimFloat.ltb (Z_to_float long_lines) (PrimFloat.mul n 0.2)
    && PrimFloat.ltb avg_line_length 60.

Definition _find_index_pages_by_statistics (pages : list page) : list page :=
  match List.find looks_statistical (take 10 pages) with
  | None => []
  | Some p => [p]
  end.

(** The three strategies in cascade, as [extract] runs them. *)
Definition locate (pages : list page) : list page :=
  let index_pages := _find_index_pages_by_keywords pages in
  let index_pages :=
    match index_pages with
    | [] => _find_index_pages_by_patterns pages
    | _ => index_pages
    end in
  match index_pages with
  | [] => _find_index_pages_by_statistics pages
  | _ => index_pages
  end.

Definition _is_content_line (line : string) (n_entries : Z) : bool :=
  if 250 <? len line then true
  else
    let starts := search true content_starters line in
    if starts && (n_entries <? min_index_entries config) then false
    else if starts && (150 <? len line) then true
    else
      match match_ true prologue_re line with
      | Some _ => min_index_entries config <=? n_entries
      | None => false
      end.

End WithConfig.

(** *** Entry parsing

    The loop of [_extract_entries_adaptive] keeps the entry it is building
    in [current_entry] and may append that same dictionary to [entries]
    while it is still current, then extend its title in place.  Entry
    dictionaries therefore live in a store and are named by their address. *)

Record state : Type := {
  store : list entry;
  entries : list nat;
  current_entry : option nat;
  start_collecting : bool;
  seen_titles : gset string
}.

Definition initial_state : state := {|
  store := [];
  entries := [];
  current_entry := None;
  start_collecting := false;
  seen_titles := ∅
|}.

Definition no_entry : entry :=
  {| entry_number := None; title := EmptyString; page_reference := None |}.

(** The dictionary at an address; every address in use was given out by
    [alloc] below, so the default is never read. *)
Definition deref (st : state) (a : nat) : entry := default no_entry (store st !! a).

(** [title.lower().strip()] *)
Definition title_key (t : string) : string := strip (lower t).

Definition set_current (st : state) (cur : option nat) : state :=
  {| store := store st; entries := entries st; current_entry := cur;
     start_collecting := start_collecting st; seen_titles := seen_titles st |}.

(** [entries.append(e); seen_titles.add(key)] for the dictionary at [a] *)
Definition append_entry (st : state) (a : nat) (key : string) : state :=
  {| store := store st; entries := entries st ++ [a];
     current_entry := current_entry st;
     start_collecting := start_collecting st;
     seen_titles := {[ key ]} ∪ seen_titles st |}.

(** The guarded save of the current entry, with and without the length
    test on the key. *)
Definition save_checked (st : state) (a : nat) : state :=
  let key := title_key (title (deref st a)) in
  if negb (bool_decide (key ∈ seen_titles st)) && (2 <? len key)
  then append_entry st a key else st.

Definition save_unchecked (st : state) (a : nat) : state :=
  let key := title_key (title (deref st a)) in
  if negb (bool_decide (key ∈ seen_titles st))
  then append_entry st a key else st.

(** A new dictionary, at the next free address. *)
Definition alloc (st : state) (e : entry) : state * nat :=
  ({| store := store st ++ [e]; entries := entries st;
      current_entry := current_entry st;
      start_collecting := start_collecting st;
      seen_titles := seen_titles st |}, length (store st)).

(** [current_entry["title"] += " " + line] *)
Definition extend_title (st : state) (a : nat) (line : string) : state :=
  let e := deref st a in
  {| store := <[a := {| entry_number := entry_number e;
                        title := title e ++ " " ++ line;
                        page_reference := page_reference e |}]> (store st);
     entries := entries st; current_entry := current_entry st;
     start_collecting := start_collecting st; seen_titles := seen_titles st |}.

(** [groups[i] if len(groups) > i and groups[i] else None] *)
Definition group_or_none (groups : caps) (i : nat) : option string :=
  match groups !! i with
  | Some (Some g) => if nonempty g then Some g else None
  | _ => None
  end.

(** The title with a word-for-word repetition of itself removed. *)
Definition clean_title (t : string) : string :=
  if nonempty t then
    let t := strip t in
    let words := split_ws t in
    let half := (length words / 2)%nat in
    if (1 <? length words)%nat && bool_decide (take half words = drop half words)
    then join " " (take half words) else t
  else t.

Section Parsing.
Variable config : ExtractionConfig.

(** The loop over the entry patterns; the boolean is [matched]. *)
Fixpoint try_patterns (line : string) (patterns : list regex) (st : state)
    : state * bool :=
  match patterns with
  | [] => (st, false)
  | pattern :: rest =>
      match match_ true pattern line with
      | None => try_patterns line rest st
      | Some groups =>
          let st :=
            match current_entry st with
            | Some a => save_checked st a
            | None => st
            end in
          let entry_num := group_or_none groups 0 in
          let title := default line (group_or_none groups 1) in
          let page_ref := group_or_none groups 2 in
          let title := clean_title title in
          if nonempty title && (2 <? len title) && (len title <? 300) then
            if bool_decide (title_key title ∈ seen_titles st)
            then try_patterns line rest st
            else
              let '(st, a) :=
                alloc st {| entry_number := entry_num;
                            title := title;
                            page_reference :=
                              match page_ref with
                              | Some r => if isdigit r then Some (int_of r) else None
                              | None => None
                              end |} in
              (set_current st (Some a), true)
          else try_patterns line rest (set_current st None)
      end
  end.

Definition known_entries : list string :=
  ["epilogue"; "notes"; "suggestions"; "about"; "appendix";
   "bibliography"; "references"; "prologue"; "preface"].

(** The branch taken when no pattern produced an entry. *)
Definition handle_unmatched (line : string) (st : state) : state :=
  match current_entry st with
  | Some a =>
      let cur_title := title (deref st a) in
      if (len line <? 150) && (len cur_title + len line <? 300) then
        if bool_decide (title_key line = title_key cur_title) then st
        else extend_title st a line
      else set_current (save_unchecked st a) None
  | None =>
      if (2 <? len line) && (len line <? 80)
         && first_isupper line && negb (isupper line)
         && negb (search false numbered_start_re line)
      then
        if existsb (fun k => startswith k (lower line)) known_entries
           || ((zlen (split_ws line) <=? 4)
               && negb (search false content_starters line))
        then
          let key := title_key line in
          if bool_decide (key ∈ seen_titles st) then st
          else
            let '(st, a) :=
              alloc st {| entry_number := None; title := line;
                          page_reference := None |} in
            append_entry st a key
        else st
      else st
  end.

Definition skip_markers : list string :=
  ["copyright"; "penguin"; "title page"; "dedication"; "epigraph"].

(** One iteration of the loop over the lines; the boolean is [true] when
    the iteration ends in [break]. *)
Definition step (st : state) (raw_line : string) : state * bool :=
  let line := strip raw_line in
  if negb (nonempty line) then
    match current_entry st with
    | Some a => (set_current (save_checked st a) None, false)
    | None => (st, false)
    end
  else if negb (start_collecting st) then
    if has_keyword config line
    then ({| store := store st; entries := entries st;
             current_entry := current_entry st;
             start_collecting := true; seen_titles := seen_titles st |}, false)
    else (st, false)
  else if _is_content_line config line (zlen (entries st)) then
    (st, min_index_entries config <=? zlen (entries st))
  else if existsb (fun skip => contains skip (lower line)) skip_markers
          && negb (bool_decide (is_Some (current_entry st)))
  then (st, false)
  else
    let '(st, matched) := try_patterns line (index_patterns config) st in
    if matched then (st, false) else (handle_unmatched line st, false).

Fixpoint run_lines (st : state) (lines : list string) : state :=
  match lines with
  | [] => st
  | line :: rest =>
      let '(st, stop) := step st line in
      if stop then st else run_lines st rest
  end.

(** The save of the last entry, after the loop. *)
Definition save_last (st : state) : state :=
  match current_entry st with
  | Some a =>
      let key := title_key (title (deref st a)) in
      if negb (bool_decide (key ∈ seen_titles st)) && (2 <? len key)
      then {| store := store st; entries := entries st ++ [a];
              current_entry := current_entry st;
              start_collecting := start_collecting st;
              seen_titles := seen_titles st |}
      else st
  | None => st
  end.

(** The lines that the loop reads. *)
Definition index_lines (index_pages : list page) : list string :=
  split_lines (join nl (map text index_pages)).

(** The list [entries] when the loop is over, each address read in the
    final store. *)
Definition collect_entries (index_pages : list page) : list entry :=
  let st := save_last (run_lines initial_state (index_lines index_pages)) in
  map (deref st) (entries st).

(** The last pass, "filter and deduplicate". *)
Fixpoint filter_entries (seen : gset string) (es : list entry) : list entry :=
  match es with
  | [] => []
  | e :: rest =>
      let t := title_key (title e) in
      if nonempty t && negb (bool_decide (t ∈ seen))
         && (2 <? len t) && (len t <? 300)
         && negb (search false long_starter_re t)
      then e :: filter_entries ({[ t ]} ∪ seen) rest
      else filter_entries seen rest
  end.

Definition _extract_entries_adaptive (index_pages : list page) : list entry :=
  filter_entries ∅ (collect_entries index_pages).

(** [max_pages or self.config.max_index_pages] *)
Definition effective_max_pages (max_pages : option Z) : Z :=
  match max_pages with
  | Some n => if n =? 0 then max_index_pages config else n
  | None => max_index_pages config
  end.

(** The pages that the strategies locate, from the arguments of [extract]. *)
Definition located_pages (pages : list page) (max_pages : option Z) : list page :=
  let pages_to_check := Z.min (effective_max_pages max_pages) (zlen pages) in
  locate config (slice_to pages_to_check pages).

Definition extract (pages : list page) (max_pages : option Z) : option index_result :=
  let index_pages := located_pages pages max_pages in
  match index_pages with
  | [] => None
  | first_page :: _ =>
      let entries := _extract_entries_adaptive index_pages in
      if zlen entries <? min_index_entries config then None
      else Some {| result_page_number := page_number first_page;
                   result_pages := map page_number index_pages;
                   has_index_keyword := true;
                   result_entries := entries;
                   raw_text := join nl (map text index_pages) |}
  end.

End Parsing.

End AdaptiveIndexExtractor.

(** ** AdaptiveTableExtractor *)

Module AdaptiveTableExtractor.

(** A raw grid of the table-detection library: rows of optional cells. *)
Definition cell : Type := option string.
Definition row : Type := list cell.
Definition raw_table : Type := list row.

Record structured_table : Type := {
  page_number : Z;
  table_index : Z;
  header : list string;
  data : list (list string);
  row_count : Z;
  column_count : Z
}.

(** [cell and str(cell).strip()] *)
Definition cell_filled (c : cell) : bool :=
  match c with
  | Some s => nonempty s && nonempty (strip s)
  | None => false
  end.

(** [row and any(str(cell).strip() for cell in row if cell)] *)
Definition row_non_empty (r : row) : bool :=
  match r with
  | [] => false
  | _ => existsb cell_filled r
  end.

Definition non_empty_rows (table : raw_table) : list row :=
  List.filter row_non_empty table.

Definition row_truthy (r : row) : bool :=
  match r with
  | [] => false
  | _ => true
  end.

(** [max(xs)], which raises on an empty sequence. *)
Definition max_of (xs : list Z) : outcome Z :=
  match xs with
  | [] => Raises
  | x :: rest => Returns (fold_left Z.max rest x)
  end.

Definition total_cells (rows : list row) : Z :=
  fold_left Z.add (map zlen rows) 0.

Definition filled_cells (rows : list row) : Z :=
  sum_ones cell_filled (concat rows).

Section WithConfig.
Variable config : ExtractionConfig.

(** [cell and len(str(cell).strip()) > self.config.max_cell_length] *)
Definition cell_long (c : cell) : bool :=
  match c with
  | Some s => nonempty s && (max_cell_length config <? len (strip s))
  | None => false
  end.

Definition long_cells (rows : list row) : Z :=
  sum_ones cell_long (concat rows).

Definition _validate_table (table : raw_table) : outcome bool :=
  match table with
  | [] => Returns false
  | _ =>
      let non_empty_rows := non_empty_rows table in
      if zlen non_empty_rows <? min_table_rows config then Returns false
      else
        match max_of (map zlen (List.filter row_truthy non_empty_rows)) with
        | Raises => Raises
        | Returns max_cols =>
            if max_cols <? min_table_cols config then Returns false
            else
              let total_cells := total_cells non_empty_rows in
              let filled_cells := filled_cells non_empty_rows in
              if total_cells =? 0 then Returns false
              else if PrimFloat.ltb (true_div filled_cells total_cells)
                                    (min_table_cell_fill config)
              then Returns false
              else if exceeds_half (long_cells non_empty_rows) (zlen non_empty_rows)
              then Returns false
              else Returns true
        end
  end.

(** [[str(cell).strip() if cell else '' for cell in row]] *)
Definition clean_row (r : row) : list string :=
  map (fun c : cell =>
         match c with
         | Some s => if nonempty s then strip s else EmptyString
         | None => EmptyString
         end) r.

(** The rows that survive [if not any(cleaned): continue]. *)
Definition cleaned_rows (rows : list row) : list (list string) :=
  List.filter (existsb nonempty) (map clean_row rows).

Definition normalize_row (header_len : nat) (r : list string) : list string :=
  if (length r <? header_len)%nat
  then r ++ replicate (header_len - length r) EmptyString
  else if (header_len <? length r)%nat then take header_len r
  else r.

Definition _structure_table (table : raw_table) (page_num table_idx : Z)
    : option structured_table :=
  match non_empty_rows table with
  | [] => None
  | rows =>
      match cleaned_rows rows with
      | [] => None
      | header_row :: data_rows =>
          match data_rows with
          | [] => None
          | _ =>
              let header_len := length header_row in
              let normalized_data := map (normalize_row header_len) data_rows in
              Some {| page_number := page_num;
                      table_index := table_idx;
                      header := header_row;
                      data := normalized_data;
                      row_count := zlen normalized_data;
                      column_count := Z.of_nat header_len |}
          end
      end
  end.

(** The loop of [extract] over [enumerate(tables)]; an exception leaves
    it. *)
Fixpoint extract_from (idx : Z) (tables : list raw_table) (page_num : Z)
    (valid_tables : list structured_table) : outcome (list structured_table) :=
  match tables with
  | [] => Returns valid_tables
  | table :: rest =>
      match table with
      | [] => extract_from (idx + 1) rest page_num valid_tables
      | _ =>
          match _validate_table table with
          | Raises => Raises
          | Returns false => extract_from (idx + 1) rest page_num valid_tables
          | Returns true =>
              match _structure_table table page_num (idx + 1) with
              | Some structured =>
                  extract_from (idx + 1) rest page_num (valid_tables ++ [structured])
              | None => extract_from (idx + 1) rest page_num valid_tables
              end
          end
      end
  end.

(** [extract], on the grids that [page.extract_tables()] returned. *)
Definition extract (tables : list raw_table) (page_num : Z) : list structured_table :=
  match extract_from 0 tables page_num [] with
  | Returns valid_tables => valid_tables
  | Raises => []
  end.

End WithConfig.

End AdaptiveTableExtractor.

(** ** PDFProcessor: the first content page *)

Module PDFProcessor.

(** What [page.extract_text()] does on one page: a string, [None], or an
    exception. *)
Inductive extracted : Type :=
| Text (s : string)
| NoText
| Failure.

Record processor : Type := {
  pdf : option (list extracted);
  config : option ExtractionConfig
}.

Section Scan.
Variable content_indicators : list regex.
Variables min_text_length skip_pages : Z.

(** The first loop, over [enumerate(pages, start=page_num)]. *)
Fixpoint primary_scan (page_num : Z) (pages : list extracted) : option Z :=
  match pages with
  | [] => None
  | p :: rest =>
      match p with
      | Text text =>
          if nonempty text then
            let text_lower := strip (lower text) in
            let text_length := len text_lower in
            if text_length <? min_text_length then primary_scan (page_num + 1) rest
            else if existsb (fun pattern => search true pattern text_lower)
                            content_indicators
            then Some page_num
            else if (skip_pages + 2 <? page_num)
                    && exceeds_one_and_half text_length min_text_length
            then Some page_num
            else primary_scan (page_num + 1) rest
          else primary_scan (page_num + 1) rest
      | NoText | Failure => primary_scan (page_num + 1) rest
      end
  end.

(** [text and len(text.strip()) > min_text_length] *)
Definition substantial (p : extracted) : bool :=
  match p with
  | Text text => nonempty text && (min_text_length <? len (strip text))
  | NoText | Failure => false
  end.

(** The fallback loop. *)
Fixpoint fallback_scan (page_num : Z) (pages : list extracted) : option Z :=
  match pages with
  | [] => None
  | p :: rest =>
      if substantial p then Some page_num
      else fallback_scan (page_num + 1) rest
  end.

End Scan.

(** The three settings, from the configuration when there is one. *)
Definition indicators_of (self : processor) : list regex :=
  match config self with
  | Some c => content_indicators c
  | None => fallback_content_indicators
  end.

Definition min_text_length_of (self : processor) : Z :=
  match config self with
  | Some c => min_content_length c
  | None => 200
  end.

Definition skip_pages_of (self : processor) : Z :=
  match config self with
  | Some c => skip_initial_pages c
  | None => 0
  end.

Definition identify_first_page (self : processor) : outcome Z :=
  match pdf self with
  | None => Raises
  | Some pages =>
      let content_indicators := indicators_of self in
      let min_text_length := min_text_length_of self in
      let skip_pages := skip_pages_of self in
      let start_page := skip_pages + 1 in
      let scanned := slice_from (start_page - 1) pages in
      match primary_scan content_indicators min_text_length skip_pages
                         start_page scanned with
      | Some page_num => Returns page_num
      | None =>
          match fallback_scan min_text_length start_page scanned with
          | Some page_num => Returns page_num
          | None => Returns start_page
          end
      end
  end.

End PDFProcessor.

(** ** PDFProcessor: the other methods

    The processor as an object with its attributes, the document being
    the list of its pages, each with what [extract_text] and
    [extract_tables] do on it.  Extractor objects are held as the
    configuration they were built with. *)

Module Processor.

Record pdf_page : Type := {
  page_text : PDFProcessor.extracted;
  page_tables : outcome (list AdaptiveTableExtractor.raw_table)
}.

Record processor : Type := {
  pdf_path : string;
  pdf : option (list pdf_page);
  total_pages : Z;
  config : option ExtractionConfig;
  book_type : option BookType;
  index_extractor : option ExtractionConfig;
  table_extractor : option ExtractionConfig
}.

(** [xs[i]] for a Python integer [i]; [None] stands for IndexError. *)
Definition py_index {A : Type} (xs : list A) (i : Z) : option A :=
  if i <? 0 then
    if - i <=? zlen xs then xs !! Z.to_nat (zlen xs + i) else None
  else xs !! Z.to_nat i.

(** [range(a, b)] *)
Definition py_range (a b : Z) : list Z :=
  map (fun k => a + Z.of_nat k) (seq 0 (Z.to_nat (b - a))).

(** [BookType.value] *)
Definition book_type_value (t : BookType) : string :=
  match t with
  | ACADEMIC => "academic"
  | NOVEL => "novel"
  | TEXTBOOK => "textbook"
  | MANUAL => "manual"
  | UNKNOWN => "unknown"
  end.

(** [__init__], on whether the path exists. *)
Definition init (path : string) (path_exists : bool) (config : option ExtractionConfig)
    : outcome processor :=
  if path_exists then
    Returns {| pdf_path := path; pdf := None; total_pages := 0; config := config;
               book_type := None; index_extractor := None; table_extractor := None |}
  else Raises.

(** *** Auto-configuration *)

Definition sample_indices (total_pages : Z) : list Z :=
  [ 0; Z.min 5 (total_pages - 1); Z.min 10 (total_pages - 1);
    total_pages / 2; Z.max 0 (total_pages - 5) ].

(** The sample that one index contributes: the first 1000 characters of
    the page's text, or nothing when the index is out of range, the page
    has no text or its extraction fails. *)
Definition sample_at (self : processor) (idx : Z) : option string :=
  if idx <? total_pages self then
    match pdf self with
    | Some pages =>
        match py_index pages idx with
        | Some page =>
            match page_text page with
            | PDFProcessor.Text text =>
                if nonempty text then Some (take_str 1000 text) else None
            | PDFProcessor.NoText | PDFProcessor.Failure => None
            end
        | None => None
        end
    | None => None
    end
  else None.

Definition sample_pages (self : processor) : list string :=
  omap (sample_at self) (sample_indices (total_pages self)).

Definition _auto_configure (self : processor) : processor :=
  let sample_pages := sample_pages self in
  let detected :=
    match sample_pages with
    | [] => UNKNOWN
    | _ => BookStructureAnalyzer.analyze_book_type sample_pages (total_pages self)
    end in
  let chosen :=
    match sample_pages with
    | [] => default_config
    | _ => BookStructureAnalyzer.get_config_for_type detected
    end in
  {| pdf_path := pdf_path self; pdf := pdf self; total_pages := total_pages self;
     config := Some chosen; book_type := Some detected;
     index_extractor := Some chosen; table_extractor := Some chosen |}.

(** [__enter__], on the pages of the opened document. *)
Definition enter (self : processor) (pages : list pdf_page) : processor :=
  let self :=
    {| pdf_path := pdf_path self; pdf := Some pages; total_pages := zlen pages;
       config := config self; book_type := book_type self;
       index_extractor := index_extractor self;
       table_extractor := table_extractor self |} in
  match config self with
  | None => _auto_configure self
  | Some c =>
      {| pdf_path := pdf_path self; pdf := pdf self; total_pages := total_pages self;
         config := config self; book_type := book_type self;
         index_extractor := Some c; table_extractor := Some c |}
  end.

(** *** Full text *)

Record page_record : Type := {
  record_page_number : Z;
  record_text : string;
  char_count : Z
}.

Record text_data : Type := {
  text_total_pages : Z;
  text_pages : list page_record;
  full_text : string
}.

(** The loop over [enumerate(self.pdf.pages, start=page_num)]. *)
Fixpoint text_records (page_num : Z) (pages : list pdf_page) : list page_record :=
  match pages with
  | [] => []
  | page :: rest =>
      match page_text page with
      | PDFProcessor.Text text =>
          if nonempty text
          then {| record_page_number := page_num; record_text := strip text;
                  char_count := len text |} :: text_records (page_num + 1) rest
          else text_records (page_num + 1) rest
      | PDFProcessor.NoText => text_records (page_num + 1) rest
      | PDFProcessor.Failure =>
          {| record_page_number := page_num; record_text := EmptyString;
             char_count := 0 |} :: text_records (page_num + 1) rest
      end
  end.

Definition extract_all_text (self : processor) : outcome text_data :=
  match pdf self with
  | None => Raises
  | Some pages =>
      let pages_text := text_records 1 pages in
      Returns {| text_total_pages := total_pages self;
                 text_pages := pages_text;
                 full_text := join (nl ++ nl) (map record_text pages_text) |}
  end.

(** *** First page, through the attributes that method reads *)

Definition first_page_view (self : processor) : PDFProcessor.processor :=
  {| PDFProcessor.pdf := option_map (map page_text) (pdf self);
     PDFProcessor.config := config self |}.

Definition identify_first_page (self : processor) : outcome Z :=
  PDFProcessor.identify_first_page (first_page_view self).

(** *** Index *)

(** The page dictionaries that [extract_index] prepares. *)
Definition page_data (pages : list pdf_page) (page_num : Z)
    : option AdaptiveIndexExtractor.page :=
  match py_index pages (page_num - 1) with
  | Some page =>
      match page_text page with
      | PDFProcessor.Text text =>
          if nonempty text
          then Some {| AdaptiveIndexExtractor.page_number := page_num;
                       AdaptiveIndexExtractor.text := text |}
          else None
      | PDFProcessor.NoText | PDFProcessor.Failure => None
      end
  | None => None
  end.

Definition pages_data (pages : list pdf_page) (max_pages total_pages : Z)
    : list AdaptiveIndexExtractor.page :=
  omap (page_data pages) (py_range 1 (Z.min (max_pages + 1) (total_pages + 1))).

(** [extract_index]: the processor afterwards (a missing extractor is
    created with the default configuration) and the result. *)
Definition extract_index (self : processor) (max_pages_to_check : option Z)
    : outcome (processor * option AdaptiveIndexExtractor.index_result) :=
  match pdf self with
  | None => Raises
  | Some pages =>
      let extractor := default default_config (index_extractor self) in
      let self :=
        {| pdf_path := pdf_path self; pdf := pdf self; total_pages := total_pages self;
           config := config self; book_type := book_type self;
           index_extractor := Some extractor;
           table_extractor := table_extractor self |} in
      let max_pages :=
        match max_pages_to_check with
        | Some n => if n =? 0 then option_map max_index_pages (config self) else Some n
        | None => option_map max_index_pages (config self)
        end in
      match max_pages with
      | None => Raises
      | Some max_pages =>
          Returns (self,
                   AdaptiveIndexExtractor.extract extractor
                     (pages_data pages max_pages (total_pages self)) (Some max_pages))
      end
  end.

(** *** Tables *)

(** [self.table_extractor.extract(page, page_num)]: a failure of
    [page.extract_tables()] is caught there and gives no table. *)
Definition extract_page_tables (extractor : ExtractionConfig) (page : pdf_page)
    (page_num : Z) : list AdaptiveTableExtractor.structured_table :=
  match page_tables page with
  | Returns tables => AdaptiveTableExtractor.extract extractor tables page_num
  | Raises => []
  end.

(** The tables of one page number; a page number that indexes no page is
    skipped. *)
Definition tables_at (extractor : ExtractionConfig) (pages : list pdf_page)
    (page_num : Z) : list AdaptiveTableExtractor.structured_table :=
  match py_index pages (page_num - 1) with
  | Some page => extract_page_tables extractor page page_num
  | None => []
  end.

Definition extract_tables (self : processor) (page_range : option (Z * Z))
    : outcome (processor * list AdaptiveTableExtractor.structured_table) :=
  match pdf self with
  | None => Raises
  | Some pages =>
      let extractor := default default_config (table_extractor self) in
      let self :=
        {| pdf_path := pdf_path self; pdf := pdf self; total_pages := total_pages self;
           config := config self; book_type := book_type self;
           index_extractor := index_extractor self;
           table_extractor := Some extractor |} in
      let start_page := match page_range with Some (a, _) => a | None => 1 end in
      let end_page :=
        match page_range with Some (_, b) => b | None => total_pages self end in
      Returns (self,
               concat (map (tables_at extractor pages)
                           (py_range start_page
                              (Z.min (end_page + 1) (total_pages self + 1)))))
  end.

(** *** Everything in one call *)

Record summary : Type := {
  summary_total_pages : Z;
  summary_book_type : string;
  summary_first_content_page : Z;
  total_text_pages : Z;
  index_found : bool;
  index_entries_count : Z;
  tables_count : Z;
  total_characters : Z
}.

Record structured_content : Type := {
  content_pdf_path : string;
  content_total_pages : Z;
  content_book_type : string;
  first_content_page : Z;
  text_extraction : text_data;
  index : option AdaptiveIndexExtractor.index_result;
  tables : list AdaptiveTableExtractor.structured_table;
  content_summary : summary
}.

Definition book_type_name (self : processor) : string :=
  match book_type self with
  | Some t => book_type_value t
  | None => "unknown"
  end.

Definition extract_structured_content (self : processor)
    : outcome (processor * structured_content) :=
  match extract_all_text self with
  | Raises => Raises
  | Returns text_data =>
      match identify_first_page self with
      | Raises => Raises
      | Returns first_page =>
          match extract_index self None with
          | Raises => Raises
          | Returns (self, index_data) =>
              match extract_tables self None with
              | Raises => Raises
              | Returns (self, tables_data) =>
                  Returns (self,
                    {| content_pdf_path := pdf_path self;
                       content_total_pages := total_pages self;
                       content_book_type := book_type_name self;
                       first_content_page := first_page;
                       text_extraction := text_data;
                       index := index_data;
                       tables := tables_data;
                       content_summary :=
                         {| summary_total_pages := total_pages self;
                            summary_book_type := book_type_name self;
                            summary_first_content_page := first_page;
                            total_text_pages :=
                              zlen (List.filter (fun p => nonempty (record_text p))
                                                (text_pages text_data));
                            index_found :=
                              match index_data with Some _ => true | None => false end;
                            index_entries_count :=
                              match index_data with
                              | Some r => zlen (AdaptiveIndexExtractor.result_entries r)
                              | None => 0
                              end;
                            tables_count := zlen tables_data;
                            total_characters :=
                              fold_left Z.add (map char_count (text_pages text_data)) 0
                         |} |})
              end
          end
      end
  end.

End Processor.

(** ** Readings of the specification and inputs of its scenarios *)

Module Spec.
Import AdaptiveTableExtractor.

(** How many patterns of a family match a text. *)
Definition matching (family : list regex) (combined_text : string) : Z :=
  Z.of_nat (length (List.filter (fun pattern => search true pattern combined_text) family)).

(** The tests of [_validate_table] that precede the long-cell test all
    pass: the grid is not empty, enough non-empty rows, enough columns,
    some cell, and a fill ratio that is not below the threshold. *)
Definition reaches_long_cell_check (config : ExtractionConfig) (table : raw_table) : bool :=
  let rows := non_empty_rows table in
  negb (bool_decide (table = []))
  && negb (zlen rows <? min_table_rows config)
  && match max_of (map zlen (List.filter row_truthy rows)) with
     | Returns max_cols => negb (max_cols <? min_table_cols config)
     | Raises => false
     end
  && negb (total_cells rows =? 0)
  && negb (PrimFloat.ltb (true_div (filled_cells rows) (total_cells rows))
                         (min_table_cell_fill config)).

(** The number of rows that contain at least one over-long cell. *)
Definition rows_with_long_cell (config : ExtractionConfig) (rows : list row) : Z :=
  sum_ones (existsb (cell_long config)) rows.


End Spec.

Module Scenario.
Import AdaptiveTableExtractor AdaptiveIndexExtractor.

(** A string of [n] letters. *)
Fixpoint letters (n : nat) : string :=
  match n with
  | O => EmptyString
  | S n' => String "x" (letters n')
  end.

(** The page of scenario 3. *)
Definition toc_text : string :=
  "Table of Contents" ++ nl ++
  "1. Introduction ... 5" ++ nl ++
  "2. Methods ... 20" ++ nl ++
  "3. Results ... 45" ++ nl.

Definition toc_pages : list page := [ {| page_number := 1; text := toc_text |} ].

(** The same page without its final newline. *)
Definition toc_pages_unterminated : list page :=
  [ {| page_number := 1;
       text := "Table of Contents" ++ nl ++
               "1. Introduction ... 5" ++ nl ++
               "2. Methods ... 20" ++ nl ++
               "3. Results ... 45" |} ].

Definition numbered_entry (number title : string) (page_ref : Z) : entry :=
  {| entry_number := Some number; title := title; page_reference := Some page_ref |}.

(** The entries as scenario 3 words them, and as the patterns capture
    them: the enumerator group keeps its closing dot. *)
Definition toc_entries_without_dot : list entry :=
  [ numbered_entry "1" "Introduction" 5;
    numbered_entry "2" "Methods" 20;
    numbered_entry "3" "Results" 45 ].

Definition toc_entries : list entry :=
  [ numbered_entry "1." "Introduction" 5;
    numbered_entry "2." "Methods" 20;
    numbered_entry "3." "Results" 45 ].

(** A page of numbered lines that names no index keyword, and a
    configuration that asks for no entry at all. *)
Definition plain_list_pages : list page :=
  [ {| page_number := 1;
       text := "1. Alpha" ++ nl ++ "2. Beta" ++ nl ++ "3. Gamma" |} ].

Definition config_without_minimum : ExtractionConfig := {|
  index_keywords := default_index_keywords;
  index_patterns := default_index_patterns;
  max_index_pages := 15;
  min_index_entries := 0;
  content_indicators := default_content_indicators;
  min_content_length := 200;
  skip_initial_pages := 0;
  min_table_rows := 2;
  min_table_cols := 2;
  min_table_cell_fill := 0.3;
  max_cell_length := 500
|}.

(** The grids of scenario 4: a header row with one data row, and a header
    row alone. *)
Definition header_and_one_row : raw_table :=
  [ [Some "Name"; Some "Age"]; [Some "Ann"; Some "31"] ].

Definition header_alone : raw_table := [ [Some "Name"; Some "Age"] ].

(** A grid with a short row, a long row and an empty row. *)
Definition ragged_table : raw_table :=
  [ [Some "Name"; Some " Age "; None];
    [None; None; None];
    [Some "Ann"];
    [Some "Bob"; Some "27"; Some "x"; Some "y"] ].

(** Two rows, one of which holds two over-long cells. *)
Definition two_long_cells_in_one_row : raw_table :=
  [ [Some (letters 501); Some (letters 501)]; [Some "a"; Some "b"] ].

(** A novel: the first page carries text, the next three carry none. *)
Definition novel_processor : PDFProcessor.processor := {|
  PDFProcessor.pdf :=
    Some [PDFProcessor.Text (letters 150); PDFProcessor.NoText;
          PDFProcessor.NoText; PDFProcessor.NoText];
  PDFProcessor.config := Some (BookStructureAnalyzer.get_config_for_type NOVEL)
|}.

(** A document whose second page only is substantial, under the default
    configuration. *)
Definition short_then_long_processor : PDFProcessor.processor := {|
  PDFProcessor.pdf :=
    Some [PDFProcessor.Text "Cover"; PDFProcessor.Text (letters 250);
          PDFProcessor.NoText];
  PDFProcessor.config := Some default_config
|}.

(** An index page on which a title comes back in other letter case. *)
Definition repeated_title_pages : list page :=
  [ {| page_number := 1;
       text := "Contents" ++ nl ++
               "Notes" ++ nl ++
               "NoTes" ++ nl ++
               "Appendix" ++ nl ++
               "Glossary" ++ nl |} ].

Definition repeated_title_entries : list entry :=
  [ {| entry_number := Some "Notes"; title := "Notes"; page_reference := None |};
    {| entry_number := Some "Appendix"; title := "Appendix"; page_reference := None |};
    {| entry_number := Some "Glossary"; title := "Glossary"; page_reference := None |} ].

End Scenario.

(** ** Inputs of the examples of the further properties *)

Module Sample.
Import AdaptiveTableExtractor.

(** A configuration that accepts a grid of any number of rows. *)
Definition config_without_row_minimum : ExtractionConfig := {|
  index_keywords := default_index_keywords;
  index_patterns := default_index_patterns;
  max_index_pages := 15;
  min_index_entries := 3;
  content_indicators := default_content_indicators;
  min_content_length := 200;
  skip_initial_pages := 0;
  min_table_rows := 0;
  min_table_cols := 2;
  min_table_cell_fill := 0.3;
  max_cell_length := 500
|}.

(** A grid whose rows are all empty. *)
Definition blank_grid : raw_table := [ [None; Some EmptyString]; [Some "  "] ].

(** The tables that the loop of [extract] accepts, were no validation to
    raise. *)
Fixpoint accepted_from (config : ExtractionConfig) (page_num idx : Z)
    (tables : list raw_table) : list structured_table :=
  match tables with
  | [] => []
  | table :: rest =>
      match _validate_table config table, _structure_table table page_num (idx + 1) with
      | Returns true, Some structured =>
          structured :: accepted_from config page_num (idx + 1) rest
      | _, _ => accepted_from config page_num (idx + 1) rest
      end
  end.

Definition people_grid : raw_table :=
  [ [Some " Name "; Some "Age"]; [None; None]; [Some "Ann"; Some " 31"];
    [Some "Bob"; None; Some "x"] ].

(** A word of a title: not empty and without white space. *)
Fixpoint no_space (s : string) : bool :=
  match s with
  | EmptyString => true
  | String c s' => negb (is_space c) && no_space s'
  end.

Definition title_word (w : string) : Prop :=
  nonempty w = true /\ no_space w = true.

(** An entry whose number, when present, is not empty and whose page
    reference, when present, is not negative. *)
Definition well_formed (e : AdaptiveIndexExtractor.entry) : Prop :=
  (forall number, AdaptiveIndexExtractor.entry_number e = Some number ->
                  number <> EmptyString)
  /\ (forall page_ref, AdaptiveIndexExtractor.page_reference e = Some page_ref ->
                       0 <= page_ref).

(** The state of the entry loop once a keyword line was read. *)
Definition collecting : AdaptiveIndexExtractor.state := {|
  AdaptiveIndexExtractor.store := [];
  AdaptiveIndexExtractor.entries := [];
  AdaptiveIndexExtractor.current_entry := None;
  AdaptiveIndexExtractor.start_collecting := true;
  AdaptiveIndexExtractor.seen_titles := ∅
|}.

(** A processor that was created without a configuration, and a
    document of three pages: text, a page whose extraction fails, a page
    without text. *)
Definition fresh_processor : Processor.processor := {|
  Processor.pdf_path := "book.pdf";
  Processor.pdf := None;
  Processor.total_pages := 0;
  Processor.config := None;
  Processor.book_type := None;
  Processor.index_extractor := None;
  Processor.table_extractor := None
|}.

Definition three_pages : list Processor.pdf_page :=
  [ {| Processor.page_text := PDFProcessor.Text Scenario.toc_text;
       Processor.page_tables := Returns [people_grid] |};
    {| Processor.page_text := PDFProcessor.Failure;
       Processor.page_tables := Raises |};
    {| Processor.page_text := PDFProcessor.NoText;
       Processor.page_tables := Returns [Scenario.header_alone; people_grid] |} ].

(** The sample that the page at a 0-based index gives to
    auto-configuration: the first 1000 characters of its text, when the
    index is one of the document and the page has text that is not
    empty. *)
Definition sample_of (pages : list Processor.pdf_page) (idx : Z) : option string :=
  if (0 <=? idx) && (idx <? zlen pages) then
    match pages !! Z.to_nat idx with
    | Some page =>
        match Processor.page_text page with
        | PDFProcessor.Text text =>
            if nonempty text then Some (take_str 1000 text) else None
        | _ => None
        end
    | None => None
    end
  else None.

(** The record that [extract_all_text] keeps for a page with a given
    number: an empty one when the extraction of the page fails, the
    stripped text with the length of the unstripped text when the page has
    text, and none otherwise. *)
Definition record_of (page : Processor.pdf_page) (page_num : Z)
    (r : Processor.page_record) : Prop :=
  Processor.record_page_number r = page_num
  /\ ((Processor.page_text page = PDFProcessor.Failure
       /\ Processor.record_text r = EmptyString
       /\ Processor.char_count r = 0)
      \/ (exists text,
            Processor.page_text page = PDFProcessor.Text text
            /\ nonempty text = true
            /\ Processor.record_text r = strip text
            /\ Processor.char_count r = len text)).

(** The shape that every structured table has: rows as wide as the
    header, and the two counts. *)
Definition table_shape (st : structured_table) : Prop :=
  Forall (fun r => length r = length (header st)) (data st)
  /\ column_count st = zlen (header st)
  /\ row_count st = zlen (data st).

End Sample.

(** ** Properties *)

(** *** Counting *)

Lemma sum_ones_from {A : Type} (f : A -> bool) (xs : list A) (acc : Z) :
  fold_left (fun acc x => if f x then acc + 1 else acc) xs acc
  = acc + Z.of_nat (length (List.filter f xs)).
Proof.
  revert acc. induction xs as [|x xs IH]; intros acc; simpl.
  - lia.
  - rewrite IH. destruct (f x); simpl; lia.
Qed.

Lemma sum_ones_count {A : Type} (f : A -> bool) (xs : list A) :
  sum_ones f xs = Z.of_nat (length (List.filter f xs)).
Proof. unfold sum_ones. rewrite sum_ones_from. lia. Qed.

Lemma sum_ones_nil {A : Type} (f : A -> bool) : sum_ones f [] = 0.
Proof. reflexivity. Qed.

(** *** The book-type analyzer *)

Section Analyzer.
Import BookStructureAnalyzer Spec.

Lemma score_matching family combined_text :
  score family combined_text = matching family combined_text.
Proof. apply sum_ones_count. Qed.

(** Samples that are all empty join into a string of blanks, in which no
    indicator matches. *)
Lemma join_empty_samples (text_samples : list string) :
  Forall (fun sample => sample = EmptyString) text_samples ->
  exists n, lower (join " " text_samples) = blanks n.
Proof.
  induction 1 as [|sample rest -> _ [n IH]].
  - exists 0%nat. reflexivity.
  - destruct rest as [|next rest].
    + exists 0%nat. reflexivity.
    + exists (S n). change (lower (join " " (EmptyString :: next :: rest)))
        with (String " " (lower (join " " (next :: rest)))).
      rewrite IH. reflexivity.
Qed.

Lemma search_from_unfold (ic : bool) (r : regex) (prev : option ascii) (s : string) :
  search_from ic r prev s
  = match m ic r prev s (no_caps r) accept with
    | Some c => Some c
    | None =>
        match s with
        | EmptyString => None
        | String x s' => search_from ic r (Some x) s'
        end
    end.
Proof. destruct s; reflexivity. Qed.

Lemma search_blanks (pattern : regex) :
  (forall n prev, blank_or_start prev ->
                  m true pattern prev (blanks n) (no_caps pattern) accept = None) ->
  forall n, search true pattern (blanks n) = false.
Proof.
  intros Hm n. unfold search.
  assert (Hfrom : forall prev, blank_or_start prev ->
                               search_from true pattern prev (blanks n) = None).
  { induction n as [|n IH]; intros prev Hprev; rewrite search_from_unfold, Hm by exact Hprev.
    - reflexivity.
    - apply IH. right. reflexivity. }
  rewrite Hfrom; [reflexivity | left; reflexivity].
Qed.

Lemma indicators_need_text :
  Forall (fun pattern => forall n, search true pattern (blanks n) = false)
         (academic_indicators ++ novel_indicators ++ manual_indicators).
Proof.
  repeat constructor;
    apply search_blanks; intros [|n] prev [-> | ->]; reflexivity.
Qed.

Lemma score_blanks (family : list regex) (n : nat) :
  Forall (fun pattern => forall n, search true pattern (blanks n) = false) family ->
  score family (blanks n) = 0.
Proof.
  intros Hfamily. rewrite score_matching. unfold matching.
  induction Hfamily as [|pattern family Hp _ IH]; simpl; [reflexivity|].
  rewrite Hp. exact IH.
Qed.

(** C1. The analyzer follows the decision order, first match wins:
    an academic score of at least 3 gives Academic; else a novel score of
    at least 2 with more than 100 pages gives Novel; else a manual score of
    at least 2 gives Manual; else an academic score of at least 2 gives
    Textbook; else Unknown.  Each score is the number of patterns of its
    family that match the lower-cased, space-joined samples.  No sample at
    all gives Unknown, and so do samples that are all empty. *)
Theorem analyze_book_type_decision_order (text_samples : list string) (total_pages : Z) :
  let combined_text := lower (join " " text_samples) in
  let academic_score := matching academic_indicators combined_text in
  let novel_score := matching novel_indicators combined_text in
  let manual_score := matching manual_indicators combined_text in
  let result := analyze_book_type text_samples total_pages in
  (3 <= academic_score -> result = ACADEMIC) /\
  (academic_score < 3 -> 2 <= novel_score /\ 100 < total_pages -> result = NOVEL) /\
  (academic_score < 3 -> ~ (2 <= novel_score /\ 100 < total_pages) ->
   2 <= manual_score -> result = MANUAL) /\
  (academic_score < 3 -> ~ (2 <= novel_score /\ 100 < total_pages) ->
   manual_score < 2 -> 2 <= academic_score -> result = TEXTBOOK) /\
  (academic_score < 2 -> ~ (2 <= novel_score /\ 100 < total_pages) ->
   manual_score < 2 -> result = UNKNOWN) /\
  analyze_book_type [] total_pages = UNKNOWN /\
  (Forall (fun sample => sample = EmptyString) text_samples -> result = UNKNOWN).
Proof.
  intros combined_text academic_score novel_score manual_score result.
  assert (Hempty : Forall (fun sample => sample = EmptyString) text_samples ->
                   result = UNKNOWN).
  { intros Hall. destruct (join_empty_samples _ Hall) as [n Hn].
    pose proof indicators_need_text as Hind.
    apply Forall_app in Hind as [Hacademic Hind].
    apply Forall_app in Hind as [Hnovel Hmanual].
    subst result. unfold analyze_book_type. rewrite Hn.
    rewrite !score_blanks by assumption. reflexivity. }
  assert (Hres : result =
    if 3 <=? academic_score then ACADEMIC
    else if (2 <=? novel_score) && (100 <? total_pages) then NOVEL
    else if 2 <=? manual_score then MANUAL
    else if 2 <=? academic_score then TEXTBOOK
    else UNKNOWN).
  { subst result academic_score novel_score manual_score combined_text.
    unfold analyze_book_type. rewrite !score_matching. reflexivity. }
  repeat (split; [|try exact Hempty]); try reflexivity;
    rewrite Hres; clear Hres Hempty; intros;
    repeat match goal with
    | |- context [?a <=? ?b] => destruct (Z.leb_spec a b)
    | |- context [?a <? ?b] => destruct (Z.ltb_spec a b)
    end; simpl; try reflexivity; try lia.
Qed.

(** Scenarios 1 and 2 of the specification. *)
Example analyze_academic_samples :
  analyze_book_type
    ["References"; "Bibliography of the field"; "Abstract. We study tables."] 50
  = ACADEMIC.
Proof. vm_compute. reflexivity. Qed.

Example analyze_novel_samples :
  analyze_book_type
    [ "Chapter 3";
      String quote_char "I never thought it would end like this," ++
      String quote_char " she said.";
      "Epilogue" ] 250
  = NOVEL.
Proof. vm_compute. reflexivity. Qed.

(** The same novel samples in a short book are not a novel. *)
Example analyze_novel_samples_short_book :
  analyze_book_type
    [ "Chapter 3";
      String quote_char "I never thought it would end like this," ++
      String quote_char " she said.";
      "Epilogue" ] 100
  = UNKNOWN.
Proof. vm_compute. reflexivity. Qed.



End Analyzer.

(** *** The index extractor *)

Section Index.
Import AdaptiveIndexExtractor.

(** A key that is new after [t] was added was new before, and is not
    [t]. *)
Lemma not_seen_after_add (k t : string) (seen : gset string) :
  k ∉ {[ t ]} ∪ seen -> (k ∉ seen) /\ t <> k.
Proof.
  intros Hnot. split.
  - intros Hin. apply Hnot, elem_of_union. right. exact Hin.
  - intros ->. apply Hnot, elem_of_union. left. apply elem_of_singleton. reflexivity.
Qed.

(** The last pass keeps entries in the order of its input. *)
Lemma filter_entries_sublist (es : list entry) (seen : gset string) :
  sublist (filter_entries seen es) es.
Proof.
  revert seen. induction es as [|e es IH]; intros seen; simpl.
  - constructor.
  - destruct (_ && _).
    + apply sublist_skip, IH.
    + apply sublist_cons, IH.
Qed.

(** Every entry it keeps passed each of its tests, against a set of seen
    keys that only grows. *)
Lemma filter_entries_accepts (es : list entry) (seen : gset string) :
  Forall (fun e =>
            nonempty (title_key (title e)) = true
            /\ (title_key (title e) ∉ seen)
            /\ (2 <? len (title_key (title e))) = true
            /\ (len (title_key (title e)) <? 300) = true
            /\ search false long_starter_re (title_key (title e)) = false)
         (filter_entries seen es).
Proof.
  revert seen. induction es as [|e es IH]; intros seen; simpl.
  - constructor.
  - destruct (_ && _) eqn:Hkeep.
    + apply andb_prop in Hkeep as [Hkeep Hre].
      apply andb_prop in Hkeep as [Hkeep Hhi].
      apply andb_prop in Hkeep as [Hkeep Hlo].
      apply andb_prop in Hkeep as [Hne Hseen].
      apply negb_true_iff in Hre.
      apply negb_true_iff, bool_decide_eq_false in Hseen.
      constructor; [tauto|].
      eapply Forall_impl; [apply IH|].
      intros e' (? & Hnot & ?). apply not_seen_after_add in Hnot. tauto.
    + apply IH.
Qed.

Lemma filter_entries_keys (es : list entry) (seen : gset string) :
  Forall (fun e => (title_key (title e) ∉ seen)
                   /\ (2 < len (title_key (title e)) < 300))
         (filter_entries seen es).
Proof.
  eapply Forall_impl; [apply filter_entries_accepts|].
  intros e (_ & Hnot & Hlo & Hhi & _). split; [exact Hnot | lia].
Qed.

Lemma filter_entries_NoDup (es : list entry) (seen : gset string) :
  NoDup (map (fun e => title_key (title e)) (filter_entries seen es)).
Proof.
  revert seen. induction es as [|e es IH]; intros seen; simpl.
  - constructor.
  - destruct (_ && _).
    + simpl. constructor; [|apply IH].
      intros Hin. apply list_elem_of_fmap in Hin as (e' & Heq & Hin).
      pose proof (filter_entries_keys es ({[title_key (title e)]} ∪ seen)) as Hk.
      rewrite Forall_forall in Hk. destruct (Hk _ Hin) as [Hnot _].
      apply not_seen_after_add in Hnot as [_ Hne]. congruence.
    + apply IH.
Qed.

(** Every entry it keeps is the first of its input with that key. *)
Lemma filter_entries_first (es : list entry) (seen : gset string) (e : entry) :
  e ∈ filter_entries seen es ->
  exists before after,
    es = (before ++ e :: after)%list
    /\ Forall (fun e' => title_key (title e') <> title_key (title e)) before.
Proof.
  revert seen. induction es as [|e0 es IH]; intros seen; simpl.
  - intros Hin. inversion Hin.
  - destruct (_ && _) eqn:Hkeep.
    + intros Hin. apply elem_of_cons in Hin as [-> | Hin].
      * exists [], es. split; [reflexivity | constructor].
      * pose proof (filter_entries_keys es ({[title_key (title e0)]} ∪ seen)) as Hk.
        rewrite Forall_forall in Hk. destruct (Hk _ Hin) as [Hnot _].
        destruct (IH _ Hin) as (before & after & -> & Hbefore).
        exists (e0 :: before), after. split; [reflexivity|].
        constructor; [|exact Hbefore]. apply not_seen_after_add in Hnot. tauto.
    + intros Hin.
      pose proof (filter_entries_accepts es seen) as Hk.
      rewrite Forall_forall in Hk.
      destruct (Hk _ Hin) as (Hne & Hnot & Hlo & Hhi & Hre).
      destruct (IH _ Hin) as (before & after & -> & Hbefore).
      exists (e0 :: before), after. split; [reflexivity|].
      constructor; [|exact Hbefore].
      intros Heq. rewrite Heq, Hne, Hlo, Hhi, Hre in Hkeep.
      rewrite bool_decide_eq_false_2 in Hkeep by exact Hnot.
      discriminate.
Qed.

(** Without a keyword line the loop never leaves its initial state. *)
Lemma run_lines_without_keyword (config : ExtractionConfig) (lines : list string) :
  Forall (fun line => has_keyword config (strip line) = false) lines ->
  run_lines config initial_state lines = initial_state.
Proof.
  induction 1 as [|line lines Hline _ IH]; simpl; [reflexivity|].
  unfold step. destruct (nonempty (strip line)); simpl.
  - rewrite Hline. exact IH.
  - exact IH.
Qed.

(** The two exits of [extract] after the entries are parsed. *)
Lemma extract_below_minimum
    (config : ExtractionConfig) (pages : list page) (max_pages : option Z) :
  zlen (_extract_entries_adaptive config (located_pages config pages max_pages))
  < min_index_entries config ->
  extract config pages max_pages = None.
Proof.
  intros Hlt. unfold extract.
  destruct (located_pages config pages max_pages) as [|first_page rest];
    [reflexivity|].
  destruct (Z.ltb_spec (zlen (_extract_entries_adaptive config (first_page :: rest)))
                       (min_index_entries config)); [reflexivity | lia].
Qed.

Lemma extract_result_entries
    (config : ExtractionConfig) (pages : list page) (max_pages : option Z)
    (r : index_result) :
  extract config pages max_pages = Some r ->
  result_entries r
  = _extract_entries_adaptive config (located_pages config pages max_pages)
  /\ min_index_entries config <= zlen (result_entries r).
Proof.
  unfold extract.
  destruct (located_pages config pages max_pages) as [|first_page rest];
    [discriminate|].
  destruct (Z.ltb_spec (zlen (_extract_entries_adaptive config (first_page :: rest)))
                       (min_index_entries config)) as [Hlt | Hge]; [discriminate|].
  intros [= <-]. simpl. split; [reflexivity | exact Hge].
Qed.

(** C2. When fewer entries than [min_index_entries] are accepted after
    parsing and filtering, [extract] returns none; a result that is not
    none carries the accepted entries, at least [min_index_entries] of
    them. *)
Theorem extract_none_below_minimum
    (config : ExtractionConfig) (pages : list page) (max_pages : option Z) :
  let accepted :=
    _extract_entries_adaptive config (located_pages config pages max_pages) in
  (zlen accepted < min_index_entries config -> extract config pages max_pages = None)
  /\ (forall r, extract config pages max_pages = Some r ->
        result_entries r = accepted
        /\ min_index_entries config <= zlen (result_entries r)).
Proof.
  intros accepted. split.
  - apply extract_below_minimum.
  - intros r. apply extract_result_entries.
Qed.

(** C4. In a result of [extract] no two entries have the same lower-cased,
    trimmed title, [title.lower().strip()]; the entries are in the order in
    which the parser collected them, each being the first collected entry
    with its lower-cased, trimmed title; and every lower-cased, trimmed
    title is longer than 2 and shorter than 300 characters. *)
Theorem extract_entries_unique_in_first_seen_order
    (config : ExtractionConfig) (pages : list page) (max_pages : option Z)
    (r : index_result) :
  extract config pages max_pages = Some r ->
  let collected := collect_entries config (located_pages config pages max_pages) in
  NoDup (map (fun e => strip (lower (title e))) (result_entries r))
  /\ sublist (result_entries r) collected
  /\ (forall e, e ∈ result_entries r ->
        exists before after,
          collected = (before ++ e :: after)%list
          /\ Forall (fun e' => strip (lower (title e')) <> strip (lower (title e)))
                    before)
  /\ Forall (fun e => 2 < len (strip (lower (title e))) < 300) (result_entries r).
Proof.
  intros Hex collected.
  destruct (extract_result_entries config pages max_pages r Hex) as [-> _].
  unfold _extract_entries_adaptive.
  fold collected. repeat split.
  - exact (filter_entries_NoDup collected ∅).
  - apply filter_entries_sublist.
  - intros e. exact (filter_entries_first collected ∅ e).
  - eapply Forall_impl; [apply filter_entries_keys|]. intros e [_ Hlen]. exact Hlen.
Qed.

(** A [Forall] over a list that computes, each instance by computation. *)
Ltac concrete_Forall :=
  match goal with
  | |- Forall _ ?l => let l' := eval vm_compute in l in change l with l'
  end;
  repeat (constructor; [vm_compute; reflexivity|]); constructor.

Lemma extract_entries_unique_in_first_seen_order_witness :
  let r := {| result_page_number := 1;
              result_pages := [1];
              has_index_keyword := true;
              result_entries := Scenario.repeated_title_entries;
              raw_text := "Contents" ++ nl ++ "Notes" ++ nl ++ "NoTes" ++ nl ++
                          "Appendix" ++ nl ++ "Glossary" ++ nl |} in
  let collected :=
    collect_entries default_config
      (located_pages default_config Scenario.repeated_title_pages None) in
  NoDup (map (fun e => strip (lower (title e))) (result_entries r))
  /\ sublist (result_entries r) collected
  /\ (forall e, e ∈ result_entries r ->
        exists before after,
          collected = (before ++ e :: after)%list
          /\ Forall (fun e' => strip (lower (title e')) <> strip (lower (title e)))
                    before)
  /\ Forall (fun e => 2 < len (strip (lower (title e))) < 300) (result_entries r).
Proof.
  apply (extract_entries_unique_in_first_seen_order
           default_config Scenario.repeated_title_pages None).
  vm_compute. reflexivity.
Defined.

(** C7. On the page of scenario 3 and under the default configuration,
    [extract] yields exactly three entries, in order: "1." Introduction,
    page 5; "2." Methods, page 20; "3." Results, page 45.  The entry number
    is the enumerator as the pattern captures it, closing dot included. *)
Theorem extract_table_of_contents_scenario :
  extract default_config Scenario.toc_pages None
  = Some {| result_page_number := 1;
            result_pages := [1];
            has_index_keyword := true;
            result_entries := Scenario.toc_entries;
            raw_text := Scenario.toc_text |}
  /\ option_map result_entries
       (extract default_config Scenario.toc_pages_unterminated None)
     = Some Scenario.toc_entries
  /\ length Scenario.toc_entries = 3%nat.
Proof. repeat split; vm_compute; reflexivity. Qed.

(** The entry numbers of scenario 3 are not the bare digits. *)
Lemma extract_table_of_contents_keeps_dot :
  option_map result_entries (extract default_config Scenario.toc_pages None)
  = Some Scenario.toc_entries
  /\ Scenario.toc_entries <> Scenario.toc_entries_without_dot.
Proof. split; [vm_compute; reflexivity | discriminate]. Qed.

(** C9. When the minimum entry count is positive and no line of the
    located index pages matches an index keyword, entry collection never
    starts, nothing is collected, and [extract] returns none, whichever
    strategy located the pages. *)
Theorem extract_none_without_keyword_line
    (config : ExtractionConfig) (pages : list page) (max_pages : option Z) :
  0 < min_index_entries config ->
  Forall (fun line => has_keyword config (strip line) = false)
         (index_lines (located_pages config pages max_pages)) ->
  start_collecting
    (run_lines config initial_state
       (index_lines (located_pages config pages max_pages))) = false
  /\ collect_entries config (located_pages config pages max_pages) = []
  /\ extract config pages max_pages = None.
Proof.
  intros Hmin Hlines.
  pose proof (run_lines_without_keyword config _ Hlines) as Hrun.
  assert (Hcol : collect_entries config (located_pages config pages max_pages) = []).
  { unfold collect_entries. rewrite Hrun. reflexivity. }
  split; [rewrite Hrun; reflexivity|]. split; [exact Hcol|].
  apply extract_below_minimum.
  unfold _extract_entries_adaptive. rewrite Hcol. simpl. exact Hmin.
Qed.

Lemma extract_none_without_keyword_line_witness :
  start_collecting
    (run_lines default_config initial_state
       (index_lines (located_pages default_config Scenario.plain_list_pages None)))
  = false
  /\ collect_entries default_config
       (located_pages default_config Scenario.plain_list_pages None) = []
  /\ extract default_config Scenario.plain_list_pages None = None.
Proof.
  apply (extract_none_without_keyword_line default_config Scenario.plain_list_pages None).
  - reflexivity.
  - concrete_Forall.
Defined.

(** With a minimum of zero entries, pages without any keyword line still
    give a result, with no entry. *)
Lemma extract_without_keyword_line_and_minimum :
  Forall (fun line => has_keyword Scenario.config_without_minimum (strip line) = false)
         (index_lines (located_pages Scenario.config_without_minimum
                                     Scenario.plain_list_pages None))
  /\ option_map result_entries
       (extract Scenario.config_without_minimum Scenario.plain_list_pages None)
     = Some [].
Proof.
  split; [|vm_compute; reflexivity].
  concrete_Forall.
Qed.

End Index.

(** *** The table extractor *)

Section Tables.
Import AdaptiveTableExtractor.

Lemma normalize_row_length (header_len : nat) (r : list string) :
  length (normalize_row header_len r) = header_len.
Proof.
  unfold normalize_row.
  destruct (Nat.ltb_spec (length r) header_len) as [Hshort | Hge].
  - rewrite length_app, length_replicate. lia.
  - destruct (Nat.ltb_spec header_len (length r)) as [Hlong | Hle].
    + rewrite length_take. lia.
    + lia.
Qed.

Lemma normalize_row_pads (header_len : nat) (r : list string) :
  (length r <= header_len)%nat ->
  normalize_row header_len r = (r ++ replicate (header_len - length r) EmptyString)%list.
Proof.
  intros Hle. unfold normalize_row.
  destruct (Nat.ltb_spec (length r) header_len) as [Hshort | Hge]; [reflexivity|].
  destruct (Nat.ltb_spec header_len (length r)) as [Hlong | _]; [lia|].
  replace (header_len - length r)%nat with 0%nat by lia.
  simpl. rewrite app_nil_r. reflexivity.
Qed.

Lemma normalize_row_truncates (header_len : nat) (r : list string) :
  (header_len <= length r)%nat ->
  normalize_row header_len r = take header_len r.
Proof.
  intros Hle. unfold normalize_row.
  destruct (Nat.ltb_spec (length r) header_len) as [Hshort | _]; [lia|].
  destruct (Nat.ltb_spec header_len (length r)) as [_ | Hge]; [reflexivity|].
  rewrite take_ge by lia. reflexivity.
Qed.

Lemma normalized_rows_length (header_len : nat) (rows : list (list string)) :
  Forall (fun r => length r = header_len) (map (normalize_row header_len) rows).
Proof.
  induction rows as [|raw rows IH]; simpl; constructor.
  - apply normalize_row_length.
  - exact IH.
Qed.

Lemma normalized_rows_spec (header_len : nat) (rows : list (list string)) :
  Forall2 (fun raw r =>
             ((length raw <= header_len)%nat ->
              r = (raw ++ replicate (header_len - length raw) EmptyString)%list)
             /\ ((header_len <= length raw)%nat -> r = take header_len raw))
          rows (map (normalize_row header_len) rows).
Proof.
  induction rows as [|raw rows IH]; simpl; constructor.
  - split; [apply normalize_row_pads | apply normalize_row_truncates].
  - exact IH.
Qed.

(** What [_structure_table] builds from the cleaned rows. *)
Lemma structure_table_inv
    (table : raw_table) (page_num table_idx : Z) (st : structured_table) :
  _structure_table table page_num table_idx = Some st ->
  exists header_row data_rows,
    cleaned_rows (non_empty_rows table) = header_row :: data_rows
    /\ st = {| page_number := page_num;
               table_index := table_idx;
               header := header_row;
               data := map (normalize_row (length header_row)) data_rows;
               row_count := zlen (map (normalize_row (length header_row)) data_rows);
               column_count := Z.of_nat (length header_row) |}.
Proof.
  unfold _structure_table.
  destruct (non_empty_rows table) as [|r0 rows]; [discriminate|].
  destruct (cleaned_rows (r0 :: rows)) as [|header_row data_rows]; [discriminate|].
  destruct data_rows as [|d0 ds]; [discriminate|].
  intros [= <-]. exists header_row, (d0 :: ds). split; reflexivity.
Qed.

(** C3. In every structured table the data rows all have the length of
    the header row: the first cleaned row is the header, each later one is
    padded with empty strings when shorter than the header and truncated
    when longer; [column_count] is the header length and [row_count] the
    number of data rows. *)
Theorem structure_table_rows_match_header
    (table : raw_table) (page_num table_idx : Z) (st : structured_table) :
  _structure_table table page_num table_idx = Some st ->
  Forall (fun r => length r = length (header st)) (data st)
  /\ column_count st = zlen (header st)
  /\ row_count st = zlen (data st)
  /\ exists data_rows,
       cleaned_rows (non_empty_rows table) = header st :: data_rows
       /\ length (data st) = length data_rows
       /\ Forall2 (fun raw r =>
                     ((length raw <= length (header st))%nat ->
                      r = (raw ++ replicate (length (header st) - length raw)
                                            EmptyString)%list)
                     /\ ((length (header st) <= length raw)%nat ->
                         r = take (length (header st)) raw))
                  data_rows (data st).
Proof.
  intros Hst.
  destruct (structure_table_inv _ _ _ _ Hst) as (header_row & data_rows & Hrows & ->).
  cbn [header data row_count column_count].
  split; [|split; [reflexivity | split; [reflexivity|]]].
  - apply normalized_rows_length.
  - exists data_rows. split; [exact Hrows|]. split; [apply length_map|].
    apply normalized_rows_spec.
Qed.

Lemma structure_table_rows_match_header_witness :
  let st := {| page_number := 7;
               table_index := 1;
               header := ["Name"; "Age"; EmptyString];
               data := [ ["Ann"; EmptyString; EmptyString]; ["Bob"; "27"; "x"] ];
               row_count := 2;
               column_count := 3 |} in
  Forall (fun r => length r = length (header st)) (data st)
  /\ column_count st = zlen (header st)
  /\ row_count st = zlen (data st)
  /\ exists data_rows,
       cleaned_rows (non_empty_rows Scenario.ragged_table) = header st :: data_rows
       /\ length (data st) = length data_rows
       /\ Forall2 (fun raw r =>
                     ((length raw <= length (header st))%nat ->
                      r = (raw ++ replicate (length (header st) - length raw)
                                            EmptyString)%list)
                     /\ ((length (header st) <= length raw)%nat ->
                         r = take (length (header st)) raw))
                  data_rows (data st).
Proof.
  apply (structure_table_rows_match_header Scenario.ragged_table 7 1).
  vm_compute. reflexivity.
Defined.

(** The same shape for every table that [extract] returns for a page. *)
Lemma extract_from_rows_match_header
    (config : ExtractionConfig) (tables : list raw_table) (page_num idx : Z)
    (valid_tables out : list structured_table) :
  Forall (fun st => Forall (fun r => length r = length (header st)) (data st)
                    /\ column_count st = zlen (header st)
                    /\ row_count st = zlen (data st)) valid_tables ->
  extract_from config idx tables page_num valid_tables = Returns out ->
  Forall (fun st => Forall (fun r => length r = length (header st)) (data st)
                    /\ column_count st = zlen (header st)
                    /\ row_count st = zlen (data st)) out.
Proof.
  revert idx valid_tables.
  induction tables as [|table tables IH]; intros idx valid_tables Hvalid; simpl.
  - intros [= <-]. exact Hvalid.
  - destruct table as [|r rows]; [apply IH, Hvalid|].
    destruct (_validate_table config (r :: rows)) as [[|]|]; [| apply IH, Hvalid | discriminate].
    destruct (_structure_table (r :: rows) page_num (idx + 1)) as [st|] eqn:Hst;
      [|apply IH, Hvalid].
    apply IH. apply Forall_app. split; [exact Hvalid|].
    constructor; [|constructor].
    destruct (structure_table_inv _ _ _ _ Hst) as (header_row & data_rows & _ & ->).
    cbn [header data row_count column_count].
    split; [apply normalized_rows_length | split; reflexivity].
Qed.

Corollary extract_rows_match_header
    (config : ExtractionConfig) (tables : list raw_table) (page_num : Z) :
  Forall (fun st => Forall (fun r => length r = length (header st)) (data st)
                    /\ column_count st = zlen (header st)
                    /\ row_count st = zlen (data st))
         (extract config tables page_num).
Proof.
  unfold extract.
  destruct (extract_from config 0 tables page_num []) as [out|] eqn:Hout;
    [|constructor].
  eapply extract_from_rows_match_header; [|exact Hout]. constructor.
Qed.

(** C5. Under the default configuration a grid with fewer than two
    non-empty rows, such as a header row alone, is rejected by validation
    and the extractor returns the empty sequence for its page. *)
Theorem validate_rejects_fewer_than_two_rows (table : raw_table) (page_num : Z) :
  zlen (non_empty_rows table) < 2 ->
  _validate_table default_config table = Returns false
  /\ extract default_config [table] page_num = [].
Proof.
  intros Hrows.
  assert (Hval : _validate_table default_config table = Returns false).
  { unfold _validate_table. destruct table as [|r rows]; [reflexivity|].
    change (min_table_rows default_config) with 2.
    destruct (Z.ltb_spec (zlen (non_empty_rows (r :: rows))) 2); [reflexivity | lia]. }
  split; [exact Hval|].
  unfold extract. simpl extract_from. rewrite Hval.
  destruct table; reflexivity.
Qed.

Lemma validate_rejects_fewer_than_two_rows_witness :
  _validate_table default_config Scenario.header_alone = Returns false
  /\ extract default_config [Scenario.header_alone] 1 = [].
Proof.
  apply (validate_rejects_fewer_than_two_rows Scenario.header_alone 1).
  vm_compute. reflexivity.
Defined.

(** A header row with one data row has two rows: validation accepts the
    grid and the extractor returns its table. *)
Lemma header_and_one_row_is_extracted :
  zlen (non_empty_rows Scenario.header_and_one_row) = min_table_rows default_config
  /\ _validate_table default_config Scenario.header_and_one_row = Returns true
  /\ extract default_config [Scenario.header_and_one_row] 1
     = [ {| page_number := 1;
            table_index := 1;
            header := ["Name"; "Age"];
            data := [ ["Ann"; "31"] ];
            row_count := 1;
            column_count := 2 |} ].
Proof. repeat split; vm_compute; reflexivity. Qed.

(** C6. For a grid that passes the earlier tests (empty-row drop, minimum
    rows and columns, fill ratio), validation rejects it exactly when the
    number of over-long cells of its non-empty rows is more than half the
    number of those rows; a cell is over-long when its stripped text is
    longer than [max_cell_length]. *)
Theorem validate_long_cell_test (config : ExtractionConfig) (table : raw_table) :
  Spec.reaches_long_cell_check config table = true ->
  let rows := non_empty_rows table in
  let over_long := Z.of_nat (length (List.filter (cell_long config) (concat rows))) in
  (zlen rows < 2 * over_long -> _validate_table config table = Returns false)
  /\ (2 * over_long <= zlen rows -> _validate_table config table = Returns true).
Proof.
  intros Hreach rows over_long.
  unfold Spec.reaches_long_cell_check in Hreach. fold rows in Hreach.
  apply andb_prop in Hreach as [Hreach Hfill].
  apply andb_prop in Hreach as [Hreach Htotal].
  apply andb_prop in Hreach as [Hreach Hcols].
  apply andb_prop in Hreach as [Htable Hrows].
  apply negb_true_iff in Hfill, Htotal, Hrows.
  apply negb_true_iff, bool_decide_eq_false in Htable.
  assert (Hval : _validate_table config table
                 = if exceeds_half (long_cells config rows) (zlen rows)
                   then Returns false else Returns true).
  { unfold _validate_table. destruct table as [|r rest]; [congruence|].
    fold rows. rewrite Hrows.
    destruct (max_of (map zlen (List.filter row_truthy rows))) as [max_cols|];
      [|discriminate].
    apply negb_true_iff in Hcols. rewrite Hcols, Htotal, Hfill. reflexivity. }
  rewrite Hval. unfold exceeds_half, long_cells. rewrite sum_ones_count.
  fold over_long.
  destruct (Z.ltb_spec (zlen rows) (2 * over_long)); split; intros; try reflexivity; lia.
Qed.

Lemma validate_long_cell_test_witness :
  let rows := non_empty_rows Scenario.two_long_cells_in_one_row in
  let over_long :=
    Z.of_nat (length (List.filter (cell_long default_config) (concat rows))) in
  (zlen rows < 2 * over_long ->
   _validate_table default_config Scenario.two_long_cells_in_one_row = Returns false)
  /\ (2 * over_long <= zlen rows ->
      _validate_table default_config Scenario.two_long_cells_in_one_row = Returns true).
Proof.
  apply (validate_long_cell_test default_config Scenario.two_long_cells_in_one_row).
  vm_compute. reflexivity.
Defined.

(** Two over-long cells in one row of two: only half of the rows contain
    an over-long cell, and validation rejects the grid. *)
Lemma validate_counts_cells_not_rows :
  Spec.reaches_long_cell_check default_config Scenario.two_long_cells_in_one_row = true
  /\ Spec.rows_with_long_cell default_config
       (non_empty_rows Scenario.two_long_cells_in_one_row) = 1
  /\ zlen (non_empty_rows Scenario.two_long_cells_in_one_row) = 2
  /\ exceeds_half 1 2 = false
  /\ _validate_table default_config Scenario.two_long_cells_in_one_row = Returns false.
Proof. repeat split; vm_compute; reflexivity. Qed.

End Tables.

(** *** The first content page *)

Section FirstPage.
Import PDFProcessor.



(** With a skip count that is not negative, the scanned range is the
    document without its first [skip_pages] pages. *)
Lemma scanned_page (pages : list extracted) (skip_pages : Z) (i : nat) :
  0 <= skip_pages ->
  slice_from skip_pages pages !! i = pages !! (Z.to_nat skip_pages + i)%nat.
Proof.
  intros Hskip. unfold slice_from.
  destruct (Z.ltb_spec skip_pages 0); [lia|]. apply lookup_drop.
Qed.



(** The second pass on a document whose second page only is substantial. *)
Lemma identify_first_page_second_pass_example :
  primary_scan (indicators_of Scenario.short_then_long_processor) 200 0 1
    [Text "Cover"; Text (Scenario.letters 250); NoText] = None
  /\ identify_first_page Scenario.short_then_long_processor = Returns 2.
Proof. split; vm_compute; reflexivity. Qed.


End FirstPage.

(** ** Further properties *)

(** *** Strings *)

Section Strings.

Lemma lstrip_head (s : string) :
  match lstrip s with
  | EmptyString => True
  | String c _ => is_space c = false
  end.
Proof.
  induction s as [|c s IH]; simpl; [exact I|].
  destruct (is_space c) eqn:Hc; [exact IH | exact Hc].
Qed.

Lemma lstrip_fixed (c : ascii) (s : string) :
  is_space c = false -> lstrip (String c s) = String c s.
Proof. intros Hc. simpl. rewrite Hc. reflexivity. Qed.

Lemma rstrip_head (c : ascii) (s : string) :
  is_space c = false -> exists t, rstrip (String c s) = String c t.
Proof.
  intros Hc. simpl. destruct (rstrip s) as [|d t].
  - rewrite Hc. eexists. reflexivity.
  - eexists. reflexivity.
Qed.

Lemma rstrip_idempotent (s : string) : rstrip (rstrip s) = rstrip s.
Proof.
  induction s as [|c s IH]; simpl; [reflexivity|].
  destruct (rstrip s) as [|d t] eqn:Hr.
  - destruct (is_space c) eqn:Hc; simpl; [reflexivity|]. rewrite Hc. reflexivity.
  - change (rstrip (String c (String d t)))
      with (match rstrip (String d t) with
            | EmptyString => if is_space c then EmptyString else String c EmptyString
            | String e u => String c (String e u)
            end).
    rewrite IH. reflexivity.
Qed.

(** [s.strip().strip() == s.strip()] *)
Lemma strip_idempotent (s : string) : strip (strip s) = strip s.
Proof.
  unfold strip. pose proof (lstrip_head s) as Hhead.
  destruct (lstrip s) as [|c t]; [reflexivity|].
  destruct (rstrip_head c t Hhead) as [u Hu]. rewrite Hu.
  rewrite (lstrip_fixed c u Hhead), <- Hu. apply rstrip_idempotent.
Qed.

Lemma strip_empty : strip EmptyString = EmptyString.
Proof. reflexivity. Qed.

End Strings.

(** *** The table extractor, further *)

Section TablesFurther.
Import AdaptiveTableExtractor.

Lemma filter_all {A : Type} (f : A -> bool) (l : list A) :
  Forall (fun x => f x = true) l -> List.filter f l = l.
Proof.
  induction 1 as [|x l Hx _ IH]; simpl; [reflexivity|]. rewrite Hx, IH. reflexivity.
Qed.

Lemma filter_Forall {A : Type} (f : A -> bool) (l : list A) :
  Forall (fun x => f x = true) (List.filter f l).
Proof.
  induction l as [|x l IH]; simpl; [constructor|].
  destruct (f x) eqn:Hx; [constructor; assumption | exact IH].
Qed.

Lemma row_non_empty_truthy (r : row) : row_non_empty r = true -> row_truthy r = true.
Proof. destruct r; [discriminate | reflexivity]. Qed.

Lemma non_empty_rows_truthy (table : raw_table) :
  List.filter row_truthy (non_empty_rows table) = non_empty_rows table.
Proof.
  apply filter_all. eapply Forall_impl; [apply filter_Forall|].
  intros r. apply row_non_empty_truthy.
Qed.

Lemma clean_row_keeps (r : row) :
  row_non_empty r = true -> existsb nonempty (clean_row r) = true.
Proof.
  intros Hr. assert (Hex : existsb cell_filled r = true) by (destruct r; [discriminate | exact Hr]).
  clear Hr. induction r as [|c r IH]; simpl in *; [discriminate|].
  destruct (cell_filled c) eqn:Hc.
  - destruct c as [s|]; [|discriminate]. simpl in Hc.
    apply andb_prop in Hc as [Hs Hstrip]. rewrite Hs, Hstrip. reflexivity.
  - rewrite (IH Hex). apply orb_true_r.
Qed.

Lemma cleaned_rows_non_empty (table : raw_table) :
  cleaned_rows (non_empty_rows table) = map clean_row (non_empty_rows table).
Proof.
  unfold cleaned_rows. apply filter_all. apply Forall_map.
  eapply Forall_impl; [apply filter_Forall|]. intros r. apply clean_row_keeps.
Qed.

(** What [_structure_table] returns, from the non-empty rows alone. *)
Lemma structure_table_eq (table : raw_table) (page_num table_idx : Z) :
  _structure_table table page_num table_idx
  = match non_empty_rows table with
    | first :: second :: rest =>
        let header_row := clean_row first in
        let normalized_data :=
          map (normalize_row (length header_row)) (map clean_row (second :: rest)) in
        Some {| page_number := page_num;
                table_index := table_idx;
                header := header_row;
                data := normalized_data;
                row_count := zlen normalized_data;
                column_count := Z.of_nat (length header_row) |}
    | _ => None
    end.
Proof.
  unfold _structure_table.
  destruct (non_empty_rows table) as [|first rows] eqn:Hrows; [reflexivity|].
  rewrite <- Hrows, cleaned_rows_non_empty, Hrows.
  destruct rows as [|second rest]; reflexivity.
Qed.

(** X1. A grid with at most one non-empty row never becomes a table,
    whatever the configuration; any other grid does. *)
Theorem structure_table_none_iff (table : raw_table) (page_num table_idx : Z) :
  _structure_table table page_num table_idx = None
  <-> zlen (non_empty_rows table) <= 1.
Proof.
  rewrite structure_table_eq. unfold zlen.
  destruct (non_empty_rows table) as [|first [|second rest]]; simpl length.
  - split; [lia | reflexivity].
  - split; [lia | reflexivity].
  - split; [discriminate | lia].
Qed.

(** X2. In a structured table the header is the cleaned first non-empty
    row of the grid and the data rows are the cleaned later non-empty rows,
    in order, brought to the header width; so [column_count] is the width
    of the first non-empty row and [row_count] the number of the other
    non-empty rows, both at least 1, and the header has a non-empty
    cell. *)
Theorem structure_table_header_and_rows
    (table : raw_table) (page_num table_idx : Z) (st : structured_table) :
  _structure_table table page_num table_idx = Some st ->
  exists first rest,
    non_empty_rows table = first :: rest
    /\ header st = clean_row first
    /\ data st = map (normalize_row (length first)) (map clean_row rest)
    /\ column_count st = zlen first
    /\ row_count st = zlen rest
    /\ 1 <= column_count st
    /\ 1 <= row_count st
    /\ existsb nonempty (header st) = true
    /\ page_number st = page_num
    /\ table_index st = table_idx.
Proof.
  rewrite structure_table_eq.
  destruct (non_empty_rows table) as [|first [|second rest]] eqn:Hrows;
    [discriminate | discriminate |].
  intros [= <-]. exists first, (second :: rest).
  cbn [header data row_count column_count page_number table_index].
  assert (Hfirst : row_non_empty first = true).
  { pose proof (filter_Forall row_non_empty table) as Hall.
    fold (non_empty_rows table) in Hall. rewrite Hrows in Hall.
    inversion Hall; assumption. }
  assert (Hlen : length (clean_row first) = length first) by apply length_map.
  rewrite !Hlen. unfold zlen.
  repeat split; try reflexivity.
  - simpl. rewrite !length_map. reflexivity.
  - destruct first; [discriminate | simpl; lia].
  - simpl. lia.
  - apply clean_row_keeps, Hfirst.
Qed.

Lemma structure_table_header_and_rows_witness :
  exists first rest,
    non_empty_rows Sample.people_grid = first :: rest
    /\ ["Name"; "Age"] = clean_row first
    /\ [ ["Ann"; "31"]; ["Bob"; EmptyString] ]
       = map (normalize_row (length first)) (map clean_row rest)
    /\ 2 = zlen first
    /\ 2 = zlen rest
    /\ 1 <= 2
    /\ 1 <= 2
    /\ existsb nonempty ["Name"; "Age"] = true
    /\ 4 = 4
    /\ 3 = 3.
Proof.
  apply (structure_table_header_and_rows Sample.people_grid 4 3
           {| page_number := 4; table_index := 3;
              header := ["Name"; "Age"];
              data := [ ["Ann"; "31"]; ["Bob"; EmptyString] ];
              row_count := 2; column_count := 2 |}).
  vm_compute. reflexivity.
Defined.

(** X3. With a row minimum of at least 1, as in every built-in
    configuration, validation always returns a verdict: it never raises. *)
Theorem validate_table_returns (config : ExtractionConfig) (table : raw_table) :
  1 <= min_table_rows config ->
  exists verdict, _validate_table config table = Returns verdict.
Proof.
  intros Hmin. unfold _validate_table.
  destruct table as [|r rows]; [eexists; reflexivity|].
  destruct (Z.ltb_spec (zlen (non_empty_rows (r :: rows))) (min_table_rows config))
    as [_ | Hrows]; [eexists; reflexivity|].
  rewrite non_empty_rows_truthy.
  destruct (non_empty_rows (r :: rows)) as [|first rest]; [unfold zlen in Hrows; simpl in Hrows; lia|].
  simpl max_of. cbv zeta.
  repeat match goal with
  | |- context [if ?b then _ else _] => destruct b
  end; eexists; reflexivity.
Qed.

Lemma validate_table_returns_witness :
  exists verdict, _validate_table default_config Sample.blank_grid = Returns verdict.
Proof.
  apply (validate_table_returns default_config Sample.blank_grid).
  vm_compute. discriminate.
Defined.

Lemma validate_blank_grid_raises (config : ExtractionConfig) (table : raw_table) :
  min_table_rows config <= 0 -> table <> [] -> non_empty_rows table = [] ->
  _validate_table config table = Raises.
Proof.
  intros Hmin Htable Hrows. unfold _validate_table.
  destruct table as [|r rows]; [contradiction|].
  rewrite Hrows. change (zlen []) with 0.
  destruct (Z.ltb_spec 0 (min_table_rows config)); [lia | reflexivity].
Qed.

Lemma extract_from_raises (config : ExtractionConfig) (table : raw_table)
    (tables : list raw_table) (page_num idx : Z)
    (valid_tables : list structured_table) :
  table ∈ tables -> table <> [] -> _validate_table config table = Raises ->
  extract_from config idx tables page_num valid_tables = Raises.
Proof.
  intros Hin Htable Hraise. revert idx valid_tables.
  induction tables as [|t rest IH]; intros idx valid_tables; [inversion Hin|].
  apply elem_of_cons in Hin as [<- | Hin].
  - simpl. destruct table; [contradiction|]. rewrite Hraise. reflexivity.
  - specialize (IH Hin). simpl. destruct t as [|r rows]; [apply IH|].
    destruct (_validate_table config (r :: rows)) as [[|]|]; [| apply IH | reflexivity].
    destruct (_structure_table (r :: rows) page_num (idx + 1)); apply IH.
Qed.

(** X4. With a row minimum of zero or less, a grid that has rows but no
    non-empty row makes validation raise, and [extract] then returns no
    table at all for the page, whatever the other grids of the page. *)
Theorem extract_drops_page_on_blank_grid
    (config : ExtractionConfig) (table : raw_table) (tables : list raw_table)
    (page_num : Z) :
  min_table_rows config <= 0 ->
  table ∈ tables -> table <> [] -> non_empty_rows table = [] ->
  _validate_table config table = Raises
  /\ extract config tables page_num = [].
Proof.
  intros Hmin Hin Htable Hrows.
  pose proof (validate_blank_grid_raises config table Hmin Htable Hrows) as Hraise.
  split; [exact Hraise|]. unfold extract.
  rewrite (extract_from_raises config table tables page_num 0 [] Hin Htable Hraise).
  reflexivity.
Qed.

Lemma extract_drops_page_on_blank_grid_witness :
  _validate_table Sample.config_without_row_minimum Sample.blank_grid = Raises
  /\ extract Sample.config_without_row_minimum
       [Scenario.header_and_one_row; Sample.blank_grid] 1 = [].
Proof.
  apply (extract_drops_page_on_blank_grid Sample.config_without_row_minimum
           Sample.blank_grid [Scenario.header_and_one_row; Sample.blank_grid] 1).
  - vm_compute. discriminate.
  - apply list_elem_of_further, list_elem_of_here.
  - discriminate.
  - reflexivity.
Defined.

(** Without a raise the loop of [extract] accepts what [accepted_from]
    lists. *)
Lemma extract_from_accepted (config : ExtractionConfig) (tables : list raw_table)
    (page_num idx : Z) (valid_tables : list structured_table) :
  1 <= min_table_rows config ->
  extract_from config idx tables page_num valid_tables
  = Returns (valid_tables ++ Sample.accepted_from config page_num idx tables)%list.
Proof.
  intros Hmin. revert idx valid_tables.
  induction tables as [|t rest IH]; intros idx valid_tables.
  - simpl. rewrite app_nil_r. reflexivity.
  - simpl. destruct (validate_table_returns config t Hmin) as [verdict Hv].
    destruct t as [|r rows].
    + simpl. apply IH.
    + rewrite Hv. destruct verdict; [|apply IH].
      destruct (_structure_table (r :: rows) page_num (idx + 1)) as [st|]; [|apply IH].
      rewrite IH, <- app_assoc. reflexivity.
Qed.

Lemma accepted_from_elem (config : ExtractionConfig) (tables : list raw_table)
    (page_num idx : Z) (st : structured_table) :
  st ∈ Sample.accepted_from config page_num idx tables
  <-> exists i table,
        tables !! i = Some table
        /\ _validate_table config table = Returns true
        /\ _structure_table table page_num (idx + Z.of_nat i + 1) = Some st.
Proof.
  revert idx. induction tables as [|t rest IH]; intros idx; simpl.
  - split; [intros Hin; inversion Hin | intros (i & table & Hi & _); discriminate].
  - assert (Hrest :
      (exists i table, rest !! i = Some table
         /\ _validate_table config table = Returns true
         /\ _structure_table table page_num (idx + 1 + Z.of_nat i + 1) = Some st)
      <-> (exists i table, (t :: rest) !! S i = Some table
         /\ _validate_table config table = Returns true
         /\ _structure_table table page_num (idx + Z.of_nat (S i) + 1) = Some st)).
    { split; intros (i & table & Hi & Hv & Hs); exists i, table;
        (split; [exact Hi | split; [exact Hv|]]);
        [replace (idx + Z.of_nat (S i) + 1) with (idx + 1 + Z.of_nat i + 1) by lia
        |replace (idx + 1 + Z.of_nat i + 1) with (idx + Z.of_nat (S i) + 1) by lia];
        exact Hs. }
    assert (Hsplit :
      (exists i table, (t :: rest) !! i = Some table
         /\ _validate_table config table = Returns true
         /\ _structure_table table page_num (idx + Z.of_nat i + 1) = Some st)
      <-> (_validate_table config t = Returns true
           /\ _structure_table t page_num (idx + 1) = Some st)
          \/ st ∈ Sample.accepted_from config page_num (idx + 1) rest).
    { rewrite IH, Hrest. split.
      - intros ([|i] & table & Hi & Hv & Hs).
        + injection Hi as <-. left. split; [exact Hv|].
          replace (idx + 1) with (idx + Z.of_nat 0 + 1) by lia. exact Hs.
        + right. exists i, table. auto.
      - intros [[Hv Hs] | (i & table & Hi & Hv & Hs)].
        + exists 0%nat, t. split; [reflexivity | split; [exact Hv|]].
          replace (idx + Z.of_nat 0 + 1) with (idx + 1) by lia. exact Hs.
        + exists (S i), table. auto. }
    rewrite Hsplit.
    destruct (_validate_table config t) as [[|]|];
      [destruct (_structure_table t page_num (idx + 1)) as [st0|]|..].
    + rewrite elem_of_cons. split.
      * intros [-> | Hin]; [left; split; reflexivity | right; exact Hin].
      * intros [[_ [= ->]] | Hin]; [left; reflexivity | right; exact Hin].
    + split; [intros Hin; right; exact Hin | intros [[_ Hs] | Hin]; [discriminate | exact Hin]].
    + split; [intros Hin; right; exact Hin | intros [[Hv _] | Hin]; [discriminate | exact Hin]].
    + split; [intros Hin; right; exact Hin | intros [[Hv _] | Hin]; [discriminate | exact Hin]].
Qed.

Lemma accepted_from_numbered (config : ExtractionConfig) (tables : list raw_table)
    (page_num idx : Z) :
  Forall (fun st => page_number st = page_num
                    /\ idx + 1 <= table_index st <= idx + zlen tables)
         (Sample.accepted_from config page_num idx tables)
  /\ StronglySorted Z.lt
       (map table_index (Sample.accepted_from config page_num idx tables)).
Proof.
  revert idx. induction tables as [|t rest IH]; intros idx; simpl.
  - split; constructor.
  - destruct (IH (idx + 1)) as [Hall Hsorted].
    assert (Hall' : Forall (fun st => page_number st = page_num
                              /\ idx + 1 <= table_index st <= idx + zlen (t :: rest))
                           (Sample.accepted_from config page_num (idx + 1) rest)).
    { eapply Forall_impl; [exact Hall|]. intros st [Hp Hi]. split; [exact Hp|].
      unfold zlen in *. simpl length. lia. }
    destruct (_validate_table config t) as [[|]|]; try (split; assumption).
    destruct (_structure_table t page_num (idx + 1)) as [st0|] eqn:Hst;
      [|split; assumption].
    destruct (structure_table_inv _ _ _ _ Hst) as (hd & ds & _ & Heq).
    assert (Hp : page_number st0 = page_num) by (rewrite Heq; reflexivity).
    assert (Hi : table_index st0 = idx + 1) by (rewrite Heq; reflexivity).
    split.
    + constructor; [|exact Hall']. split; [exact Hp|].
      unfold zlen. simpl length. lia.
    + simpl. constructor; [exact Hsorted|].
      apply Forall_map. eapply Forall_impl; [exact Hall|].
      intros st [_ Hrange]. simpl. lia.
Qed.

Lemma extract_accepted (config : ExtractionConfig) (tables : list raw_table)
    (page_num : Z) :
  1 <= min_table_rows config ->
  extract config tables page_num = Sample.accepted_from config page_num 0 tables.
Proof.
  intros Hmin. unfold extract. rewrite extract_from_accepted by exact Hmin. reflexivity.
Qed.

(** X5. With a row minimum of at least 1, the tables that [extract]
    returns for a page are exactly the structured forms of the grids that
    validation accepts, each numbered by the position of its grid among
    all the grids of the page (counted from 1, rejected grids included),
    in increasing order, and each carrying the page number. *)
Theorem extract_tables_numbered
    (config : ExtractionConfig) (tables : list raw_table) (page_num : Z) :
  1 <= min_table_rows config ->
  (forall st,
      st ∈ extract config tables page_num
      <-> exists i table,
            tables !! i = Some table
            /\ _validate_table config table = Returns true
            /\ _structure_table table page_num (Z.of_nat i + 1) = Some st)
  /\ Forall (fun st => page_number st = page_num
                       /\ 1 <= table_index st <= zlen tables)
            (extract config tables page_num)
  /\ StronglySorted Z.lt (map table_index (extract config tables page_num)).
Proof.
  intros Hmin. rewrite extract_accepted by exact Hmin.
  destruct (accepted_from_numbered config tables page_num 0) as [Hall Hsorted].
  split; [|split; [|exact Hsorted]].
  - intros st. rewrite accepted_from_elem. reflexivity.
  - eapply Forall_impl; [exact Hall|]. intros st [Hp Hi]. split; [exact Hp | lia].
Qed.

Lemma extract_tables_numbered_witness :
  (forall st,
      st ∈ extract default_config [Sample.blank_grid; Sample.people_grid] 9
      <-> exists i table,
            [Sample.blank_grid; Sample.people_grid] !! i = Some table
            /\ _validate_table default_config table = Returns true
            /\ _structure_table table 9 (Z.of_nat i + 1) = Some st)
  /\ Forall (fun st => page_number st = 9
                       /\ 1 <= table_index st
                          <= zlen [Sample.blank_grid; Sample.people_grid])
            (extract default_config [Sample.blank_grid; Sample.people_grid] 9)
  /\ StronglySorted Z.lt
       (map table_index
            (extract default_config [Sample.blank_grid; Sample.people_grid] 9)).
Proof.
  apply (extract_tables_numbered default_config
           [Sample.blank_grid; Sample.people_grid] 9).
  vm_compute. discriminate.
Defined.

Lemma validated_rows (config : ExtractionConfig) (table : raw_table) :
  _validate_table config table = Returns true ->
  min_table_rows config <= zlen (non_empty_rows table).
Proof.
  unfold _validate_table. destruct table as [|r rows]; [discriminate|].
  destruct (Z.ltb_spec (zlen (non_empty_rows (r :: rows))) (min_table_rows config));
    [discriminate | intros _; assumption].
Qed.

(** X6. With a row minimum of at least 2, as in every built-in
    configuration, each grid that validation accepts yields exactly one
    table: [extract] returns as many tables as the page has accepted
    grids. *)
Theorem extract_one_table_per_accepted_grid
    (config : ExtractionConfig) (tables : list raw_table) (page_num : Z) :
  2 <= min_table_rows config ->
  length (extract config tables page_num)
  = length (List.filter
              (fun table =>
                 match _validate_table config table with
                 | Returns true => true
                 | _ => false
                 end) tables).
Proof.
  intros Hmin. rewrite extract_accepted by lia.
  generalize 0. induction tables as [|t rest IH]; intros idx; simpl; [reflexivity|].
  destruct (_validate_table config t) as [[|]|] eqn:Hv; try apply IH.
  pose proof (validated_rows config t Hv) as Hrows.
  rewrite structure_table_eq.
  destruct (non_empty_rows t) as [|first [|second others]];
    [unfold zlen in Hrows; simpl in Hrows; lia
    |unfold zlen in Hrows; simpl in Hrows; lia|].
  simpl. f_equal. apply IH.
Qed.

Lemma extract_one_table_per_accepted_grid_witness :
  length (extract default_config
            [Sample.people_grid; Scenario.header_alone; Scenario.header_and_one_row] 2)
  = length (List.filter
              (fun table =>
                 match _validate_table default_config table with
                 | Returns true => true
                 | _ => false
                 end)
              [Sample.people_grid; Scenario.header_alone; Scenario.header_and_one_row]).
Proof.
  apply (extract_one_table_per_accepted_grid default_config
           [Sample.people_grid; Scenario.header_alone; Scenario.header_and_one_row] 2).
  vm_compute. discriminate.
Defined.

Lemma clean_row_stripped (r : row) :
  Forall (fun c => strip c = c) (clean_row r).
Proof.
  unfold clean_row. apply Forall_map, Forall_forall. intros [s|] _; simpl.
  - destruct (nonempty s); [apply strip_idempotent | reflexivity].
  - reflexivity.
Qed.

Lemma normalize_row_stripped (header_len : nat) (r : list string) :
  Forall (fun c => strip c = c) r ->
  Forall (fun c => strip c = c) (normalize_row header_len r).
Proof.
  intros Hr. unfold normalize_row.
  destruct (length r <? header_len)%nat.
  - apply Forall_app. split; [exact Hr|].
    apply Forall_forall. intros c Hc. apply elem_of_replicate in Hc as [-> _].
    reflexivity.
  - destruct (header_len <? length r)%nat; [apply Forall_take, Hr | exact Hr].
Qed.

(** X7. No cell of a structured table, in the header or in a data row,
    has leading or trailing white space: stripping it again changes
    nothing. *)
Theorem structure_table_cells_stripped
    (table : raw_table) (page_num table_idx : Z) (st : structured_table) :
  _structure_table table page_num table_idx = Some st ->
  Forall (fun c => strip c = c) (header st)
  /\ Forall (Forall (fun c => strip c = c)) (data st).
Proof.
  intros Hst.
  destruct (structure_table_inv _ _ _ _ Hst) as (header_row & data_rows & Hrows & ->).
  cbn [header data]. rewrite cleaned_rows_non_empty in Hrows.
  assert (Hall : Forall (Forall (fun c => strip c = c)) (header_row :: data_rows)).
  { rewrite <- Hrows. apply Forall_forall. intros r Hin.
    apply list_elem_of_fmap in Hin as (r0 & -> & _). apply clean_row_stripped. }
  inversion Hall as [|? ? Hheader Hdata]; subst. split; [exact Hheader|].
  apply Forall_forall. intros r Hin.
  apply list_elem_of_fmap in Hin as (r0 & -> & Hin).
  apply normalize_row_stripped. rewrite Forall_forall in Hdata. apply Hdata, Hin.
Qed.

Lemma structure_table_cells_stripped_witness :
  Forall (fun c => strip c = c) ["Name"; "Age"]
  /\ Forall (Forall (fun c => strip c = c)) [ ["Ann"; "31"]; ["Bob"; EmptyString] ].
Proof.
  apply (structure_table_cells_stripped Sample.people_grid 4 3
           {| page_number := 4; table_index := 3;
              header := ["Name"; "Age"];
              data := [ ["Ann"; "31"]; ["Bob"; EmptyString] ];
              row_count := 2; column_count := 2 |}).
  vm_compute. reflexivity.
Defined.

End TablesFurther.

(** *** The index extractor, further *)

Section IndexFurther.
Import AdaptiveIndexExtractor.

(** A [Forall] over a list that computes, instance by instance. *)
Ltac computed_Forall :=
  match goal with
  | |- Forall _ ?l => let l' := eval vm_compute in l in change l with l'
  end;
  repeat (constructor; [vm_compute; reflexivity|]); constructor.

Lemma absorb_until_break_extra (index_pages next_pages : list page) :
  exists extra,
    absorb_until_break index_pages next_pages = (index_pages ++ extra)%list
    /\ sublist extra next_pages.
Proof.
  revert index_pages. induction next_pages as [|np rest IH]; intros index_pages; simpl.
  - exists []. split; [rewrite app_nil_r; reflexivity | constructor].
  - destruct (_looks_like_index_continuation (text np)).
    + destruct (bool_decide (np ∈ index_pages)).
      * destruct (IH index_pages) as (extra & -> & Hsub).
        exists extra. split; [reflexivity | apply sublist_cons, Hsub].
      * destruct (IH (index_pages ++ [np])%list) as (extra & -> & Hsub).
        exists (np :: extra). split; [rewrite <- app_assoc; reflexivity|].
        apply sublist_skip, Hsub.
    + exists []. split; [rewrite app_nil_r; reflexivity | apply sublist_nil_l].
Qed.

Lemma absorb_all_extra (index_pages next_pages : list page) :
  exists extra,
    absorb_all index_pages next_pages = (index_pages ++ extra)%list
    /\ sublist extra next_pages.
Proof.
  revert index_pages. induction next_pages as [|np rest IH]; intros index_pages; simpl.
  - exists []. split; [rewrite app_nil_r; reflexivity | constructor].
  - destruct (_ && _).
    + destruct (IH (index_pages ++ [np])%list) as (extra & -> & Hsub).
      exists (np :: extra). split; [rewrite <- app_assoc; reflexivity|].
      apply sublist_skip, Hsub.
    + destruct (IH index_pages) as (extra & -> & Hsub).
      exists extra. split; [reflexivity | apply sublist_cons, Hsub].
Qed.

Lemma find_elem {A : Type} (f : A -> bool) (l : list A) (x : A) :
  List.find f l = Some x -> x ∈ l /\ f x = true.
Proof.
  intros Hfind. apply find_some in Hfind as [Hin Hf].
  split; [apply list_elem_of_In, Hin | exact Hf].
Qed.

Lemma index_of_lookup (p : page) (pages : list page) :
  p ∈ pages -> pages !! index_of p pages = Some p.
Proof.
  intros Hin. unfold index_of.
  destruct (list_find_elem_of (fun q => q = p) pages p Hin eq_refl) as [[i q] Hfind].
  rewrite Hfind. apply list_find_Some in Hfind as (Hi & -> & _). exact Hi.
Qed.

(** A page with the pages that follow it, some left out, is a sublist of
    the pages. *)
Lemma page_and_followers (p : page) (pages extra : list page) (n : nat) :
  p ∈ pages ->
  sublist extra (take n (drop (index_of p pages + 1) pages)) ->
  sublist (p :: extra) pages /\ (length extra <= n)%nat.
Proof.
  intros Hin Hsub. pose proof (index_of_lookup p pages Hin) as Hi. split.
  - rewrite <- (take_drop_middle pages (index_of p pages) p Hi).
    apply sublist_inserts_l, sublist_skip.
    rewrite Nat.add_1_r in Hsub.
    etransitivity; [exact Hsub | apply sublist_take].
  - apply sublist_length in Hsub. rewrite length_take in Hsub. lia.
Qed.

Lemma find_by_keywords_shape (config : ExtractionConfig) (pages : list page) :
  match List.find (fun p => has_keyword config (lower (text p))) pages with
  | Some p =>
      exists extra,
        _find_index_pages_by_keywords config pages = p :: extra
        /\ sublist (p :: extra) pages /\ (length extra <= 2)%nat
  | None => _find_index_pages_by_keywords config pages = []
  end.
Proof.
  unfold _find_index_pages_by_keywords.
  destruct (List.find _ pages) as [p|] eqn:Hfind; [|reflexivity].
  apply find_elem in Hfind as [Hin _].
  destruct (absorb_until_break_extra [p]
              (take 2 (drop (index_of p pages + 1) pages))) as (extra & -> & Hsub).
  exists extra. split; [reflexivity|]. apply (page_and_followers p pages extra 2 Hin Hsub).
Qed.

Lemma find_by_patterns_shape (config : ExtractionConfig) (pages : list page) :
  _find_index_pages_by_patterns pages = []
  \/ exists p extra,
       _find_index_pages_by_patterns pages = p :: extra
       /\ sublist (p :: extra) pages /\ (length extra <= 1)%nat.
Proof.
  unfold _find_index_pages_by_patterns.
  destruct (List.find _ pages) as [p|] eqn:Hfind; [|left; reflexivity].
  apply find_elem in Hfind as [Hin _]. right.
  destruct (absorb_all_extra [p]
              (take 1 (drop (index_of p pages + 1) pages))) as (extra & -> & Hsub).
  exists p, extra. split; [reflexivity|].
  apply (page_and_followers p pages extra 1 Hin Hsub).
Qed.

Lemma singleton_sublist {A : Type} (x : A) (l : list A) : x ∈ l -> sublist [x] l.
Proof.
  intros Hin. apply list_elem_of_split in Hin as (l1 & l2 & ->).
  apply sublist_inserts_l, sublist_skip, sublist_nil_l.
Qed.

Lemma find_by_statistics_shape (pages : list page) :
  _find_index_pages_by_statistics pages = []
  \/ exists p,
       _find_index_pages_by_statistics pages = [p] /\ sublist [p] pages.
Proof.
  unfold _find_index_pages_by_statistics.
  destruct (List.find _ _) as [p|] eqn:Hfind; [|left; reflexivity].
  apply find_elem in Hfind as [Hin _]. right. exists p. split; [reflexivity|].
  etransitivity; [apply singleton_sublist, Hin | apply sublist_take].
Qed.

(** The located pages: none, or a page of the input with at most two of
    the pages that follow it. *)
Lemma locate_shape (config : ExtractionConfig) (pages : list page) :
  locate config pages = []
  \/ exists p extra,
       locate config pages = p :: extra
       /\ sublist (p :: extra) pages /\ (length extra <= 2)%nat.
Proof.
  unfold locate. pose proof (find_by_keywords_shape config pages) as Hk.
  destruct (List.find _ pages) as [p|].
  - destruct Hk as (extra & -> & Hsub & Hlen). right. exists p, extra. auto.
  - rewrite Hk.
    destruct (find_by_patterns_shape config pages)
      as [-> | (p & extra & -> & Hsub & Hlen)].
    + destruct (find_by_statistics_shape pages) as [-> | (p & -> & Hsub)].
      * left. reflexivity.
      * right. exists p, []. simpl. split; [reflexivity | split; [exact Hsub | lia]].
    + right. exists p, extra. split; [reflexivity | split; [exact Hsub | lia]].
Qed.

Lemma slice_to_sublist {A : Type} (n : Z) (xs : list A) : sublist (slice_to n xs) xs.
Proof. unfold slice_to. destruct (n <? 0); apply sublist_take. Qed.

(** X8. The pages of an index result are a page among the first
    [min(max_pages, len(pages))] input pages together with at most two of
    the pages after it, in their input order; [page_number] is the number
    of the first of them and [raw_text] joins their texts with
    newlines. *)
Theorem extract_result_pages
    (config : ExtractionConfig) (pages : list page) (max_pages : option Z)
    (r : index_result) :
  extract config pages max_pages = Some r ->
  exists first_page extra,
    sublist (first_page :: extra)
            (slice_to (Z.min (effective_max_pages config max_pages) (zlen pages)) pages)
    /\ sublist (first_page :: extra) pages
    /\ (length extra <= 2)%nat
    /\ result_page_number r = page_number first_page
    /\ result_pages r = map page_number (first_page :: extra)
    /\ raw_text r = join nl (map text (first_page :: extra))
    /\ has_index_keyword r = true.
Proof.
  unfold extract, located_pages.
  set (window := slice_to _ pages).
  destruct (locate_shape config window) as [-> | (p & extra & -> & Hsub & Hlen)];
    [discriminate|].
  destruct (_ <? _); [discriminate|]. intros [= <-].
  exists p, extra. cbn [result_page_number result_pages raw_text has_index_keyword].
  repeat split; try reflexivity; try assumption.
  etransitivity; [exact Hsub | apply slice_to_sublist].
Qed.

Lemma extract_result_pages_witness :
  exists first_page extra,
    sublist (first_page :: extra)
            (slice_to (Z.min (effective_max_pages default_config None)
                             (zlen Scenario.toc_pages)) Scenario.toc_pages)
    /\ sublist (first_page :: extra) Scenario.toc_pages
    /\ (length extra <= 2)%nat
    /\ 1 = page_number first_page
    /\ [1] = map page_number (first_page :: extra)
    /\ Scenario.toc_text = join nl (map text (first_page :: extra))
    /\ true = true.
Proof.
  apply (extract_result_pages default_config Scenario.toc_pages None
           {| result_page_number := 1;
              result_pages := [1];
              has_index_keyword := true;
              result_entries := Scenario.toc_entries;
              raw_text := Scenario.toc_text |}).
  vm_compute. reflexivity.
Defined.

(** X9. The keyword strategy has priority: when some page among the
    first [min(max_pages, len(pages))] has an index keyword in its
    lower-cased text, an index result starts at the first such page. *)
Theorem extract_starts_at_first_keyword_page
    (config : ExtractionConfig) (pages : list page) (max_pages : option Z)
    (r : index_result) (p : page) :
  extract config pages max_pages = Some r ->
  List.find (fun p => has_keyword config (lower (text p)))
            (slice_to (Z.min (effective_max_pages config max_pages) (zlen pages)) pages)
  = Some p ->
  result_page_number r = page_number p
  /\ head (result_pages r) = Some (page_number p).
Proof.
  unfold extract, located_pages, locate.
  set (window := slice_to _ pages). intros Hex Hfind.
  pose proof (find_by_keywords_shape config window) as Hk. rewrite Hfind in Hk.
  destruct Hk as (extra & Hk & _). rewrite Hk in Hex.
  destruct (_ <? _); [discriminate|]. injection Hex as <-. split; reflexivity.
Qed.

Lemma extract_starts_at_first_keyword_page_witness :
  1 = 1 /\ head [1] = Some 1.
Proof.
  apply (extract_starts_at_first_keyword_page default_config Scenario.toc_pages None
           {| result_page_number := 1;
              result_pages := [1];
              has_index_keyword := true;
              result_entries := Scenario.toc_entries;
              raw_text := Scenario.toc_text |}
           {| page_number := 1; text := Scenario.toc_text |});
    vm_compute; reflexivity.
Defined.

(** Page references and entry numbers of the store. *)

Lemma int_of_digits_nonneg (s : string) (acc : Z) :
  all_digits s = true -> 0 <= acc -> 0 <= int_of_digits acc s.
Proof.
  revert acc. induction s as [|c s IH]; intros acc Hdigits Hacc; simpl; [exact Hacc|].
  simpl in Hdigits. apply andb_prop in Hdigits as [Hc Hs].
  apply IH; [exact Hs|].
  unfold is_digit, in_range in Hc. apply andb_prop in Hc as [Hlo _].
  apply N.leb_le in Hlo. change (code "0") with 48%N in Hlo. lia.
Qed.

Lemma group_or_none_nonempty (groups : caps) (i : nat) (g : string) :
  group_or_none groups i = Some g -> g <> EmptyString.
Proof.
  unfold group_or_none. destruct (groups !! i) as [[g0|]|]; try discriminate.
  destruct g0; [discriminate|]. intros [= <-]. discriminate.
Qed.

Lemma no_entry_well_formed : Sample.well_formed no_entry.
Proof. split; intros ?; discriminate. Qed.

Lemma deref_well_formed (st : state) (a : nat) :
  Forall Sample.well_formed (store st) -> Sample.well_formed (deref st a).
Proof.
  intros Hstore. unfold deref. destruct (store st !! a) as [e|] eqn:Ha; simpl.
  - rewrite Forall_forall in Hstore. apply Hstore. eapply list_elem_of_lookup_2, Ha.
  - apply no_entry_well_formed.
Qed.

Lemma save_checked_store (st : state) (a : nat) : store (save_checked st a) = store st.
Proof. unfold save_checked. destruct (_ && _); reflexivity. Qed.

Lemma save_unchecked_store (st : state) (a : nat) :
  store (save_unchecked st a) = store st.
Proof. unfold save_unchecked. destruct (negb _); reflexivity. Qed.

Lemma try_patterns_store (line : string) (patterns : list regex) (st : state) :
  Forall Sample.well_formed (store st) ->
  Forall Sample.well_formed (store (try_patterns line patterns st).1).
Proof.
  revert st. induction patterns as [|pattern rest IH]; intros st Hstore; simpl;
    [exact Hstore|].
  destruct (match_ true pattern line) as [groups|]; [|apply IH, Hstore].
  set (st1 := match current_entry st with Some a => save_checked st a | None => st end).
  assert (Hstore1 : Forall Sample.well_formed (store st1)).
  { subst st1. destruct (current_entry st); [rewrite save_checked_store|]; exact Hstore. }
  destruct (_ && _ && _).
  - destruct (bool_decide _); [apply IH, Hstore1|].
    simpl. apply Forall_app. split; [exact Hstore1|]. constructor; [|constructor].
    split; simpl.
    + intros number. apply group_or_none_nonempty.
    + intros page_ref. destruct (group_or_none groups 2) as [ref|]; [|discriminate].
      destruct (isdigit ref) eqn:Hdigit; [|discriminate]. intros [= <-].
      apply int_of_digits_nonneg; [|lia]. destruct ref; [discriminate | exact Hdigit].
  - apply IH. exact Hstore1.
Qed.

Lemma handle_unmatched_store (line : string) (st : state) :
  Forall Sample.well_formed (store st) ->
  Forall Sample.well_formed (store (handle_unmatched line st)).
Proof.
  intros Hstore. unfold handle_unmatched.
  destruct (current_entry st) as [a|].
  - destruct (_ && _).
    + destruct (bool_decide _); [exact Hstore|]. simpl.
      pose proof (deref_well_formed st a Hstore) as [Hnum Href].
      apply Forall_insert; [exact Hstore|]. split; simpl; assumption.
    + simpl. rewrite save_unchecked_store. exact Hstore.
  - destruct (_ && _ && _ && _ && _); [|exact Hstore].
    destruct (_ || _); [|exact Hstore].
    destruct (bool_decide _); [exact Hstore|]. simpl.
    apply Forall_app. split; [exact Hstore|]. constructor; [|constructor].
    split; intros ?; discriminate.
Qed.

Lemma step_store (config : ExtractionConfig) (st : state) (raw_line : string) :
  Forall Sample.well_formed (store st) ->
  Forall Sample.well_formed (store (step config st raw_line).1).
Proof.
  intros Hstore. unfold step.
  destruct (negb (nonempty (strip raw_line))).
  - destruct (current_entry st); simpl; [rewrite save_checked_store|]; exact Hstore.
  - destruct (negb (start_collecting st)).
    + destruct (has_keyword config (strip raw_line)); exact Hstore.
    + destruct (_is_content_line _ _ _); [exact Hstore|].
      destruct (_ && _); [exact Hstore|].
      pose proof (try_patterns_store (strip raw_line) (index_patterns config) st Hstore)
        as Htry.
      destruct (try_patterns (strip raw_line) (index_patterns config) st)
        as [st1 matched]. simpl in Htry.
      destruct matched; simpl; [exact Htry | apply handle_unmatched_store, Htry].
Qed.

Lemma run_lines_store (config : ExtractionConfig) (lines : list string) (st : state) :
  Forall Sample.well_formed (store st) ->
  Forall Sample.well_formed (store (run_lines config st lines)).
Proof.
  revert st. induction lines as [|line rest IH]; intros st Hstore; simpl; [exact Hstore|].
  pose proof (step_store config st line Hstore) as Hstep.
  destruct (step config st line) as [st1 stop]. simpl in Hstep.
  destruct stop; [exact Hstep | apply IH, Hstep].
Qed.

Lemma save_last_store (st : state) : store (save_last st) = store st.
Proof.
  unfold save_last. destruct (current_entry st); [|reflexivity].
  destruct (_ && _); reflexivity.
Qed.

Lemma collect_entries_well_formed (config : ExtractionConfig) (index_pages : list page) :
  Forall Sample.well_formed (collect_entries config index_pages).
Proof.
  unfold collect_entries. apply Forall_forall. intros e Hin.
  apply list_elem_of_fmap in Hin as (a & -> & _).
  apply deref_well_formed. rewrite save_last_store.
  apply run_lines_store. constructor.
Qed.

(** X10. In every entry of an index result the entry number, when there
    is one, is a non-empty string, and the page reference, when there is
    one, is not negative. *)
Theorem extract_entries_well_formed
    (config : ExtractionConfig) (pages : list page) (max_pages : option Z)
    (r : index_result) :
  extract config pages max_pages = Some r ->
  Forall Sample.well_formed (result_entries r).
Proof.
  intros Hex.
  destruct (extract_result_entries config pages max_pages r Hex) as [-> _].
  unfold _extract_entries_adaptive.
  pose proof (collect_entries_well_formed config (located_pages config pages max_pages))
    as Hall.
  rewrite Forall_forall in Hall. apply Forall_forall. intros e Hin.
  apply Hall. eapply elem_of_sublist; [exact Hin | apply filter_entries_sublist].
Qed.

Lemma extract_entries_well_formed_witness :
  Forall Sample.well_formed Scenario.toc_entries.
Proof.
  apply (extract_entries_well_formed default_config Scenario.toc_pages None
           {| result_page_number := 1;
              result_pages := [1];
              has_index_keyword := true;
              result_entries := Scenario.toc_entries;
              raw_text := Scenario.toc_text |}).
  vm_compute. reflexivity.
Defined.

(** X11. The lines before the first keyword line leave no trace: the
    loop over the lines reaches the same state as if it started, already
    collecting, on the lines after the first non-blank line that matches
    an index keyword. *)
Theorem run_lines_starts_at_keyword_line
    (config : ExtractionConfig) (before : list string) (keyword_line : string)
    (after : list string) :
  Forall (fun line => has_keyword config (strip line) = false) before ->
  nonempty (strip keyword_line) = true ->
  has_keyword config (strip keyword_line) = true ->
  run_lines config initial_state (before ++ keyword_line :: after)%list
  = run_lines config Sample.collecting after.
Proof.
  intros Hbefore Hline Hkeyword.
  induction Hbefore as [|line before Hno _ IH]; simpl.
  - unfold step. rewrite Hline, Hkeyword. reflexivity.
  - unfold step at 1. destruct (nonempty (strip line)); simpl.
    + rewrite Hno. exact IH.
    + exact IH.
Qed.

Lemma run_lines_starts_at_keyword_line_witness :
  run_lines default_config initial_state
    (["Preface"; "1. Not an entry ... 3"] ++ "  Table of Contents " ::
     ["1. Introduction ... 5"])%list
  = run_lines default_config Sample.collecting ["1. Introduction ... 5"].
Proof.
  apply (run_lines_starts_at_keyword_line default_config
           ["Preface"; "1. Not an entry ... 3"] "  Table of Contents "
           ["1. Introduction ... 5"]).
  - computed_Forall.
  - vm_compute. reflexivity.
  - vm_compute. reflexivity.
Defined.

(** The thresholds of the built-in configurations. *)
Lemma builtin_config_thresholds (book_type : BookType) :
  let config := BookStructureAnalyzer.get_config_for_type book_type in
  index_keywords config = default_index_keywords
  /\ index_patterns config = default_index_patterns
  /\ content_indicators config = default_content_indicators
  /\ 1 <= min_index_entries config
  /\ min_table_rows config = 2
  /\ min_table_cols config = 2
  /\ max_cell_length config = 500
  /\ 100 <= min_content_length config
  /\ (book_type <> NOVEL -> skip_initial_pages config = 0).
Proof. destruct book_type; cbn; repeat split; try lia; try reflexivity; congruence. Qed.

(** X12. Under each built-in configuration, when no line of the located
    pages matches an index keyword, [extract] returns none, whichever
    strategy located the pages. *)
Theorem builtin_extract_none_without_keyword_line
    (book_type : BookType) (pages : list page) (max_pages : option Z) :
  let config := BookStructureAnalyzer.get_config_for_type book_type in
  Forall (fun line => has_keyword config (strip line) = false)
         (index_lines (located_pages config pages max_pages)) ->
  extract config pages max_pages = None.
Proof.
  intros config Hlines. apply extract_below_minimum.
  unfold _extract_entries_adaptive, collect_entries.
  rewrite (run_lines_without_keyword config _ Hlines). simpl.
  pose proof (builtin_config_thresholds book_type) as (_ & _ & _ & Hmin & _).
  fold config in Hmin. change (zlen []) with 0. lia.
Qed.

Lemma builtin_extract_none_without_keyword_line_witness :
  extract (BookStructureAnalyzer.get_config_for_type NOVEL)
    Scenario.plain_list_pages None = None.
Proof.
  apply (builtin_extract_none_without_keyword_line NOVEL Scenario.plain_list_pages None).
  computed_Forall.
Defined.

(** Titles that repeat themselves. *)

Lemma str_app_cons (c : ascii) (s t : string) : String c s ++ t = String c (s ++ t).
Proof. reflexivity. Qed.

Lemma str_app_nil_r (s : string) : s ++ EmptyString = s.
Proof.
  induction s as [|c s IH]; [reflexivity|]. rewrite str_app_cons, IH. reflexivity.
Qed.

Lemma str_app_assoc (s1 s2 s3 : string) : (s1 ++ s2) ++ s3 = s1 ++ (s2 ++ s3).
Proof.
  induction s1 as [|c s1 IH]; [reflexivity|]. rewrite !str_app_cons, IH. reflexivity.
Qed.

Lemma nonempty_app_r (s w : string) : nonempty w = true -> nonempty (s ++ w) = true.
Proof. destruct s; [intros H; exact H | reflexivity]. Qed.

Lemma split_ws_aux_word (cur w s : string) :
  Sample.no_space w = true -> split_ws_aux cur (w ++ s) = split_ws_aux (cur ++ w) s.
Proof.
  revert cur. induction w as [|c w IH]; intros cur Hw.
  - rewrite str_app_nil_r. reflexivity.
  - simpl in Hw. apply andb_prop in Hw as [Hc Hw]. apply negb_true_iff in Hc.
    rewrite str_app_cons. simpl split_ws_aux at 1.
    rewrite Hc, (IH _ Hw), str_app_assoc. reflexivity.
Qed.

Lemma split_ws_aux_end (cur : string) :
  nonempty cur = true -> split_ws_aux cur EmptyString = [cur].
Proof. destruct cur; [discriminate | reflexivity]. Qed.

Lemma split_ws_aux_blank (cur s : string) :
  nonempty cur = true ->
  split_ws_aux cur (String " " s) = cur :: split_ws_aux EmptyString s.
Proof. destruct cur; [discriminate | reflexivity]. Qed.

(** [" ".join(words).split() == words] *)
Lemma split_ws_join (words : list string) :
  Forall Sample.title_word words -> split_ws (join " " words) = words.
Proof.
  unfold split_ws. induction 1 as [|w rest [Hne Hns] Hrest IH]; [reflexivity|].
  destruct rest as [|w2 rest].
  - change (join " " [w]) with w. rewrite <- (str_app_nil_r w) at 1.
    rewrite (split_ws_aux_word _ _ _ Hns).
    change (EmptyString ++ w) with w. apply split_ws_aux_end, Hne.
  - change (join " " (w :: w2 :: rest)) with (w ++ String " " (join " " (w2 :: rest))).
    rewrite (split_ws_aux_word _ _ _ Hns). change (EmptyString ++ w) with w.
    rewrite (split_ws_aux_blank _ _ Hne), IH. reflexivity.
Qed.

Lemma rstrip_word (w : string) : Sample.title_word w -> rstrip w = w.
Proof.
  intros [Hne Hns]. induction w as [|c w IH]; [discriminate|].
  simpl in Hns. apply andb_prop in Hns as [Hc Hns]. apply negb_true_iff in Hc.
  simpl. destruct w as [|d w].
  - simpl. rewrite Hc. reflexivity.
  - rewrite (IH eq_refl Hns). reflexivity.
Qed.

Lemma rstrip_before_word (s w : string) :
  Sample.title_word w -> rstrip (s ++ w) = s ++ w.
Proof.
  intros Hw. induction s as [|c s IH]; [apply rstrip_word, Hw|].
  rewrite str_app_cons. simpl rstrip.
  rewrite IH. pose proof (nonempty_app_r s w (proj1 Hw)) as Hne.
  destruct (s ++ w); [discriminate | reflexivity].
Qed.

Lemma join_ends_with_word (words : list string) :
  Forall Sample.title_word words -> words <> [] ->
  exists s w, join " " words = s ++ w /\ Sample.title_word w.
Proof.
  induction 1 as [|w rest Hw Hrest IH]; intros Hne; [contradiction|].
  destruct rest as [|w2 rest].
  - exists EmptyString, w. split; [reflexivity | exact Hw].
  - destruct IH as (s & wl & Hjoin & Hwl); [discriminate|].
    exists (w ++ String " " s), wl. split; [|exact Hwl].
    change (join " " (w :: w2 :: rest)) with (w ++ String " " (join " " (w2 :: rest))).
    rewrite Hjoin, str_app_assoc. reflexivity.
Qed.

Lemma strip_join (words : list string) :
  Forall Sample.title_word words -> words <> [] ->
  strip (join " " words) = join " " words /\ nonempty (join " " words) = true.
Proof.
  intros Hwords Hne.
  destruct (join_ends_with_word words Hwords Hne) as (s & wl & Hjoin & Hwl).
  assert (Hhead : exists c t, join " " words = String c t /\ is_space c = false).
  { destruct Hwords as [|w rest [Hw Hns] _]; [contradiction|].
    destruct w as [|c w]; [discriminate|].
    simpl in Hns. apply andb_prop in Hns as [Hc _]. apply negb_true_iff in Hc.
    exists c. destruct rest; eexists; (split; [reflexivity | exact Hc]). }
  destruct Hhead as (c & t & Hct & Hc). split.
  - unfold strip. rewrite Hct, (lstrip_fixed c t Hc), <- Hct, Hjoin.
    apply rstrip_before_word, Hwl.
  - rewrite Hct. reflexivity.
Qed.

(** X21. A title that is a sequence of words written twice over is
    collapsed to the sequence written once: [clean_title] of
    [" ".join(words + words)] is [" ".join(words)]. *)
Theorem clean_title_collapses_repetition (words : list string) :
  Forall Sample.title_word words -> words <> [] ->
  clean_title (join " " (words ++ words)) = join " " words.
Proof.
  intros Hwords Hne.
  assert (Hdouble : Forall Sample.title_word (words ++ words))
    by (apply Forall_app; split; assumption).
  assert (Hne2 : (words ++ words)%list <> []) by (destruct words; [contradiction | discriminate]).
  destruct (strip_join _ Hdouble Hne2) as [Hstrip Hnonempty].
  unfold clean_title. rewrite Hnonempty, Hstrip, (split_ws_join _ Hdouble).
  assert (Hhalf : (length (words ++ words) / 2 = length words)%nat).
  { rewrite length_app. replace (length words + length words)%nat
      with (length words * 2)%nat by lia. apply Nat.div_mul. discriminate. }
  rewrite Hhalf, take_app_length, drop_app_length.
  assert (Hlen : (1 <? length (words ++ words))%nat = true).
  { apply Nat.ltb_lt. rewrite length_app. destruct words; [contradiction | simpl; lia]. }
  rewrite Hlen, bool_decide_eq_true_2 by reflexivity. reflexivity.
Qed.

Lemma clean_title_collapses_repetition_witness :
  clean_title (join " " (["Title"; "Page"] ++ ["Title"; "Page"])) = join " " ["Title"; "Page"].
Proof.
  apply (clean_title_collapses_repetition ["Title"; "Page"]).
  - repeat constructor.
  - discriminate.
Defined.

End IndexFurther.

(** *** The first content page, further *)

Section FirstPageFurther.
Import PDFProcessor.

Lemma is_space_lower_char (c : ascii) : is_space (lower_char c) = is_space c.
Proof. destruct c as [[] [] [] [] [] [] [] []]; reflexivity. Qed.

Lemma lstrip_lower (s : string) : lstrip (lower s) = lower (lstrip s).
Proof.
  induction s as [|c s IH]; simpl; [reflexivity|].
  rewrite is_space_lower_char. destruct (is_space c); [exact IH | reflexivity].
Qed.

Lemma rstrip_lower (s : string) : rstrip (lower s) = lower (rstrip s).
Proof.
  induction s as [|c s IH]; simpl; [reflexivity|].
  rewrite IH, is_space_lower_char.
  destruct (rstrip s); simpl; [destruct (is_space c)|]; reflexivity.
Qed.

Lemma length_lower (s : string) : String.length (lower s) = String.length s.
Proof. induction s as [|c s IH]; simpl; [reflexivity | rewrite IH; reflexivity]. Qed.

(** Lower-casing does not change what [strip] removes. *)
Lemma len_strip_lower (s : string) : len (strip (lower s)) = len (strip s).
Proof. unfold len, strip. rewrite lstrip_lower, rstrip_lower, length_lower. reflexivity. Qed.

Lemma primary_scan_hit (content_indicators : list regex)
    (min_text_length skip_pages start_page : Z) (scanned : list extracted) (n : Z) :
  primary_scan content_indicators min_text_length skip_pages start_page scanned = Some n ->
  exists i text,
    scanned !! i = Some (Text text)
    /\ n = start_page + Z.of_nat i
    /\ min_text_length <= len (strip text).
Proof.
  revert start_page. induction scanned as [|p rest IH]; intros start_page; simpl;
    [discriminate|].
  assert (Hnext : primary_scan content_indicators min_text_length skip_pages
                    (start_page + 1) rest = Some n ->
                  exists i text, (p :: rest) !! i = Some (Text text)
                    /\ n = start_page + Z.of_nat i
                    /\ min_text_length <= len (strip text)).
  { intros Hrest. destruct (IH _ Hrest) as (i & text & Hi & -> & Hlen).
    exists (S i), text. split; [exact Hi | split; [lia | exact Hlen]]. }
  destruct p as [text| |]; try exact Hnext.
  destruct (nonempty text); [|exact Hnext].
  destruct (Z.ltb_spec (len (strip (lower text))) min_text_length) as [|Hlen];
    [exact Hnext|].
  rewrite len_strip_lower in Hlen.
  assert (Hhere : Some start_page = Some n ->
                  exists i text0, (Text text :: rest) !! i = Some (Text text0)
                    /\ n = start_page + Z.of_nat i
                    /\ min_text_length <= len (strip text0)).
  { intros [= <-]. exists 0%nat, text. split; [reflexivity | split; [lia | exact Hlen]]. }
  destruct (existsb _ _); [exact Hhere|].
  destruct (_ && _); [exact Hhere | exact Hnext].
Qed.

Lemma fallback_scan_hit (min_text_length start_page : Z) (scanned : list extracted)
    (n : Z) :
  fallback_scan min_text_length start_page scanned = Some n ->
  exists i text,
    scanned !! i = Some (Text text)
    /\ n = start_page + Z.of_nat i
    /\ min_text_length <= len (strip text).
Proof.
  revert start_page. induction scanned as [|p rest IH]; intros start_page; simpl;
    [discriminate|].
  destruct (substantial min_text_length p) eqn:Hp.
  - intros [= <-]. destruct p as [text| |]; try discriminate.
    simpl in Hp. apply andb_prop in Hp as [_ Hlen]. apply Z.ltb_lt in Hlen.
    exists 0%nat, text. split; [reflexivity | split; lia].
  - intros Hrest. destruct (IH _ Hrest) as (i & text & Hi & -> & Hlen).
    exists (S i), text. split; [exact Hi | split; [lia | exact Hlen]].
Qed.

Lemma fallback_scan_miss (min_text_length start_page : Z) (scanned : list extracted) :
  fallback_scan min_text_length start_page scanned = None ->
  forall p, p ∈ scanned -> substantial min_text_length p = false.
Proof.
  revert start_page. induction scanned as [|q rest IH]; intros start_page; simpl.
  - intros _ p Hin. inversion Hin.
  - destruct (substantial min_text_length q) eqn:Hq; [discriminate|].
    intros Hrest p Hin. apply elem_of_cons in Hin as [-> | Hin]; [exact Hq|].
    apply (IH _ Hrest p Hin).
Qed.

(** The result of [identify_first_page] on an open document: a page that
    a scan found in the scanned range, or the default. *)
Lemma identify_first_page_cases (self : processor) (pages : list extracted) (n : Z) :
  pdf self = Some pages ->
  identify_first_page self = Returns n ->
  (exists i text,
      slice_from (skip_pages_of self) pages !! i = Some (Text text)
      /\ n = skip_pages_of self + 1 + Z.of_nat i
      /\ min_text_length_of self <= len (strip text))
  \/ (n = skip_pages_of self + 1
      /\ forall p, p ∈ slice_from (skip_pages_of self) pages ->
                   substantial (min_text_length_of self) p = false).
Proof.
  intros Hpdf. unfold identify_first_page. rewrite Hpdf.
  replace (skip_pages_of self + 1 - 1) with (skip_pages_of self) by lia.
  destruct (primary_scan _ _ _ _ _) as [m|] eqn:Hprimary.
  - intros [= <-]. left. apply (primary_scan_hit _ _ _ _ _ _ Hprimary).
  - destruct (fallback_scan _ _ _) as [m|] eqn:Hfallback.
    + intros [= <-]. left. apply (fallback_scan_hit _ _ _ _ Hfallback).
    + intros [= <-]. right. split; [reflexivity|].
      apply (fallback_scan_miss _ _ _ Hfallback).
Qed.

(** X13. With a skip count that is not negative, the page that
    [identify_first_page] returns is never a skipped page: in a document
    with more pages than the skip count it is a page of the document after
    the skip boundary, and in a document with no page to scan it is
    [skip_initial_pages + 1], which is past the last page. *)
Theorem identify_first_page_range (self : processor) (pages : list extracted) (n : Z) :
  pdf self = Some pages ->
  0 <= skip_pages_of self ->
  identify_first_page self = Returns n ->
  (skip_pages_of self < zlen pages -> skip_pages_of self < n <= zlen pages)
  /\ (zlen pages <= skip_pages_of self -> n = skip_pages_of self + 1).
Proof.
  intros Hpdf Hskip Hres.
  destruct (identify_first_page_cases self pages n Hpdf Hres)
    as [(i & text & Hi & -> & _) | [-> _]].
  - rewrite (scanned_page pages _ i Hskip) in Hi.
    apply lookup_lt_Some in Hi. unfold zlen. split; intros; lia.
  - split; intros; lia.
Qed.

Lemma identify_first_page_range_witness :
  (skip_pages_of Scenario.novel_processor < zlen
     [Text (Scenario.letters 150); NoText; NoText; NoText] ->
   skip_pages_of Scenario.novel_processor < 4
   <= zlen [Text (Scenario.letters 150); NoText; NoText; NoText])
  /\ (zlen [Text (Scenario.letters 150); NoText; NoText; NoText]
      <= skip_pages_of Scenario.novel_processor ->
      4 = skip_pages_of Scenario.novel_processor + 1).
Proof.
  apply (identify_first_page_range Scenario.novel_processor
           [Text (Scenario.letters 150); NoText; NoText; NoText] 4).
  - reflexivity.
  - vm_compute. discriminate.
  - vm_compute. reflexivity.
Defined.



End FirstPageFurther.

(** *** The processor *)

Section ProcessorProperties.
Import Processor.

Lemma analyze_book_type_short_book (samples : list string) (total_pages : Z) :
  total_pages <= 100 ->
  BookStructureAnalyzer.analyze_book_type samples total_pages <> NOVEL.
Proof.
  intros Hshort. unfold BookStructureAnalyzer.analyze_book_type.
  destruct (Z.ltb_spec 100 total_pages); [lia|].
  rewrite andb_false_r.
  repeat match goal with
  | |- context [if ?b then _ else _] => destruct b
  end; discriminate.
Qed.

Lemma take_str_length (n : nat) (s : string) : (String.length (take_str n s) <= n)%nat.
Proof.
  revert s. induction n as [|n IH]; intros s; simpl; [lia|].
  destruct s as [|c s]; simpl; [lia|]. specialize (IH s). lia.
Qed.

Lemma take_str_nonempty (n : nat) (s : string) :
  nonempty s = true -> nonempty (take_str (S n) s) = true.
Proof. destruct s; [discriminate | reflexivity]. Qed.

Lemma sample_at_bounded (self : processor) (idx : Z) (sample : string) :
  sample_at self idx = Some sample ->
  nonempty sample = true /\ len sample <= 1000.
Proof.
  unfold sample_at. destruct (_ <? _); [|discriminate].
  destruct (pdf self) as [pages|]; [|discriminate].
  destruct (py_index pages idx) as [page|]; [|discriminate].
  destruct (page_text page) as [text| |]; try discriminate.
  destruct (nonempty text) eqn:Htext; [|discriminate]. intros Heq.
  assert (Hsample : sample = take_str 1000 text) by congruence.
  rewrite Hsample. clear Heq Hsample. split.
  - apply (take_str_nonempty 999 text Htext).
  - pose proof (take_str_length 1000 text) as Hlen. unfold len.
    apply Nat2Z.inj_le in Hlen. exact Hlen.
Qed.

Lemma omap_length_le {A B : Type} (f : A -> option B) (l : list A) :
  (length (omap f l) <= length l)%nat.
Proof.
  induction l as [|x l IH]; csimpl; [lia|]. destruct (f x); csimpl; lia.
Qed.

(** On the indices that auto-configuration samples, [self.pdf.pages[idx]]
    is the page at that index: a negative index arises only in a document
    without pages. *)
Lemma sample_at_sample_of (self : processor) (pages : list pdf_page) (idx : Z) :
  pdf self = Some pages -> total_pages self = zlen pages ->
  0 <= idx \/ pages = [] ->
  sample_at self idx = Sample.sample_of pages idx.
Proof.
  intros Hpdf Htotal Hidx. unfold sample_at, Sample.sample_of.
  rewrite Hpdf, Htotal. destruct Hidx as [Hidx | ->].
  - destruct (Z.leb_spec 0 idx); [|lia]. rewrite andb_true_l.
    unfold py_index. destruct (Z.ltb_spec idx 0); [lia|]. reflexivity.
  - assert (Hnone : py_index (@nil pdf_page) idx = None).
    { unfold py_index. destruct (idx <? 0); [|reflexivity].
      destruct (- idx <=? zlen (@nil pdf_page)); reflexivity. }
    rewrite Hnone, lookup_nil.
    destruct (idx <? zlen (@nil pdf_page)); destruct (_ && _); reflexivity.
Qed.

Lemma sample_pages_of_document (self : processor) (pages : list pdf_page) :
  pdf self = Some pages -> total_pages self = zlen pages ->
  let n := zlen pages in
  sample_pages self
  = omap (Sample.sample_of pages)
         [0; Z.min 5 (n - 1); Z.min 10 (n - 1); n / 2; Z.max 0 (n - 5)].
Proof.
  intros Hpdf Htotal n. unfold sample_pages, sample_indices. rewrite Htotal.
  fold n.
  assert (Hn : 1 <= n \/ pages = []).
  { subst n. unfold zlen. destruct pages; [right; reflexivity | left; simpl; lia]. }
  assert (Hat : forall idx, (1 <= n -> 0 <= idx) ->
                  sample_at self idx = Sample.sample_of pages idx).
  { intros idx Hidx. apply sample_at_sample_of; try assumption.
    destruct Hn as [Hn | Hn]; [left; apply Hidx, Hn | right; exact Hn]. }
  csimpl.
  rewrite !Hat; [reflexivity | intros; try lia ..].
  apply Z.div_pos; lia.
Qed.

(** X15. Entering a processor that has no configuration always
    configures it.  The document is open with its page count [n]; the
    samples are the first 1000 characters of the non-empty texts of the
    pages at the 0-based indices 0, [min(5, n-1)], [min(10, n-1)], [n // 2]
    and [max(0, n-5)], in that order, so at most five; the book type is
    what [analyze_book_type] detects from these samples and [n], or
    Unknown when there is no sample; the configuration and both extractors
    are those of that book type; and a document of at most 100 pages is
    never taken for a novel, so none of its initial pages is skipped. *)
Theorem enter_auto_configures (self : processor) (pages : list pdf_page) :
  config self = None ->
  let opened := enter self pages in
  let n := zlen pages in
  let samples :=
    omap (Sample.sample_of pages)
         [0; Z.min 5 (n - 1); Z.min 10 (n - 1); n / 2; Z.max 0 (n - 5)] in
  let detected :=
    match samples with
    | [] => UNKNOWN
    | _ => BookStructureAnalyzer.analyze_book_type samples n
    end in
  pdf opened = Some pages
  /\ total_pages opened = n
  /\ sample_pages opened = samples
  /\ book_type opened = Some detected
  /\ config opened = Some (BookStructureAnalyzer.get_config_for_type detected)
  /\ index_extractor opened = config opened
  /\ table_extractor opened = config opened
  /\ (length samples <= 5)%nat
  /\ Forall (fun sample => nonempty sample = true /\ len sample <= 1000) samples
  /\ (samples = [] -> detected = UNKNOWN)
  /\ (n <= 100 ->
      detected <> NOVEL
      /\ skip_initial_pages (BookStructureAnalyzer.get_config_for_type detected) = 0).
Proof.
  intros Hconfig opened n samples detected.
  set (entered := {| pdf_path := pdf_path self; pdf := Some pages;
                     total_pages := zlen pages; config := config self;
                     book_type := book_type self;
                     index_extractor := index_extractor self;
                     table_extractor := table_extractor self |}).
  assert (Hopened : opened = _auto_configure entered).
  { subst opened. unfold enter. fold entered. cbn [config entered]. rewrite Hconfig.
    reflexivity. }
  assert (Hentered : sample_pages entered = samples)
    by (apply (sample_pages_of_document entered pages); reflexivity).
  assert (Hsamples : sample_pages opened = samples)
    by (rewrite Hopened; exact Hentered).
  assert (Hdetected : book_type opened = Some detected).
  { rewrite Hopened. unfold _auto_configure. cbn [book_type total_pages entered].
    rewrite Hentered. reflexivity. }
  assert (Hconfigured :
            config opened = Some (BookStructureAnalyzer.get_config_for_type detected)).
  { rewrite Hopened. unfold _auto_configure. cbn [config total_pages entered].
    rewrite Hentered. subst detected. destruct samples; reflexivity. }
  assert (Hshort : n <= 100 -> detected <> NOVEL).
  { intros Hle. subst detected. destruct samples; [discriminate|].
    apply analyze_book_type_short_book. exact Hle. }
  rewrite Hconfigured.
  split; [rewrite Hopened; reflexivity|].
  split; [rewrite Hopened; reflexivity|].
  split; [exact Hsamples|].
  split; [exact Hdetected|].
  split; [reflexivity|].
  split; [rewrite <- Hconfigured, Hopened; reflexivity|].
  split; [rewrite <- Hconfigured, Hopened; reflexivity|].
  split; [apply (omap_length_le (Sample.sample_of pages) [_; _; _; _; _])|].
  split.
  { rewrite <- Hentered. apply Forall_forall. intros sample Hin.
    apply list_elem_of_omap in Hin as (idx & _ & Hat).
    apply (sample_at_bounded entered idx sample Hat). }
  split.
  { intros Hnone. subst detected. rewrite Hnone. reflexivity. }
  intros Hle. split; [apply Hshort, Hle|].
  apply builtin_config_thresholds, Hshort, Hle.
Qed.

Lemma enter_auto_configures_witness :
  let opened := enter Sample.fresh_processor Sample.three_pages in
  let n := zlen Sample.three_pages in
  let samples :=
    omap (Sample.sample_of Sample.three_pages)
         [0; Z.min 5 (n - 1); Z.min 10 (n - 1); n / 2; Z.max 0 (n - 5)] in
  let detected :=
    match samples with
    | [] => UNKNOWN
    | _ => BookStructureAnalyzer.analyze_book_type samples n
    end in
  pdf opened = Some Sample.three_pages
  /\ total_pages opened = n
  /\ sample_pages opened = samples
  /\ book_type opened = Some detected
  /\ config opened = Some (BookStructureAnalyzer.get_config_for_type detected)
  /\ index_extractor opened = config opened
  /\ table_extractor opened = config opened
  /\ (length samples <= 5)%nat
  /\ Forall (fun sample => nonempty sample = true /\ len sample <= 1000) samples
  /\ (samples = [] -> detected = UNKNOWN)
  /\ (n <= 100 ->
      detected <> NOVEL
      /\ skip_initial_pages (BookStructureAnalyzer.get_config_for_type detected) = 0).
Proof.
  apply (enter_auto_configures Sample.fresh_processor Sample.three_pages).
  reflexivity.
Defined.

Lemma exists_lookup_cons {A : Type} (P : nat -> A -> Prop) (x : A) (l : list A) :
  (exists i y, (x :: l) !! i = Some y /\ P i y)
  <-> P 0%nat x \/ exists i y, l !! i = Some y /\ P (S i) y.
Proof.
  split.
  - intros ([|i] & y & Hi & HP).
    + injection Hi as <-. left. exact HP.
    + right. exists i, y. split; assumption.
  - intros [HP | (i & y & Hi & HP)].
    + exists 0%nat, x. split; [reflexivity | exact HP].
    + exists (S i), y. split; assumption.
Qed.

Lemma nonempty_len (text : string) : nonempty text = true -> 1 <= len text.
Proof. destruct text; [discriminate|]. intros _. unfold len. simpl. lia. Qed.

Lemma text_records_cons (page : pdf_page) (rest : list pdf_page) (page_num : Z)
    (r : page_record) :
  r ∈ text_records page_num (page :: rest)
  <-> Sample.record_of page page_num r \/ r ∈ text_records (page_num + 1) rest.
Proof.
  unfold Sample.record_of. simpl.
  destruct (page_text page) as [text| |].
  - destruct (nonempty text) eqn:Htext.
    + rewrite elem_of_cons. split.
      * intros [-> | Hin]; [left | right; exact Hin].
        split; [reflexivity|]. right. exists text. auto.
      * intros [[Hnum [(Hfail & _) | (text0 & [= <-] & _ & Htxt & Hcount)]] | Hin];
          [discriminate | left | right; exact Hin].
        destruct r; simpl in *; subst; reflexivity.
    + split; [intros Hin; right; exact Hin|].
      intros [[_ [(Hfail & _) | (text0 & [= <-] & Hne & _)]] | Hin];
        [discriminate | congruence | exact Hin].
  - split; [intros Hin; right; exact Hin|].
    intros [[_ [(Hfail & _) | (text0 & Htext & _)]] | Hin];
      [discriminate | discriminate | exact Hin].
  - rewrite elem_of_cons. split.
    + intros [-> | Hin]; [left | right; exact Hin].
      split; [reflexivity|]. left. auto.
    + intros [[Hnum [(_ & Htxt & Hcount) | (text0 & Htext & _)]] | Hin];
        [left | discriminate | right; exact Hin].
      destruct r; simpl in *; subst; reflexivity.
Qed.

Lemma text_records_elem (pages : list pdf_page) (page_num : Z) (r : page_record) :
  r ∈ text_records page_num pages
  <-> exists i page,
        pages !! i = Some page /\ Sample.record_of page (page_num + Z.of_nat i) r.
Proof.
  revert page_num. induction pages as [|page rest IH]; intros page_num.
  - split; [intros Hin; inversion Hin | intros (i & page & Hi & _); discriminate].
  - rewrite text_records_cons, IH,
      (exists_lookup_cons (fun i page => Sample.record_of page (page_num + Z.of_nat i) r)).
    replace (page_num + Z.of_nat 0) with page_num by lia.
    split; (intros [Hhere | (i & y & Hi & Hrec)]; [left; exact Hhere | right]);
      exists i, y; (split; [exact Hi|]).
    + replace (page_num + Z.of_nat (S i)) with (page_num + 1 + Z.of_nat i) by lia.
      exact Hrec.
    + replace (page_num + 1 + Z.of_nat i) with (page_num + Z.of_nat (S i)) by lia.
      exact Hrec.
Qed.

Lemma text_records_sorted (pages : list pdf_page) (page_num : Z) :
  Forall (fun r => page_num <= record_page_number r) (text_records page_num pages)
  /\ StronglySorted Z.lt (map record_page_number (text_records page_num pages)).
Proof.
  revert page_num. induction pages as [|page rest IH]; intros page_num; simpl.
  - split; constructor.
  - destruct (IH (page_num + 1)) as [Hall Hsorted].
    assert (Hall' : Forall (fun r => page_num <= record_page_number r)
                           (text_records (page_num + 1) rest)).
    { eapply Forall_impl; [exact Hall|]. intros r Hr. simpl in Hr. lia. }
    assert (Hcons : forall r0, record_page_number r0 = page_num ->
              Forall (fun r => page_num <= record_page_number r)
                     (r0 :: text_records (page_num + 1) rest)
              /\ StronglySorted Z.lt
                   (map record_page_number (r0 :: text_records (page_num + 1) rest))).
    { intros r0 Hr0. split.
      - constructor; [lia | exact Hall'].
      - simpl. constructor; [exact Hsorted|]. apply Forall_map.
        eapply Forall_impl; [exact Hall|]. intros r Hr. simpl in *. lia. }
    destruct (page_text page) as [text| |].
    + destruct (nonempty text); [apply Hcons; reflexivity | split; assumption].
    + split; assumption.
    + apply Hcons. reflexivity.
Qed.

(** X16. On an open document [extract_all_text] keeps one record per
    page whose extraction fails (empty text, zero characters) and one per
    page with text (the stripped text, with the character count of the
    unstripped text, at least 1), in increasing page order; a page whose
    text is missing or empty gets no record.  So a record counts zero
    characters exactly when the extraction of its page failed. *)
Theorem extract_all_text_records (self : processor) (pages : list pdf_page) :
  pdf self = Some pages ->
  exists data,
    extract_all_text self = Returns data
    /\ text_total_pages data = total_pages self
    /\ full_text data = join (nl ++ nl) (map record_text (text_pages data))
    /\ (forall r,
          r ∈ text_pages data
          <-> exists i page,
                pages !! i = Some page
                /\ Sample.record_of page (Z.of_nat i + 1) r)
    /\ StronglySorted Z.lt (map record_page_number (text_pages data))
    /\ (forall r, r ∈ text_pages data ->
          (char_count r = 0
           <-> exists i page,
                 pages !! i = Some page
                 /\ record_page_number r = Z.of_nat i + 1
                 /\ page_text page = PDFProcessor.Failure)).
Proof.
  intros Hpdf. unfold extract_all_text. rewrite Hpdf. eexists. split; [reflexivity|].
  cbn [text_total_pages full_text text_pages].
  assert (Helem : forall r,
            r ∈ text_records 1 pages
            <-> exists i page,
                  pages !! i = Some page /\ Sample.record_of page (Z.of_nat i + 1) r).
  { intros r. rewrite text_records_elem. split; intros (i & page & Hi & Hrec);
      exists i, page; (split; [exact Hi|]).
    - replace (Z.of_nat i + 1) with (1 + Z.of_nat i) by lia. exact Hrec.
    - replace (1 + Z.of_nat i) with (Z.of_nat i + 1) by lia. exact Hrec. }
  split; [reflexivity|]. split; [reflexivity|]. split; [exact Helem|].
  split; [apply text_records_sorted|].
  intros r Hin. apply Helem in Hin as (i & page & Hi & Hnum & Hrec). split.
  - intros Hzero. exists i, page. split; [exact Hi|]. split; [exact Hnum|].
    destruct Hrec as [(Hfail & _) | (text & _ & Htext & _ & Hcount)]; [exact Hfail|].
    apply nonempty_len in Htext. lia.
  - intros (i' & page' & Hi' & Hnum' & Hfail).
    assert (i' = i) by lia. subst i'. rewrite Hi in Hi'. injection Hi' as <-.
    destruct Hrec as [(_ & _ & Hcount) | (text & Htext & _)]; [exact Hcount | congruence].
Qed.

Lemma extract_all_text_records_witness :
  exists data,
    extract_all_text (enter Sample.fresh_processor Sample.three_pages) = Returns data
    /\ text_total_pages data
       = total_pages (enter Sample.fresh_processor Sample.three_pages)
    /\ full_text data = join (nl ++ nl) (map record_text (text_pages data))
    /\ (forall r,
          r ∈ text_pages data
          <-> exists i page,
                Sample.three_pages !! i = Some page
                /\ Sample.record_of page (Z.of_nat i + 1) r)
    /\ StronglySorted Z.lt (map record_page_number (text_pages data))
    /\ (forall r, r ∈ text_pages data ->
          (char_count r = 0
           <-> exists i page,
                 Sample.three_pages !! i = Some page
                 /\ record_page_number r = Z.of_nat i + 1
                 /\ page_text page = PDFProcessor.Failure)).
Proof.
  apply (extract_all_text_records
           (enter Sample.fresh_processor Sample.three_pages) Sample.three_pages).
  reflexivity.
Defined.

(** Ranges, sorted lists and sublists. *)

Lemma py_range_elem (a b n : Z) : n ∈ py_range a b <-> a <= n < b.
Proof.
  unfold py_range. rewrite list_elem_of_fmap. split.
  - intros (k & -> & Hk). apply elem_of_seq in Hk. lia.
  - intros Hn. exists (Z.to_nat (n - a)). split; [lia|]. apply elem_of_seq. lia.
Qed.

Lemma offsets_sorted (a : Z) (j m : nat) :
  StronglySorted Z.lt (map (fun k => a + Z.of_nat k) (seq j m)).
Proof.
  revert j. induction m as [|m IH]; intros j; simpl; constructor; [apply IH|].
  apply Forall_map, Forall_forall. intros k Hk.
  apply elem_of_seq in Hk. simpl. lia.
Qed.

Lemma py_range_sorted (a b : Z) : StronglySorted Z.lt (py_range a b).
Proof. apply offsets_sorted. Qed.

Lemma omap_sorted {B : Type} (f : Z -> option B) (key : B -> Z) (l : list Z) :
  (forall n d, f n = Some d -> key d = n) ->
  StronglySorted Z.lt l ->
  StronglySorted Z.lt (map key (omap f l)).
Proof.
  intros Hkey. induction 1 as [|x l Hsorted IH Hall]; csimpl; [constructor|].
  destruct (f x) as [d|] eqn:Hd; csimpl; [|exact IH].
  constructor; [exact IH|]. apply Forall_map, Forall_forall. intros d' Hin.
  apply list_elem_of_omap in Hin as (n & Hn & Hfn).
  rewrite (Hkey _ _ Hd), (Hkey _ _ Hfn).
  rewrite Forall_forall in Hall. apply Hall, Hn.
Qed.

Lemma sublist_sorted {A : Type} (R : A -> A -> Prop) (l1 l2 : list A) :
  sublist l1 l2 -> StronglySorted R l2 -> StronglySorted R l1.
Proof.
  induction 1 as [|x l1 l2 Hsub IH|x l1 l2 Hsub IH]; intros Hsorted.
  - constructor.
  - apply StronglySorted_inv in Hsorted as [Hrest Hall].
    constructor; [apply IH, Hrest|].
    apply Forall_forall. intros y Hy. rewrite Forall_forall in Hall.
    apply Hall. eapply elem_of_sublist; [exact Hy | exact Hsub].
  - apply StronglySorted_inv in Hsorted as [Hrest _]. apply IH, Hrest.
Qed.

Lemma sublist_map {A B : Type} (f : A -> B) (l1 l2 : list A) :
  sublist l1 l2 -> sublist (map f l1) (map f l2).
Proof.
  induction 1; simpl; [constructor | apply sublist_skip | apply sublist_cons];
    assumption.
Qed.

Lemma py_index_nonneg {A : Type} (xs : list A) (i : Z) :
  0 <= i -> py_index xs i = xs !! Z.to_nat i.
Proof. intros Hi. unfold py_index. destruct (Z.ltb_spec i 0); [lia | reflexivity]. Qed.

(** The page dictionaries prepared for the index extractor. *)
Lemma page_data_inv (pages : list pdf_page) (page_num : Z)
    (d : AdaptiveIndexExtractor.page) :
  page_data pages page_num = Some d ->
  AdaptiveIndexExtractor.page_number d = page_num
  /\ (1 <= page_num ->
      exists page,
        pages !! Z.to_nat (page_num - 1) = Some page
        /\ page_text page = PDFProcessor.Text (AdaptiveIndexExtractor.text d)
        /\ nonempty (AdaptiveIndexExtractor.text d) = true).
Proof.
  unfold page_data. destruct (py_index pages (page_num - 1)) as [page|] eqn:Hpage;
    [|discriminate].
  destruct (page_text page) as [text| |] eqn:Htext; try discriminate.
  destruct (nonempty text) eqn:Hne; [|discriminate]. intros [= <-]. split; [reflexivity|].
  intros Hpos. exists page. rewrite py_index_nonneg in Hpage by lia. auto.
Qed.

Lemma pages_data_sorted (pages : list pdf_page) (max_pages total : Z) :
  StronglySorted Z.lt
    (map AdaptiveIndexExtractor.page_number (pages_data pages max_pages total)).
Proof.
  unfold pages_data. apply omap_sorted; [|apply py_range_sorted].
  intros n d Hd. apply (page_data_inv pages n d Hd).
Qed.

Lemma pages_data_elem (pages : list pdf_page) (max_pages total : Z)
    (d : AdaptiveIndexExtractor.page) :
  d ∈ pages_data pages max_pages total ->
  1 <= AdaptiveIndexExtractor.page_number d <= Z.min max_pages total
  /\ exists page,
       pages !! Z.to_nat (AdaptiveIndexExtractor.page_number d - 1) = Some page
       /\ page_text page = PDFProcessor.Text (AdaptiveIndexExtractor.text d)
       /\ nonempty (AdaptiveIndexExtractor.text d) = true.
Proof.
  unfold pages_data. intros Hin. apply list_elem_of_omap in Hin as (n & Hn & Hd).
  apply py_range_elem in Hn. destruct (page_data_inv pages n d Hd) as [Hnum Hpage].
  rewrite Hnum. split; [lia | apply Hpage; lia].
Qed.

(** The pages of a result of the index extractor. *)
Lemma extract_located (config : ExtractionConfig)
    (pages : list AdaptiveIndexExtractor.page) (max_pages : option Z)
    (r : AdaptiveIndexExtractor.index_result) :
  AdaptiveIndexExtractor.extract config pages max_pages = Some r ->
  exists located,
    sublist located pages
    /\ (1 <= length located <= 3)%nat
    /\ AdaptiveIndexExtractor.result_pages r
       = map AdaptiveIndexExtractor.page_number located
    /\ min_index_entries config <= zlen (AdaptiveIndexExtractor.result_entries r).
Proof.
  intros Hex.
  destruct (extract_result_entries config pages max_pages r Hex) as [_ Hmin].
  revert Hex. unfold AdaptiveIndexExtractor.extract, AdaptiveIndexExtractor.located_pages.
  set (window := slice_to _ pages).
  destruct (locate_shape config window) as [-> | (p & extra & -> & Hsub & Hlen)];
    [discriminate|].
  destruct (_ <? _); [discriminate|]. intros [= <-].
  exists (p :: extra). split; [|split; [simpl; lia | split; [reflexivity | exact Hmin]]].
  etransitivity; [exact Hsub | apply slice_to_sublist].
Qed.

(** [extract_index] and [extract_tables] on an entered processor. *)
Lemma processor_index_returns
    (self : processor) (pages : list pdf_page) (c : ExtractionConfig)
    (max_pages_to_check : option Z) :
  pdf self = Some pages ->
  total_pages self = zlen pages ->
  config self = Some c ->
  index_extractor self = Some c ->
  exists result,
    extract_index self max_pages_to_check = Returns (self, result)
    /\ forall r, result = Some r ->
         min_index_entries c <= zlen (AdaptiveIndexExtractor.result_entries r).
Proof.
  intros Hpdf Htotal Hconfig Hextractor.
  unfold extract_index. rewrite Hpdf. cbn [config pdf total_pages].
  rewrite Hconfig, Hextractor. cbn [default option_map].
  destruct max_pages_to_check as [n|]; [destruct (n =? 0)|];
    (eexists; split;
       [f_equal; f_equal; destruct self; simpl in *; subst; reflexivity|]);
    intros r Hr; apply (extract_result_entries _ _ _ _ Hr).
Qed.

Lemma processor_tables_returns
    (self : processor) (pages : list pdf_page) (c : ExtractionConfig)
    (page_range : option (Z * Z)) :
  pdf self = Some pages ->
  table_extractor self = Some c ->
  exists tables, extract_tables self page_range = Returns (self, tables).
Proof.
  intros Hpdf Hextractor. unfold extract_tables. rewrite Hpdf.
  cbn [table_extractor]. rewrite Hextractor. cbn [default].
  eexists. f_equal. f_equal. destruct self; simpl in *; subst; reflexivity.
Qed.

(** X17. On an entered processor [extract_index] never raises and leaves
    the processor as it is.  The pages of an index it returns are one to
    three pages of the document, in increasing order, each among the first
    [min(max_pages, total_pages)] pages and each with non-empty text; and
    the index has at least [min_index_entries] entries. *)
Theorem processor_extract_index
    (self : processor) (pages : list pdf_page) (c : ExtractionConfig)
    (max_pages_to_check : option Z) :
  pdf self = Some pages ->
  total_pages self = zlen pages ->
  config self = Some c ->
  index_extractor self = Some c ->
  let max_pages := AdaptiveIndexExtractor.effective_max_pages c max_pages_to_check in
  exists result,
    extract_index self max_pages_to_check = Returns (self, result)
    /\ forall r, result = Some r ->
         StronglySorted Z.lt (AdaptiveIndexExtractor.result_pages r)
         /\ (1 <= length (AdaptiveIndexExtractor.result_pages r) <= 3)%nat
         /\ Forall (fun n =>
                      1 <= n <= Z.min max_pages (zlen pages)
                      /\ exists page text,
                           pages !! Z.to_nat (n - 1) = Some page
                           /\ page_text page = PDFProcessor.Text text
                           /\ nonempty text = true)
                   (AdaptiveIndexExtractor.result_pages r)
         /\ min_index_entries c <= zlen (AdaptiveIndexExtractor.result_entries r).
Proof.
  intros Hpdf Htotal Hconfig Hextractor max_pages.
  assert (Hmax : match max_pages_to_check with
                 | Some n => if n =? 0 then option_map max_index_pages (config self)
                             else Some n
                 | None => option_map max_index_pages (config self)
                 end = Some max_pages).
  { subst max_pages. unfold AdaptiveIndexExtractor.effective_max_pages.
    rewrite Hconfig. destruct max_pages_to_check as [n|]; [|reflexivity].
    destruct (n =? 0); reflexivity. }
  unfold extract_index. rewrite Hpdf. cbn [config pdf total_pages]. rewrite Hmax.
  rewrite Hextractor, Htotal. cbn [default].
  eexists. split.
  { f_equal. f_equal. destruct self; simpl in *; subst; reflexivity. }
  intros r Hr.
  destruct (extract_located _ _ _ _ Hr) as (located & Hsub & Hlen & Hpages & Hmin).
  rewrite Hpages. split; [|split; [rewrite length_map; exact Hlen | split; [|exact Hmin]]].
  - eapply sublist_sorted; [apply sublist_map, Hsub | apply pages_data_sorted].
  - apply Forall_map, Forall_forall. intros d Hd.
    pose proof (elem_of_sublist _ _ _ Hd Hsub) as Hin.
    destruct (pages_data_elem _ _ _ _ Hin) as (Hrange & page & Hpage & Htext & Hne).
    split; [exact Hrange|]. exists page, (AdaptiveIndexExtractor.text d). auto.
Qed.

Lemma processor_extract_index_witness :
  let self := enter Sample.fresh_processor Sample.three_pages in
  let max_pages := AdaptiveIndexExtractor.effective_max_pages default_config None in
  exists result,
    extract_index self None = Returns (self, result)
    /\ forall r, result = Some r ->
         StronglySorted Z.lt (AdaptiveIndexExtractor.result_pages r)
         /\ (1 <= length (AdaptiveIndexExtractor.result_pages r) <= 3)%nat
         /\ Forall (fun n =>
                      1 <= n <= Z.min max_pages (zlen Sample.three_pages)
                      /\ exists page text,
                           Sample.three_pages !! Z.to_nat (n - 1) = Some page
                           /\ page_text page = PDFProcessor.Text text
                           /\ nonempty text = true)
                   (AdaptiveIndexExtractor.result_pages r)
         /\ min_index_entries default_config
            <= zlen (AdaptiveIndexExtractor.result_entries r).
Proof.
  apply (processor_extract_index (enter Sample.fresh_processor Sample.three_pages)
           Sample.three_pages default_config None);
    vm_compute; reflexivity.
Defined.

(** The tables of the pages of a range. *)

Lemma extract_from_page_number (config : ExtractionConfig)
    (tables : list AdaptiveTableExtractor.raw_table) (page_num idx : Z)
    (valid_tables out : list AdaptiveTableExtractor.structured_table) :
  Forall (fun st => AdaptiveTableExtractor.page_number st = page_num) valid_tables ->
  AdaptiveTableExtractor.extract_from config idx tables page_num valid_tables
  = Returns out ->
  Forall (fun st => AdaptiveTableExtractor.page_number st = page_num) out.
Proof.
  revert idx valid_tables.
  induction tables as [|table tables IH]; intros idx valid_tables Hvalid; simpl.
  - intros [= <-]. exact Hvalid.
  - destruct table as [|r rows]; [apply IH, Hvalid|].
    destruct (AdaptiveTableExtractor._validate_table config (r :: rows)) as [[|]|];
      [| apply IH, Hvalid | discriminate].
    destruct (AdaptiveTableExtractor._structure_table (r :: rows) page_num (idx + 1))
      as [st|] eqn:Hst; [|apply IH, Hvalid].
    apply IH. apply Forall_app. split; [exact Hvalid|]. constructor; [|constructor].
    destruct (structure_table_inv _ _ _ _ Hst) as (hd & ds & _ & ->). reflexivity.
Qed.

Lemma extract_page_tables_page_number (c : ExtractionConfig) (page : pdf_page)
    (page_num : Z) :
  Forall (fun st => AdaptiveTableExtractor.page_number st = page_num
                    /\ Sample.table_shape st)
         (extract_page_tables c page page_num).
Proof.
  unfold extract_page_tables. destruct (page_tables page) as [tables|]; [|constructor].
  apply Forall_and. split.
  - unfold AdaptiveTableExtractor.extract.
    destruct (AdaptiveTableExtractor.extract_from c 0 tables page_num []) as [out|] eqn:Hout;
      [|constructor].
    eapply extract_from_page_number; [|exact Hout]. constructor.
  - apply extract_rows_match_header.
Qed.

Lemma tables_at_page_number (c : ExtractionConfig) (pages : list pdf_page)
    (page_num : Z) :
  Forall (fun st => AdaptiveTableExtractor.page_number st = page_num
                    /\ Sample.table_shape st)
         (tables_at c pages page_num).
Proof.
  unfold tables_at. destruct (py_index pages (page_num - 1)); [|constructor].
  apply extract_page_tables_page_number.
Qed.

Lemma elem_of_concat_map {A B : Type} (f : A -> list B) (l : list A) (y : B) :
  y ∈ concat (map f l) <-> exists x, x ∈ l /\ y ∈ f x.
Proof.
  induction l as [|x l IH]; simpl.
  - split; [intros Hin; inversion Hin | intros (x & Hx & _); inversion Hx].
  - rewrite elem_of_app, IH. split.
    + intros [Hy | (x' & Hx' & Hy)].
      * exists x. split; [apply list_elem_of_here | exact Hy].
      * exists x'. split; [apply list_elem_of_further, Hx' | exact Hy].
    + intros (x' & Hx' & Hy). apply elem_of_cons in Hx' as [-> | Hx'].
      * left. exact Hy.
      * right. exists x'. split; assumption.
Qed.

Lemma constant_sorted (n : Z) (l : list Z) :
  Forall (fun m => m = n) l -> StronglySorted Z.le l.
Proof.
  induction 1 as [|m l -> Hall IH]; constructor; [exact IH|].
  eapply Forall_impl; [exact Hall|]. intros m ->. lia.
Qed.

Lemma sorted_app {A : Type} (R : A -> A -> Prop) (l1 l2 : list A) :
  StronglySorted R l1 -> StronglySorted R l2 ->
  (forall x1 x2, x1 ∈ l1 -> x2 ∈ l2 -> R x1 x2) ->
  StronglySorted R (l1 ++ l2)%list.
Proof.
  intros H1 H2. induction H1 as [|x l1 H1 IH Hall]; intros Hcross; simpl; [exact H2|].
  constructor.
  - apply IH. intros x1 x2 Hx1 Hx2. apply Hcross; [apply list_elem_of_further, Hx1 | exact Hx2].
  - apply Forall_app. split; [exact Hall|].
    apply Forall_forall. intros x2 Hx2. apply Hcross; [apply list_elem_of_here | exact Hx2].
Qed.

Lemma concat_sorted {B : Type} (key : B -> Z) (f : Z -> list B) (l : list Z) :
  (forall n, Forall (fun y => key y = n) (f n)) ->
  StronglySorted Z.lt l ->
  StronglySorted Z.le (map key (concat (map f l))).
Proof.
  intros Hkey. induction 1 as [|x l Hsorted IH Hall]; simpl; [constructor|].
  rewrite map_app. apply sorted_app; [| exact IH |].
  - apply (constant_sorted x). apply Forall_map. apply (Hkey x).
  - intros k1 k2 Hk1 Hk2.
    apply list_elem_of_fmap in Hk1 as (y1 & -> & Hy1).
    apply list_elem_of_fmap in Hk2 as (y2 & -> & Hy2).
    apply elem_of_concat_map in Hy2 as (n & Hn & Hy2).
    pose proof (Hkey x) as Hx. pose proof (Hkey n) as Hn'.
    rewrite Forall_forall in Hx. rewrite Forall_forall in Hn'.
    rewrite Forall_forall in Hall.
    rewrite (Hx _ Hy1), (Hn' _ Hy2). specialize (Hall _ Hn). lia.
Qed.

(** X18. On an open document with a table extractor, [extract_tables]
    over a range that starts at page 1 or later never raises and leaves
    the processor as it is.  It returns the tables of the pages of the
    range that exist, page after page: each table carries the number of
    its page, between the start of the range and [min(end, total_pages)],
    page numbers never decrease along the result, and every table has
    rows as wide as its header. *)
Theorem processor_extract_tables
    (self : processor) (pages : list pdf_page) (c : ExtractionConfig)
    (page_range : option (Z * Z)) :
  pdf self = Some pages ->
  total_pages self = zlen pages ->
  table_extractor self = Some c ->
  let start_page := match page_range with Some (a, _) => a | None => 1 end in
  let end_page := match page_range with Some (_, b) => b | None => zlen pages end in
  1 <= start_page ->
  exists tables,
    extract_tables self page_range = Returns (self, tables)
    /\ (forall st,
          st ∈ tables
          <-> exists n page,
                start_page <= n <= Z.min end_page (zlen pages)
                /\ pages !! Z.to_nat (n - 1) = Some page
                /\ st ∈ extract_page_tables c page n)
    /\ Forall (fun st =>
                 start_page <= AdaptiveTableExtractor.page_number st
                 <= Z.min end_page (zlen pages)
                 /\ Sample.table_shape st) tables
    /\ StronglySorted Z.le (map AdaptiveTableExtractor.page_number tables).
Proof.
  intros Hpdf Htotal Hextractor start_page end_page Hstart.
  unfold extract_tables. rewrite Hpdf. cbn [total_pages table_extractor].
  rewrite Hextractor, Htotal. cbn [default]. fold start_page. fold end_page.
  set (range := py_range start_page (Z.min (end_page + 1) (zlen pages + 1))).
  exists (concat (map (tables_at c pages) range)). split.
  { f_equal. f_equal. destruct self; simpl in *; subst; reflexivity. }
  assert (Helem : forall st,
            st ∈ concat (map (tables_at c pages) range)
            <-> exists n page,
                  start_page <= n <= Z.min end_page (zlen pages)
                  /\ pages !! Z.to_nat (n - 1) = Some page
                  /\ st ∈ extract_page_tables c page n).
  { intros st. rewrite elem_of_concat_map. split.
    - intros (n & Hn & Hst). apply py_range_elem in Hn. unfold tables_at in Hst.
      rewrite py_index_nonneg in Hst by lia.
      destruct (pages !! Z.to_nat (n - 1)) as [page|] eqn:Hpage; [|inversion Hst].
      exists n, page. split; [lia | split; [exact Hpage | exact Hst]].
    - intros (n & page & Hn & Hpage & Hst). exists n. split; [apply py_range_elem; lia|].
      unfold tables_at. rewrite py_index_nonneg by lia. rewrite Hpage. exact Hst. }
  split; [exact Helem|]. split.
  - apply Forall_forall. intros st Hst.
    apply elem_of_concat_map in Hst as (n & Hn & Hst). apply py_range_elem in Hn.
    pose proof (tables_at_page_number c pages n) as Hall.
    rewrite Forall_forall in Hall. destruct (Hall _ Hst) as [-> Hshape].
    split; [lia | exact Hshape].
  - apply concat_sorted; [|apply py_range_sorted].
    intros n. eapply Forall_impl; [apply tables_at_page_number|].
    intros st [Hnum _]. exact Hnum.
Qed.

Lemma processor_extract_tables_witness :
  let self := enter Sample.fresh_processor Sample.three_pages in
  exists tables,
    extract_tables self (Some (1, 3)) = Returns (self, tables)
    /\ (forall st,
          st ∈ tables
          <-> exists n page,
                1 <= n <= Z.min 3 (zlen Sample.three_pages)
                /\ Sample.three_pages !! Z.to_nat (n - 1) = Some page
                /\ st ∈ extract_page_tables default_config page n)
    /\ Forall (fun st =>
                 1 <= AdaptiveTableExtractor.page_number st
                 <= Z.min 3 (zlen Sample.three_pages)
                 /\ Sample.table_shape st) tables
    /\ StronglySorted Z.le (map AdaptiveTableExtractor.page_number tables).
Proof.
  apply (processor_extract_tables (enter Sample.fresh_processor Sample.three_pages)
           Sample.three_pages default_config (Some (1, 3)));
    vm_compute; try reflexivity; discriminate.
Defined.

(** Counters of the summary. *)

Lemma text_records_length (pages : list pdf_page) (page_num : Z) :
  (length (text_records page_num pages) <= length pages)%nat.
Proof.
  revert page_num. induction pages as [|page rest IH]; intros page_num; simpl; [lia|].
  specialize (IH (page_num + 1)).
  destruct (page_text page) as [text| |]; [destruct (nonempty text)|..]; simpl; lia.
Qed.

Lemma filter_length_le {A : Type} (f : A -> bool) (l : list A) :
  (length (List.filter f l) <= length l)%nat.
Proof. induction l as [|x l IH]; simpl; [lia|]. destruct (f x); simpl; lia. Qed.

(** X19. On an entered processor [extract_structured_content] never
    raises and leaves the processor as it is.  Its first content page is
    the result of [identify_first_page]; its summary says that an index
    was found exactly when there is one, counts its entries, at least
    [min_index_entries] of them, and zero entries when there is none;
    counts the tables; and counts no more text pages than there are text
    records, themselves no more than the pages of the document. *)
Theorem extract_structured_content_summary
    (self : processor) (pages : list pdf_page) (c : ExtractionConfig) :
  pdf self = Some pages ->
  total_pages self = zlen pages ->
  config self = Some c ->
  index_extractor self = Some c ->
  table_extractor self = Some c ->
  exists content,
    extract_structured_content self = Returns (self, content)
    /\ identify_first_page self = Returns (first_content_page content)
    /\ summary_first_content_page (content_summary content) = first_content_page content
    /\ content_total_pages content = zlen pages
    /\ match index content with
       | Some r =>
           index_found (content_summary content) = true
           /\ index_entries_count (content_summary content)
              = zlen (AdaptiveIndexExtractor.result_entries r)
           /\ min_index_entries c <= index_entries_count (content_summary content)
       | None =>
           index_found (content_summary content) = false
           /\ index_entries_count (content_summary content) = 0
       end
    /\ tables_count (content_summary content) = zlen (tables content)
    /\ total_text_pages (content_summary content)
       <= zlen (text_pages (text_extraction content))
       <= zlen pages.
Proof.
  intros Hpdf Htotal Hconfig Hindex Htable.
  destruct (processor_index_returns self pages c None Hpdf Htotal Hconfig Hindex)
    as (result & Hresult & Hmin).
  destruct (processor_tables_returns self pages c None Hpdf Htable)
    as (tables_data & Htables).
  assert (Hfirst : exists first_page, identify_first_page self = Returns first_page).
  { unfold identify_first_page, PDFProcessor.identify_first_page. cbn. rewrite Hpdf. cbn.
    destruct (PDFProcessor.primary_scan _ _ _ _ _); [eexists; reflexivity|].
    destruct (PDFProcessor.fallback_scan _ _ _); eexists; reflexivity. }
  destruct Hfirst as [first_page Hfirst].
  unfold extract_structured_content.
  unfold extract_all_text at 1. rewrite Hpdf, Hfirst, Hresult, Htables.
  eexists. split; [reflexivity|].
  cbn [first_content_page content_summary summary_first_content_page
       content_total_pages index index_found index_entries_count tables_count
       tables total_text_pages text_extraction text_pages].
  split; [reflexivity|]. split; [reflexivity|]. split; [exact Htotal|].
  split.
  { destruct result as [r|]; [|split; reflexivity].
    split; [reflexivity|]. split; [reflexivity|]. apply Hmin. reflexivity. }
  split; [reflexivity|].
  unfold zlen. pose proof (text_records_length pages 1).
  pose proof (filter_length_le (fun p => nonempty (record_text p)) (text_records 1 pages)).
  lia.
Qed.

Lemma extract_structured_content_summary_witness :
  let self := enter Sample.fresh_processor Sample.three_pages in
  exists content,
    extract_structured_content self = Returns (self, content)
    /\ identify_first_page self = Returns (first_content_page content)
    /\ summary_first_content_page (content_summary content) = first_content_page content
    /\ content_total_pages content = zlen Sample.three_pages
    /\ match index content with
       | Some r =>
           index_found (content_summary content) = true
           /\ index_entries_count (content_summary content)
              = zlen (AdaptiveIndexExtractor.result_entries r)
           /\ min_index_entries default_config
              <= index_entries_count (content_summary content)
       | None =>
           index_found (content_summary content) = false
           /\ index_entries_count (content_summary content) = 0
       end
    /\ tables_count (content_summary content) = zlen (tables content)
    /\ total_text_pages (content_summary content)
       <= zlen (text_pages (text_extraction content))
       <= zlen Sample.three_pages.
Proof.
  apply (extract_structured_content_summary
           (enter Sample.fresh_processor Sample.three_pages)
           Sample.three_pages default_config);
    vm_compute; reflexivity.
Defined.

(** X20. A processor is created only for a path that exists, and until
    it is entered it has no open document: every extraction method
    raises. *)
Theorem unopened_processor_raises
    (path : string) (configuration : option ExtractionConfig)
    (max_pages_to_check : option Z) (page_range : option (Z * Z)) :
  init path false configuration = Raises
  /\ exists self,
       init path true configuration = Returns self
       /\ pdf self = None
       /\ extract_all_text self = Raises
       /\ identify_first_page self = Raises
       /\ extract_index self max_pages_to_check = Raises
       /\ extract_tables self page_range = Raises
       /\ extract_structured_content self = Raises.
Proof.
  split; [reflexivity|]. eexists. split; [reflexivity|]. repeat split.
Qed.

(** The configuration that auto-configuration leaves, and its skip count. *)
Lemma enter_skip_count (self : processor) (pages : list pdf_page) :
  config self = None ->
  exists c,
    pdf (enter self pages) = Some pages
    /\ config (enter self pages) = Some c
    /\ 0 <= skip_initial_pages c
    /\ (1 <= zlen pages -> skip_initial_pages c < zlen pages).
Proof.
  intros Hconfig.
  set (entered := {| pdf_path := pdf_path self; pdf := Some pages;
                     total_pages := zlen pages; config := config self;
                     book_type := book_type self;
                     index_extractor := index_extractor self;
                     table_extractor := table_extractor self |}).
  assert (Hopened : enter self pages = _auto_configure entered).
  { unfold enter. fold entered. cbn [config entered]. rewrite Hconfig. reflexivity. }
  rewrite Hopened. unfold _auto_configure. cbn [pdf config total_pages entered].
  destruct (sample_pages entered) as [|sample samples].
  - exists default_config. repeat split; cbn; lia.
  - set (detected := BookStructureAnalyzer.analyze_book_type (sample :: samples)
                       (zlen pages)).
    exists (BookStructureAnalyzer.get_config_for_type detected).
    split; [reflexivity|]. split; [reflexivity|].
    destruct (Z.le_gt_cases (zlen pages) 100) as [Hshort | Hlong].
    + pose proof (analyze_book_type_short_book (sample :: samples) _ Hshort) as Hnot.
      fold detected in Hnot.
      pose proof (builtin_config_thresholds detected) as (_ & _ & _ & _ & _ & _ & _ & _ & Hskip).
      rewrite (Hskip Hnot). split; lia.
    + destruct detected; cbn; split; lia.
Qed.

(** X22. After auto-configuration the first content page of a document
    that has at least one page is a page of that document: the skip count
    that a detected book type brings is always smaller than the page
    count. *)
Theorem auto_configured_first_page_in_document
    (self : processor) (pages : list pdf_page) :
  config self = None ->
  1 <= zlen pages ->
  exists n,
    identify_first_page (enter self pages) = Returns n
    /\ 1 <= n <= zlen pages.
Proof.
  intros Hconfig Hpages.
  destruct (enter_skip_count self pages Hconfig) as (c & Hpdf & Hc & Hskip0 & Hskip).
  specialize (Hskip Hpages).
  assert (Hview : PDFProcessor.pdf (first_page_view (enter self pages))
                  = Some (map page_text pages)).
  { unfold first_page_view. cbn. rewrite Hpdf. reflexivity. }
  assert (Hskips : PDFProcessor.skip_pages_of (first_page_view (enter self pages))
                   = skip_initial_pages c).
  { unfold PDFProcessor.skip_pages_of, first_page_view. cbn. rewrite Hc. reflexivity. }
  assert (Hreturns : exists n, identify_first_page (enter self pages) = Returns n).
  { unfold identify_first_page, PDFProcessor.identify_first_page. rewrite Hview.
    destruct (PDFProcessor.primary_scan _ _ _ _ _); [eexists; reflexivity|].
    destruct (PDFProcessor.fallback_scan _ _ _); eexists; reflexivity. }
  destruct Hreturns as [n Hn]. exists n. split; [exact Hn|].
  assert (Hlen : zlen (map page_text pages) = zlen pages)
    by (unfold zlen; rewrite length_map; reflexivity).
  destruct (identify_first_page_cases _ _ n Hview Hn)
    as [(i & text & Hi & -> & _) | [-> _]]; rewrite Hskips in *.
  - rewrite (scanned_page _ _ i Hskip0) in Hi. apply lookup_lt_Some in Hi.
    unfold zlen in *. lia.
  - lia.
Qed.

Lemma auto_configured_first_page_in_document_witness :
  exists n,
    identify_first_page (enter Sample.fresh_processor Sample.three_pages) = Returns n
    /\ 1 <= n <= zlen Sample.three_pages.
Proof.
  apply (auto_configured_first_page_in_document Sample.fresh_processor Sample.three_pages).
  - reflexivity.
  - vm_compute. discriminate.
Defined.

End ProcessorProperties.
